(** * EXC10-Test1-FOM_Newton_optimal_parameter_computation.ipynb

    A shallow embedding of the code cells of the notebook
    [notebooks/Paper1_simulations/Model_Problem_2_EXC_10_Parameters_5e-4/
     EXC10-Test1-FOM_Newton_optimal_parameter_computation.ipynb].

    The notebook is a Python script.  Its statements are transcribed one by
    one into an abstract syntax ([expr], [stmt]); every statement carries the
    line of the .ipynb file on which it starts.  An interpreter ([eval],
    [exec]) runs the script against a [Library]: the functions and objects
    of numpy, matplotlib, pyMOR and pdeopt, none of which is part of the
    file, are an oracle.  Numbers are rationals: every literal of the
    notebook is a decimal and is represented exactly; floating point
    rounding inside the libraries is not modelled. *)

From Stdlib Require Import QArith ZArith List Ascii String Bool Lia.

Import ListNotations.

Set Warnings "-register-all".

Open Scope string_scope.

Open Scope Q_scope.

(** ** Syntax *)

Inductive binop := Div | Sub.

Inductive expr :=
| Name (x : string)
| Num (q : Q)
| Str (s : string)
| NoneLit
| BoolLit (b : bool)
| ListE (es : list expr)
| TupleE (es : list expr)
| DictE (kvs : list (string * expr))
| Attr (e : expr) (a : string)
| Subscript (e : expr) (i : expr)
| Call (f : expr) (args : list expr) (kwargs : list (string * expr))
| BinOp (op : binop) (a b : expr)
| Neg (e : expr)
| Is (a b : expr).

(** The first argument of a statement is its line in the .ipynb file. *)
Inductive stmt :=
| Import (ln : nat) (module : string) (asname : string)
| FromImport (ln : nat) (module : string) (names : list (string * string))
| Assign (ln : nat) (target : expr) (e : expr)
| ExprS (ln : nat) (e : expr)
| For (ln : nat) (x : string) (iter : expr) (body : list stmt)
| If (ln : nat) (c : expr) (th el : list stmt)
| Try (ln : nat) (body handler : list stmt).

Definition line (s : stmt) : nat :=
  match s with
  | Import n _ _ | FromImport n _ _ | Assign n _ _ | ExprS n _
  | For n _ _ _ | If n _ _ _ | Try n _ _ => n
  end.

(** Abbreviations used by the transcription.  [from m import a, b] binds
    each name to itself: [plain ["a"; "b"]]. *)
Definition plain (xs : list string) : list (string * string) :=
  map (fun x => (x, x)) xs.

Definition nums (qs : list Q) : expr := ListE (map Num qs).

Definition call (f : string) (args : list expr) (kw : list (string * expr)) : expr :=
  Call (Name f) args kw.

Definition method (o : expr) (m : string) (args : list expr)
  (kw : list (string * expr)) : expr := Call (Attr o m) args kw.

(** ** The notebook, cell by cell *)

(** Cell [1], lines 103-111. *)
Definition cell1 : list stmt :=
  [ Import 103 "sys" "sys";
    Assign 104 (Name "path") (Str "../../");
    ExprS 105 (method (Attr (Name "sys") "path") "append" [Name "path"] []);
    Import 106 "numpy" "np";
    FromImport 108 "matplotlib" [("pyplot", "plt")];
    FromImport 110 "pymor.basic" (plain ["*"]);
    ExprS 111 (call "set_log_levels" [DictE [("pymor", Str "WARN")]] []) ].

(** Cell [2], lines 120-133. *)
Definition cell2 : list stmt :=
  [ FromImport 120 "pymor.core.logger" (plain ["set_log_levels"; "getLogger"]);
    ExprS 121 (call "set_log_levels"
      [DictE [("pymor", Str "ERROR");
              ("distributed_adaptive_discretizations", Str "DEBUG");
              ("notebook", Str "INFO")]] []);
    Assign 124 (Name "logger") (call "getLogger" [Str "notebook.notebook"] []);
    Import 125 "matplotlib" "mpl";
    Assign 126 (Subscript (Attr (Name "mpl") "rcParams") (Str "figure.figsize"))
               (TupleE [Num 12.0; Num 8.0]);
    Assign 127 (Subscript (Attr (Name "mpl") "rcParams") (Str "font.size")) (Num 12);
    Assign 128 (Subscript (Attr (Name "mpl") "rcParams") (Str "savefig.dpi")) (Num 300);
    Assign 130 (Name "data_path") (Str "../../../EXC_data");
    Assign 132 (Name "bounding_box") (ListE [nums [0; 0]; nums [2; 1]]);
    Assign 133 (Name "domain_of_interest")
      (call "BitmapFunction"
         [method (Str "{}/Domain_of_interest.png") "format" [Name "data_path"] []]
         [("range", nums [1; 0]); ("bounding_box", Name "bounding_box")]) ].

(** Cell [3], lines 163-198. *)
Definition cell3 : list stmt :=
  [ FromImport 163 "pdeopt.problems" (plain ["EXC_problem"; "set_input_dict"]);
    FromImport 164 "pdeopt.discretizer" (plain ["discretize_quadratic_pdeopt_stationary_cg"]);
    Assign 166 (Name "parametric_quantities")
      (DictE [("walls", nums [1; 4; 9]); ("windows", ListE []); ("doors", ListE []);
              ("heaters", nums [1; 3; 5; 6; 7; 8; 9])]);
    Assign 167 (Name "inactive_quantities")
      (DictE [("removed_walls", ListE []); ("open_windows", ListE []);
              ("open_doors", nums [1; 2; 3; 4; 5; 6; 7; 10]);
              ("active_heaters", ListE [])]);
    Assign 168 (Name "summed_quantities")
      (DictE [("walls", ListE [nums [1; 2; 3; 8]; nums [4; 5; 6; 7]]);
              ("windows", ListE []); ("doors", ListE []);
              ("heaters", ListE [nums [1; 2]; nums [3; 4]; nums [9; 10; 11; 12]])]);
    Assign 170 (Name "coefficient_expressions") NoneLit;
    Assign 172 (Name "parameters_in_q") (BoolLit true);
    Assign 173 (Name "input_dict")
      (call "set_input_dict"
         [Name "parametric_quantities"; Name "inactive_quantities";
          Name "coefficient_expressions"; Name "summed_quantities";
          Name "parameters_in_q"]
         [("ac", Num 0.5); ("owc", nums [0.025; 0.1]); ("iwc", nums [0.025; 0.1]);
          ("idc", nums [0.005]); ("wc", nums [0.0005]); ("ht", nums [0; 100]);
          ("owc_c", Num 0.001); ("iwc_c", Num 0.025); ("idc_c", Num 0.01);
          ("wc_c", Num 0.025); ("ht_c", Num 80)]);
    Assign 178 (Name "parameter_scaling") (BoolLit false);
    Assign 179 (Name "u_out") (Num 5);
    Assign 181 (TupleE [Name "problem"; Name "parameter_scales"])
      (call "EXC_problem" [Name "input_dict"; Name "summed_quantities"]
         [("outside_temperature", Name "u_out"); ("data_path", Name "data_path");
          ("parameters_in_q", Name "parameters_in_q");
          ("parameter_scaling", Name "parameter_scaling");
          ("coefficient_expressions", Name "coefficient_expressions")]);
    Assign 186 (Name "u_d") (Num 18);
    Assign 188 (Name "mu_d") NoneLit;
    Assign 190 (Name "sigma_d") (Num 100);
    Assign 191 (Name "weights")
      (DictE [("walls", nums [0.5; 0.25; 0.05]); ("doors", Num 1);
              ("heaters", nums [0.002; 0.002; 0.001; 0.001; 0.001; 0.001; 0.004]);
              ("windows", Num 1); ("state", Name "sigma_d")]);
    Assign 193 (Name "diameter")
      (BinOp Div (method (Name "np") "sqrt" [Num 2] []) (Num 200));
    Assign 194 (TupleE [Name "opt_fom"; Name "data"; Name "mu_bar"])
      (call "discretize_quadratic_pdeopt_stationary_cg"
         [Name "problem"; Name "diameter"; Name "weights"; Name "parameter_scales";
          Name "domain_of_interest"]
         [("desired_temperature", Name "u_d"); ("mu_for_u_d", Name "mu_d");
          ("mu_for_tikhonov", Name "mu_d"); ("parameters_in_q", Name "parameters_in_q");
          ("product", Str "fixed_energy"); ("use_corrected_gradient", BoolLit true)]) ].

(** Cell [4], lines 218-227. *)
Definition cell4 : list stmt :=
  [ ExprS 218 (call "print" [Str "information on the grid:"] []);
    ExprS 219 (call "print" [Subscript (Name "data") (Str "grid")] []);
    Assign 221 (Name "radius") (Num 0.1);
    Assign 222 (Name "FOC_tolerance") (Num 1e-12);
    Assign 223 (Name "max_it") (Num 400);
    Assign 224 (Name "max_it_arm") (Num 50);
    Assign 225 (Name "init_step_armijo") (Num 0.5);
    Assign 226 (Name "armijo_alpha") (Num 1e-4);
    Assign 227 (Name "epsilon_i") (Num 1e-8) ].

Definition parameter_space : expr := Attr (Name "problem") "parameter_space".

(** Cell [5], lines 252-253. *)
Definition cell5 : list stmt :=
  [ Assign 252 (Name "mu")
      (Subscript (method parameter_space "sample_randomly" [Num 1] [("seed", Num 1)])
                 (Num 0));
    ExprS 253 (call "print" [Name "mu"] []) ].

Definition vis_mu_at (g : string) (i : Q) : expr :=
  Subscript (Subscript (Name "vis_mu") (Str g)) (Num i).

Definition as_vector (f : expr) : expr :=
  method (call "InterpolationOperator" [Subscript (Name "data") (Str "grid"); f] [])
         "as_vector" [Name "vis_mu"] [].

(** Cell [6], lines 328-348. *)
Definition cell6 : list stmt :=
  [ FromImport 328 "pymor.discretizers.builtin.cg" (plain ["InterpolationOperator"]);
    Assign 330 (Name "vis_mu")
      (Subscript (method parameter_space "sample_randomly" [Num 1] [("seed", Num 13)])
                 (Num 0));
    Assign 331 (vis_mu_at "walls" 0) (Num 0.35);
    Assign 332 (vis_mu_at "walls" 1) (Num 0.2);
    Assign 333 (vis_mu_at "walls" 2) (Num 0.0001);
    Assign 334 (vis_mu_at "heaters" 0) (Num 30);
    Assign 335 (vis_mu_at "heaters" 1) (Num 40);
    Assign 336 (vis_mu_at "heaters" 2) (Num 50);
    Assign 337 (vis_mu_at "heaters" 3) (Num 60);
    Assign 338 (vis_mu_at "heaters" 4) (Num 70);
    Assign 339 (vis_mu_at "heaters" 5) (Num 80);
    Assign 340 (vis_mu_at "heaters" 6) (Num 90);
    Assign 341 (Name "diff") (as_vector (Attr (Name "problem") "diffusion"));
    Assign 342 (Name "rhs") (as_vector (Attr (Name "problem") "rhs"));
    Assign 343 (Name "doI") (as_vector (Name "domain_of_interest"));
    ExprS 344 (method (Name "opt_fom") "visualize" [Name "diff"] []);
    ExprS 345 (method (Name "plt") "savefig" [Str "ciao.pdf"]
                 [("format", Str "pdf"); ("bbox_inches", Str "tight")]);
    ExprS 346 (method (Name "opt_fom") "visualize" [Name "rhs"] []);
    ExprS 348 (method (Name "opt_fom") "visualize" [Name "doI"] []) ].

(** Cell [7], lines 393-397. *)
Definition cell7 : list stmt :=
  [ Assign 393 (Name "u") (method (Name "opt_fom") "solve" [Name "mu"] []);
    Assign 394 (Name "p") (method (Name "opt_fom") "solve_dual" [Name "mu"] []);
    ExprS 396 (method (Name "opt_fom") "visualize" [Name "u"] []);
    ExprS 397 (method (Name "opt_fom") "visualize" [Name "p"] []) ].

(** Cell [8], lines 424-426. *)
Definition cell8 : list stmt :=
  [ ExprS 424 (call "print"
      [Str "Starting parameter: ";
       method (Name "opt_fom") "parse_parameter_inverse" [Name "mu"] []] []);
    Assign 425 (Name "J_start")
      (method (Name "opt_fom") "output_functional_hat" [Name "mu"] []);
    ExprS 426 (call "print" [Str "Starting J: "; Name "J_start"] []) ].

(** Cell [9], lines 473-484. *)
Definition cell9 : list stmt :=
  [ FromImport 473 "pdeopt.TR" (plain ["solve_optimization_NewtonMethod"]);
    FromImport 474 "pdeopt.tools" (plain ["compute_errors"]);
    Assign 476 (Name "TR_parameters")
      (DictE [("radius", Num 1e18); ("sub_tolerance", Name "FOC_tolerance");
              ("max_iterations", Name "max_it");
              ("starting_parameter", Name "mu");
              ("epsilon_i", Name "epsilon_i");
              ("max_iterations_armijo", Name "max_it_arm");
              ("initial_step_armijo", Name "init_step_armijo");
              ("armijo_alpha", Name "armijo_alpha");
              ("full_order_model", BoolLit true)]);
    Assign 484
      (TupleE [Name "muoptfom"; Name "_"; Name "_"; Name "_"; Name "times_1";
               Name "mus_1"; Name "Js_1"; Name "FOC_1"])
      (call "solve_optimization_NewtonMethod"
         [Name "opt_fom"; Attr (Name "opt_fom") "parameter_space"; Name "mu";
          Name "TR_parameters"]
         [("timing", BoolLit true)]) ].

Definition last_mu : expr := Subscript (Name "mus_1") (Neg (Num 1)).

(** Cell [10], lines 531-534. *)
Definition cell10 : list stmt :=
  [ For 531 "i" (call "range" [call "len" [last_mu] []] [])
      [ ExprS 532 (call "print"
          [method (Str "{0:.12e}") "format" [Subscript last_mu (Name "i")] []] []) ];
    Assign 533 (Name "u")
      (method (Name "opt_fom") "solve"
         [method (Name "opt_fom") "pre_parse_parameter" [last_mu] []] []);
    ExprS 534 (method (Name "opt_fom") "visualize" [Name "u"] []) ].

Definition grid : expr := Subscript (Name "data") (Str "grid").

Definition norm2 (a b : expr) : expr :=
  method (Name "Restricted_L2_OP") "apply2" [a; b] [].

Definition at00 (e : expr) : expr := Subscript (Subscript e (Num 0)) (Num 0).

(** Cell [11], lines 552-566. *)
Definition cell11 : list stmt :=
  [ FromImport 552 "pymor.discretizers.builtin.cg"
      (plain ["L2ProductP1"; "L2ProductQ1"; "InterpolationOperator"]);
    FromImport 553 "pymor.discretizers.builtin.grids.referenceelements" (plain ["square"]);
    FromImport 554 "pymor.discretizers.builtin.grids.boundaryinfos"
      (plain ["EmptyBoundaryInfo"]);
    If 555 (Is (Attr grid "reference_element") (Name "square"))
      [ Assign 556 (Name "L2_OP") (Name "L2ProductQ1") ]
      [ Assign 558 (Name "L2_OP") (Name "L2ProductP1") ];
    If 559 (Is (Name "mu_d") NoneLit)
      [ Assign 560 (Name "empty_bi") (call "EmptyBoundaryInfo" [grid] []);
        Assign 561 (Name "u_d")
          (method (call "InterpolationOperator"
                     [grid; call "ConstantFunction" [Name "u_d"; Num 2] []] [])
                  "as_vector" [] []);
        Assign 562 (Name "diff")
          (BinOp Sub (method (Name "u") "to_numpy" [] [])
                     (method (Name "u_d") "to_numpy" [] []));
        Assign 563 (Name "diff_")
          (method (Attr (Name "opt_fom") "solution_space") "from_numpy" [Name "diff"] []);
        Assign 564 (Name "Restricted_L2_OP")
          (call "L2_OP" [grid; Name "empty_bi"]
             [("dirichlet_clear_rows", BoolLit false);
              ("coefficient_function", Name "domain_of_interest")]);
        ExprS 565 (call "print"
          [method (Str "{}") "format" [at00 (norm2 (Name "diff_") (Name "diff_"))] []] []);
        ExprS 566 (call "print"
          [method (Str "{}") "format"
             [BinOp Div (at00 (norm2 (Name "diff_") (Name "diff_")))
                        (norm2 (Name "u_d") (Name "u_d"))] []] []) ]
      [] ].

Definition cells : list (list stmt) :=
  [cell1; cell2; cell3; cell4; cell5; cell6; cell7; cell8; cell9; cell10; cell11].

(** The notebook run from top to bottom ("Restart & Run All"). *)
Definition notebook : list stmt := List.concat cells.

(** ** Values and the library oracle *)

(** [VLib n] is an object of a library (a module, function, class or
    instance), known to the notebook only by a name [n]. *)
Inductive value :=
| VNone
| VBool (b : bool)
| VNum (q : Q)
| VStr (s : string)
| VList (vs : list value)
| VDict (kvs : list (string * value))
| VLib (n : string).

Definition kwargs := list (string * value).

(** Everything the notebook does not define itself.  [None] is a raised
    exception. *)
Record Library := {
  lib_call : value -> list value -> kwargs -> option value;
  lib_method : value -> string -> list value -> kwargs -> option value;
  lib_getattr : value -> string -> option value;
  lib_getitem : value -> value -> option value;
  lib_setitem : value -> value -> value -> bool;
  lib_binop : binop -> value -> value -> option value
}.

Inductive event :=
| ELine (ln : nat)
| ECall (f : value) (args : list value) (kw : kwargs)
| EMethod (o : value) (m : string) (args : list value) (kw : kwargs)
| EStore (o : value) (key : value) (v : value).

Definition env := list (string * value).

Fixpoint lookup {A} (x : string) (kvs : list (string * A)) : option A :=
  match kvs with
  | [] => None
  | (k, v) :: r => if String.eqb k x then Some v else lookup x r
  end.

(** Python's dict store: an existing key keeps its place. *)
Fixpoint update {A} (x : string) (v : A) (kvs : list (string * A)) : list (string * A) :=
  match kvs with
  | [] => [(x, v)]
  | (k, w) :: r => if String.eqb k x then (k, v) :: r else (k, w) :: update x v r
  end.

(** ** Evaluation *)

(** An integer index, if the number is one. *)
Definition index_of (q : Q) : option Z :=
  let r := Qred q in
  if Pos.eqb (Qden r) 1 then Some (Qnum r) else None.

(** Python's list indexing: negative indices count from the end. *)
Definition position {A} (vs : list A) (z : Z) : option nat :=
  let n := Z.of_nat (List.length vs) in
  if (0 <=? z)%Z && (z <? n)%Z then Some (Z.to_nat z)
  else if (z <? 0)%Z && (- n <=? z)%Z then Some (Z.to_nat (n + z))
  else None.

Fixpoint set_nth {A} (n : nat) (v : A) (vs : list A) : list A :=
  match vs, n with
  | [], _ => []
  | _ :: r, O => v :: r
  | w :: r, S m => w :: set_nth m v r
  end.

Definition range (n : nat) : list value :=
  map (fun k => VNum (inject_Z (Z.of_nat k))) (seq 0 n).

(** [o[k]] for the values the notebook builds itself. *)
Definition getitem (o k : value) : option value :=
  match o, k with
  | VList vs, VNum q =>
      match index_of q with
      | Some z => match position vs z with
                  | Some n => nth_error vs n
                  | None => None
                  end
      | None => None
      end
  | VDict kvs, VStr s => lookup s kvs
  | _, _ => None
  end.

(** [o[k] = v] on such a value, as the new value of [o]. *)
Definition setitem (o k v : value) : option value :=
  match o, k with
  | VList vs, VNum q =>
      match index_of q with
      | Some z => match position vs z with
                  | Some n => Some (VList (set_nth n v vs))
                  | None => None
                  end
      | None => None
      end
  | VDict kvs, VStr s => Some (VDict (update s v kvs))
  | _, _ => None
  end.

(** [o[k1]...[kn] = v], as the new value of [o]. *)
Fixpoint store_path (o : value) (ks : list value) (v : value) : option value :=
  match ks with
  | [] => Some v
  | [k] => setitem o k v
  | k :: r =>
      match getitem o k with
      | Some o' => match store_path o' r v with
                   | Some o'' => setitem o k o''
                   | None => None
                   end
      | None => None
      end
  end.

Definition is_lib (v : value) : bool :=
  match v with VLib _ => true | _ => false end.

(** [a is b].  Identity is modelled for [None], booleans and library
    objects; two values built by the notebook are never identical. *)
Definition identical (a b : value) : bool :=
  match a, b with
  | VNone, VNone => true
  | VBool x, VBool y => Bool.eqb x y
  | VLib x, VLib y => String.eqb x y
  | _, _ => false
  end.

Definition truthy (v : value) : bool :=
  match v with
  | VNone => false
  | VBool b => b
  | VNum q => negb (Qeq_bool q 0)
  | VStr s => negb (String.eqb s "")
  | VList vs => match vs with [] => false | _ => true end
  | VDict kvs => match kvs with [] => false | _ => true end
  | VLib _ => true
  end.

(** A computation that logs events and may raise. *)
Definition M (A : Type) : Type := list event -> list event * option A.

Definition ret {A} (a : A) : M A := fun l => (l, Some a).

Definition raise {A} : M A := fun l => (l, None).

Definition bind {A B} (m : M A) (f : A -> M B) : M B :=
  fun l => match m l with
           | (l', Some a) => f a l'
           | (l', None) => (l', None)
           end.

Definition lift {A} (o : option A) : M A := fun l => (l, o).

Definition emit (e : event) : M unit := fun l => (e :: l, Some tt).

Notation "x <- m ;; k" := (bind m (fun x => k))
  (at level 61, m at next level, right associativity).

Record state := { vars : env; log : list event }.

(** How a statement ends: normally, or with an exception propagating. *)
Inductive outcome :=
| Done (s : state)
| Raised (s : state).

Definition final (o : outcome) : state :=
  match o with Done s | Raised s => s end.

(** The events of a run, first to last. *)
Definition trace (o : outcome) : list event := rev (log (final o)).

(** [x[k1]...[kn]] with literal keys, as the variable and the keys. *)
Fixpoint root_path (e : expr) : option (string * list value) :=
  match e with
  | Name x => Some (x, [])
  | Subscript e' (Str s) =>
      match root_path e' with
      | Some (x, ks) => Some (x, (ks ++ [VStr s])%list)
      | None => None
      end
  | Subscript e' (Num q) =>
      match root_path e' with
      | Some (x, ks) => Some (x, (ks ++ [VNum q])%list)
      | None => None
      end
  | _ => None
  end.

(** [a, b, ... = vs] *)
Fixpoint bind_names (ts : list expr) (vs : list value) (rho : env) : option env :=
  match ts, vs with
  | [], [] => Some rho
  | Name x :: ts', v :: vs' => bind_names ts' vs' (update x v rho)
  | _, _ => None
  end.

Definition import_names (m : string) (names : list (string * string)) (rho : env) : env :=
  fold_left (fun r na =>
               if String.eqb (fst na) "*" then r
               else update (snd na) (VLib (m ++ "." ++ fst na)) r) names rho.

Section Interpreter.

Variable L : Library.

(** A name that the notebook has not bound is a builtin or comes from
    [from pymor.basic import *]: the library object of that name. *)
Definition read (rho : env) (x : string) : value :=
  match lookup x rho with Some v => v | None => VLib x end.

Definition arith (op : binop) (a b : value) : option value :=
  match a, b with
  | VNum x, VNum y =>
      match op with
      | Div => if Qeq_bool y 0 then None else Some (VNum (x / y))
      | Sub => Some (VNum (x - y))
      end
  | _, _ => lib_binop L op a b
  end.

(** [len] and [range] are computed; every other call is the library's. *)
Definition apply (f : value) (vs : list value) (ks : kwargs) : M value :=
  match f, vs, ks with
  | VLib "len", [VList l], [] => ret (VNum (inject_Z (Z.of_nat (List.length l))))
  | VLib "range", [VNum q], [] =>
      match index_of q with
      | Some z => ret (VList (range (Z.to_nat z)))
      | None => raise
      end
  | _, _, _ => _ <- emit (ECall f vs ks) ;; lift (lib_call L f vs ks)
  end.

Fixpoint eval (rho : env) (e : expr) {struct e} : M value :=
  let evals := fix evals (es : list expr) : M (list value) :=
    match es with
    | [] => ret []
    | e' :: r => v <- eval rho e' ;; vs <- evals r ;; ret (v :: vs)
    end in
  let evalkw := fix evalkw (kes : list (string * expr)) : M kwargs :=
    match kes with
    | [] => ret []
    | (k, e') :: r => v <- eval rho e' ;; vs <- evalkw r ;; ret ((k, v) :: vs)
    end in
  match e with
  | Name x => ret (read rho x)
  | Num q => ret (VNum q)
  | Str s => ret (VStr s)
  | NoneLit => ret VNone
  | BoolLit b => ret (VBool b)
  | ListE es => vs <- evals es ;; ret (VList vs)
  | TupleE es => vs <- evals es ;; ret (VList vs)
  | DictE kes =>
      kvs <- evalkw kes ;;
      ret (VDict (fold_left (fun d kv => update (fst kv) (snd kv) d) kvs []))
  | Attr e' a => o <- eval rho e' ;; lift (lib_getattr L o a)
  | Subscript e' i =>
      o <- eval rho e' ;; k <- eval rho i ;;
      lift (if is_lib o then lib_getitem L o k else getitem o k)
  | Call f args kes =>
      match f with
      | Attr o m =>
          vo <- eval rho o ;; vs <- evals args ;; ks <- evalkw kes ;;
          _ <- emit (EMethod vo m vs ks) ;; lift (lib_method L vo m vs ks)
      | _ =>
          vf <- eval rho f ;; vs <- evals args ;; ks <- evalkw kes ;;
          apply vf vs ks
      end
  | BinOp op a b => x <- eval rho a ;; y <- eval rho b ;; lift (arith op x y)
  | Neg e' =>
      x <- eval rho e' ;;
      match x with VNum q => ret (VNum (- q)) | _ => raise end
  | Is a b => x <- eval rho a ;; y <- eval rho b ;; ret (VBool (identical x y))
  end.

(** Runs [m] on the log of [s]; an exception leaves the variables as they are. *)
Definition step {A} (m : M A) (s : state) (k : A -> state -> outcome) : outcome :=
  match m (log s) with
  | (l, Some a) => k a {| vars := vars s; log := l |}
  | (l, None) => Raised {| vars := vars s; log := l |}
  end.

Definition set_vars (rho : option env) (s : state) : outcome :=
  match rho with
  | Some r => Done {| vars := r; log := log s |}
  | None => Raised s
  end.

(** [target = v].  A store into a list or dict that the notebook holds in a
    variable replaces the variable's value: no second name is bound to such
    an object when the notebook stores into it.  A store into a library
    object is an event of the library.  A store into anything else (the
    notebook has none) is not modelled and raises. *)
Definition assign (t : expr) (v : value) (s : state) : outcome :=
  match t with
  | Name x => set_vars (Some (update x v (vars s))) s
  | TupleE ts =>
      match v with
      | VList vs => set_vars (bind_names ts vs (vars s)) s
      | _ => Raised s
      end
  | Subscript e i =>
      step (o <- eval (vars s) e ;; k <- eval (vars s) i ;; ret (o, k)) s
        (fun ok s' =>
           if is_lib (fst ok) then
             step (emit (EStore (fst ok) (snd ok) v)) s'
               (fun _ s'' => if lib_setitem L (fst ok) (snd ok) v then Done s''
                             else Raised s'')
           else
             match root_path t with
             | Some (x, ks) =>
                 match store_path (read (vars s') x) ks v with
                 | Some o' => set_vars (Some (update x o' (vars s'))) s'
                 | None => Raised s'
                 end
             | None => Raised s'
             end)
  | _ => Raised s
  end.

Definition mark (ln : nat) (s : state) : state :=
  {| vars := vars s; log := ELine ln :: log s |}.

Fixpoint exec (c : stmt) (s : state) {struct c} : outcome :=
  let block := fix block (cs : list stmt) (s : state) : outcome :=
    match cs with
    | [] => Done s
    | c' :: r => match exec c' s with
                 | Done s' => block r s'
                 | Raised s' => Raised s'
                 end
    end in
  match c with
  | Import ln m a => set_vars (Some (update a (VLib m) (vars s))) (mark ln s)
  | FromImport ln m names => set_vars (Some (import_names m names (vars s))) (mark ln s)
  | Assign ln t e => step (eval (vars s) e) (mark ln s) (assign t)
  | ExprS ln e => step (eval (vars s) e) (mark ln s) (fun _ => Done)
  | For ln x it body =>
      step (eval (vars s) it) (mark ln s)
        (fun v s' =>
           match v with
           | VList vs =>
               (fix loop (vs : list value) (s : state) : outcome :=
                  match vs with
                  | [] => Done s
                  | w :: r =>
                      match block body {| vars := update x w (vars s); log := log s |} with
                      | Done s' => loop r s'
                      | Raised s' => Raised s'
                      end
                  end) vs s'
           | _ => Raised s'
           end)
  | If ln c' th el =>
      step (eval (vars s) c') (mark ln s)
        (fun v s' => if truthy v then block th s' else block el s')
  | Try ln body handler =>
      match block body (mark ln s) with
      | Done s' => Done s'
      | Raised s' => block handler s'
      end
  end.

Fixpoint exec_block (cs : list stmt) (s : state) : outcome :=
  match cs with
  | [] => Done s
  | c :: r => match exec c s with
              | Done s' => exec_block r s'
              | Raised s' => Raised s'
              end
  end.

Definition start : state := {| vars := []; log := [] |}.

(** The notebook run from a fresh kernel. *)
Definition run : outcome := exec_block notebook start.

End Interpreter.

(** ** The run stored in the notebook *)

(** The .ipynb file stores the output of one execution.  [Recorded.library]
    answers the library calls with what that execution printed; calls whose
    result the notebook never prints answer with an opaque object. *)
Module Recorded.

Definition vec (qs : list Q) : value := VList (map VNum qs).

(** Line 246: the sample for [seed=1]. *)
Definition mu : value :=
  VDict [("heaters", vec [41.7022004702574; 72.0324493442158; 0.011437481734488664;
                          30.233257263183976; 14.675589081711305; 9.233859476879779;
                          18.62602113776709]);
         ("walls", vec [0.05091705452822859; 0.05475756056730025; 0.06541125505025178])].

(** The sample for [seed=13] is never printed (lines 331-340 overwrite all
    of it); the recorded library answers with the vector of line 157. *)
Definition mu13 : value :=
  VDict [("heaters", vec [10.0; 10.0; 10.0; 10.0; 10.0; 10.0; 10.0]);
         ("walls", vec [0.049999999999999996; 0.049999999999999996;
                        0.049999999999999996])].

(** Line 419. *)
Definition J_start : Q := 501.30528547701397.

(** Lines 449-466: the iterates ("Step"), heaters first, then walls; the last
    one with the digits of lines 503-512. *)
Definition steps : list (list Q) :=
  [ [2.85904420e+01; 5.85622807e+01; 0.00000000e+00; 2.33556820e+01; 7.57377500e+00;
     2.03159762e+00; 0.00000000e+00; 2.50000000e-02; 2.50000000e-02; 2.50000000e-02];
    [28.015539; 28.69083877; 0.09879301; 29.51555641; 30.42519391; 30.94807228;
     0.38696257; 0.1; 0.1; 0.04595768];
    [16.63884255; 16.98044618; 17.27428522; 17.37332441; 17.90079958; 18.09332588;
     17.00230683; 0.04445708; 0.1; 0.025];
    [16.49460499; 16.91668327; 17.32719028; 17.48225557; 18.11977136; 18.31858072;
     16.97675542; 0.025; 0.07365179; 0.025];
    [16.52117948; 16.9282115; 17.32112814; 17.46592787; 18.11574119; 18.39759481;
     16.94009947; 0.025; 0.025; 0.025];
    [1.651891986460e+01; 1.692820877511e+01; 1.732387911116e+01; 1.746951227840e+01;
     1.812299797114e+01; 1.840759241105e+01; 1.693448657882e+01; 2.500000000000e-02;
     2.500000000000e-02; 2.500000000000e-02] ].

(** Lines 451-466: "functional" and "FOC condition". *)
Definition Js : list Q :=
  [5.663654308707237; 4.0088310055441525; 2.7750661310421947; 2.773607887631215;
   2.772773406164333; 2.7727731849149677].
Definition FOCs : list Q :=
  [0.4691470741933961; 0.27091308376320594; 0.04612533769438143; 0.02048322391895388;
   0.00041865039117550064; 9.290601002255482e-13].

Definition solver_result : value :=
  VList [vec (last steps []); VNone; VNone; VNone; VLib "times";
         VList (map vec steps); vec Js; vec FOCs].

Definition seed_of (kw : kwargs) : option value := lookup "seed" kw.

Definition call (f : value) (args : list value) (kw : kwargs) : option value :=
  match f with
  | VLib "pdeopt.problems.EXC_problem" =>
      Some (VList [VLib "problem"; VLib "parameter_scales"])
  | VLib "pdeopt.discretizer.discretize_quadratic_pdeopt_stationary_cg" =>
      Some (VList [VLib "opt_fom"; VDict [("grid", VLib "grid")]; VLib "mu_bar"])
  | VLib "pdeopt.TR.solve_optimization_NewtonMethod" => Some solver_result
  | VLib "print" => Some VNone
  | VLib n => Some (VLib (n ++ "()"))
  | _ => None
  end.

Definition method (o : value) (m : string) (args : list value) (kw : kwargs)
  : option value :=
  match m with
  | "sample_randomly" =>
      match seed_of kw with
      | Some (VNum q) => Some (VList [if Qeq_bool q 1 then mu else mu13])
      | _ => Some (VList [mu13])
      end
  | "output_functional_hat" => Some (VNum J_start)
  | "format" =>
      match o, args with
      | VStr (String "{"%char (String "}"%char rest)), [VStr d] => Some (VStr (d ++ rest))
      | _, _ => Some (VStr "formatted")
      end
  | "apply2" => Some (VList [VList [VNum 6.477934888377442e-05]])
  | _ => Some (VLib (m ++ "()"))
  end.

Definition getattr (o : value) (a : string) : option value :=
  match a with
  | "reference_element" =>
      Some (VLib "pymor.discretizers.builtin.grids.referenceelements.square")
  | _ => Some (VLib a)
  end.

Definition library : Library :=
  {| lib_call := call;
     lib_method := method;
     lib_getattr := getattr;
     lib_getitem := fun o k => Some (VLib "item");
     lib_setitem := fun o k v => true;
     lib_binop := fun op a b => Some (VLib "array") |}.

End Recorded.

Fixpoint lines (t : list event) : list nat :=
  match t with
  | [] => []
  | ELine n :: r => n :: lines r
  | _ :: r => lines r
  end.

(** ** Static analyses of the script *)

(** Every statement of a block, nested ones included, in source order. *)
Fixpoint flatten1 (c : stmt) : list stmt :=
  let flat := fix flat (cs : list stmt) : list stmt :=
    match cs with
    | [] => []
    | c' :: r => (flatten1 c' ++ flat r)%list
    end in
  match c with
  | For _ _ _ body => c :: flat body
  | If _ _ th el => c :: (flat th ++ flat el)%list
  | Try _ body handler => c :: (flat body ++ flat handler)%list
  | _ => [c]
  end.

Definition flatten (cs : list stmt) : list stmt := flat_map flatten1 cs.

Definition control (c : stmt) : bool :=
  match c with
  | For _ _ _ _ | If _ _ _ _ | Try _ _ _ => true
  | _ => false
  end.

Definition is_try (c : stmt) : bool :=
  match c with Try _ _ _ => true | _ => false end.

(** The names an expression reads. *)
Fixpoint reads (e : expr) : list string :=
  let many := fix many (es : list expr) : list string :=
    match es with
    | [] => []
    | e' :: r => (reads e' ++ many r)%list
    end in
  let manykw := fix manykw (kes : list (string * expr)) : list string :=
    match kes with
    | [] => []
    | (_, e') :: r => (reads e' ++ manykw r)%list
    end in
  match e with
  | Name x => [x]
  | Num _ | Str _ | NoneLit | BoolLit _ => []
  | ListE es | TupleE es => many es
  | DictE kes => manykw kes
  | Attr e' _ | Neg e' => reads e'
  | Subscript a b | BinOp _ a b | Is a b => (reads a ++ reads b)%list
  | Call f args kes => (reads f ++ many args ++ manykw kes)%list
  end.

(** The names a target binds, and the names it reads (a store into
    [x[k]] reads [x]). *)
Fixpoint bound (t : expr) : list string :=
  match t with
  | Name x => [x]
  | TupleE ts => flat_map bound ts
  | _ => []
  end.

Definition target_reads (t : expr) : list string :=
  match t with
  | Name _ | TupleE _ => []
  | _ => reads t
  end.

(** The names one statement reads itself (not its nested statements). *)
Definition stmt_reads (c : stmt) : list string :=
  match c with
  | Assign _ t e => (reads e ++ target_reads t)%list
  | ExprS _ e => reads e
  | For _ _ it _ => reads it
  | If _ c' _ _ => reads c'
  | _ => []
  end.

(** The names one statement binds itself. *)
Definition stmt_binds (c : stmt) : list string :=
  match c with
  | Import _ _ a => [a]
  | FromImport _ _ names => map snd names
  | Assign _ t _ => bound t
  | For _ x _ _ => [x]
  | _ => []
  end.

(** A store into an element or attribute of an existing object. *)
Definition is_store (c : stmt) : bool :=
  match c with
  | Assign _ (Subscript _ _) _ | Assign _ (Attr _ _) _ => true
  | _ => false
  end.

Definition mem (x : string) (xs : list string) : bool :=
  existsb (String.eqb x) xs.

Definition lines_where (p : stmt -> bool) (cs : list stmt) : list nat :=
  map line (filter p (flatten cs)).

(** The calls of an expression: callee and keyword arguments, outermost
    first. *)
Fixpoint calls (e : expr) : list (expr * list expr * list (string * expr)) :=
  let many := fix many (es : list expr) :=
    match es with
    | [] => []
    | e' :: r => (calls e' ++ many r)%list
    end in
  let manykw := fix manykw (kes : list (string * expr)) :=
    match kes with
    | [] => []
    | (_, e') :: r => (calls e' ++ manykw r)%list
    end in
  match e with
  | Name _ | Num _ | Str _ | NoneLit | BoolLit _ => []
  | ListE es | TupleE es => many es
  | DictE kes => manykw kes
  | Attr e' _ | Neg e' => calls e'
  | Subscript a b | BinOp _ a b | Is a b => (calls a ++ calls b)%list
  | Call f args kes => ((f, args, kes) :: calls f ++ many args ++ manykw kes)%list
  end.

Definition stmt_exprs (c : stmt) : list expr :=
  match c with
  | Assign _ t e => [e; t]
  | ExprS _ e => [e]
  | For _ _ it _ => [it]
  | If _ c' _ _ => [c']
  | _ => []
  end.

Definition stmt_calls (c : stmt) := flat_map calls (stmt_exprs c).

(** The function or method name of a callee. *)
Definition callee_name (f : expr) : string :=
  match f with
  | Name x => x
  | Attr _ m => m
  | _ => ""
  end.

(** Line and callee name of every call of the script. *)
Definition call_sites (cs : list stmt) : list (nat * string) :=
  flat_map (fun c => map (fun k => (line c, callee_name (fst (fst k)))) (stmt_calls c))
           (flatten cs).

(** How many times the statement of line [n] starts in a log. *)
Definition occurrences (n : nat) (l : list event) : nat :=
  count_occ Nat.eq_dec (lines l) n.

Definition executions (n : nat) (o : outcome) : nat := occurrences n (log (final o)).

(** The loop of a [for] statement, one round for every value. *)
Section Loop.

Variables (L : Library) (x : string) (body : list stmt).

Fixpoint loop (vs : list value) (s : state) : outcome :=
  match vs with
  | [] => Done s
  | w :: r =>
      match exec_block L body {| vars := update x w (vars s); log := log s |} with
      | Done s' => loop r s'
      | Raised s' => Raised s'
      end
  end.

End Loop.

(** ** Which lines a run logs *)

Definition all_lines (c : stmt) : list nat := map line (flatten1 c).

Definition inner_lines (c : stmt) : list nat := tl (all_lines c).

(** A computation that starts no statement. *)
Definition quiet {A} (m : M A) : Prop := forall l, lines (fst (m l)) = lines l.

(** ** Control flow (C4) *)

Definition straight_line (cs : list stmt) : bool :=
  forallb (fun c => negb (control c)) (flatten cs).

(** The lines of the statements that are not nested in another one. *)
Definition top_lines (cs : list stmt) : list nat := map line cs.

Definition nested_lines (cs : list stmt) : list nat := flat_map inner_lines cs.

Definition once_and_outside (cs : list stmt) (n : nat) : bool :=
  Nat.eqb (count_occ Nat.eq_dec (top_lines cs) n) 1
  && negb (existsb (Nat.eqb n) (nested_lines cs)).

(** ** Which variables a run changes *)

(** The variable whose value a store [x[k1]...[kn] = v] replaces. *)
Definition store_root (t : expr) : list string :=
  match t with
  | Subscript _ _ => match root_path t with
                     | Some (x, _) => [x]
                     | None => []
                     end
  | _ => []
  end.

Definition stmt_writes (c : stmt) : list string :=
  match c with
  | Assign _ t _ => (bound t ++ store_root t)%list
  | _ => stmt_binds c
  end.

(** All variables a statement or one nested in it can change. *)
Definition writes (cs : list stmt) : list string := flat_map stmt_writes (flatten cs).

(** ** Cutting the script at a line *)

Fixpoint split_at (ln : nat) (cs : list stmt) : option (list stmt * stmt * list stmt) :=
  match cs with
  | [] => None
  | c :: r =>
      if Nat.eqb (line c) ln then Some ([], c, r)
      else match split_at ln r with
           | Some (p, c', q) => Some (c :: p, c', q)
           | None => None
           end
  end.

(** ** The trust-region radius (C10) *)

Definition TR_parameters_expr : expr :=
  DictE [("radius", Num 1e18); ("sub_tolerance", Name "FOC_tolerance");
         ("max_iterations", Name "max_it");
         ("starting_parameter", Name "mu");
         ("epsilon_i", Name "epsilon_i");
         ("max_iterations_armijo", Name "max_it_arm");
         ("initial_step_armijo", Name "init_step_armijo");
         ("armijo_alpha", Name "armijo_alpha");
         ("full_order_model", BoolLit true)].

Definition readers (x : string) (cs : list stmt) : list nat :=
  lines_where (fun c => mem x (stmt_reads c)) cs.

Definition binders (x : string) (cs : list stmt) : list nat :=
  lines_where (fun c => mem x (stmt_writes c)) cs.

(** The positional arguments with which a run calls the function [f]. *)
Definition received (f : string) (t : list event) : list (list value) :=
  flat_map (fun e => match e with
                     | ECall (VLib n) args _ => if String.eqb n f then [args] else []
                     | _ => []
                     end) t.

(** The entry [k] of the fourth positional argument. *)
Definition fourth_entry (k : string) (args : list value) : option value :=
  match nth_error args 3 with
  | Some (VDict d) => lookup k d
  | _ => None
  end.

(** The positional arguments of the calls of [f] in the script. *)
Definition arguments_of (f : string) (cs : list stmt) : list (list expr) :=
  flat_map (fun c =>
    flat_map (fun k => if String.eqb (callee_name (fst (fst k))) f
                       then [snd (fst k)] else [])
             (stmt_calls c)) (flatten cs).

(** ** The order in which top-level statements start *)

Definition outside (ns : list nat) (n : nat) : bool := negb (existsb (Nat.eqb n) ns).

(** The lines of the top-level statements, in the order in which a run
    started them. *)
Definition top_level_trace (o : outcome) : list nat :=
  filter (outside (nested_lines notebook)) (lines (trace o)).

(** ** The order of the pipeline (C5) *)

Definition lines_calling (f : string) (cs : list stmt) : list nat :=
  map fst (filter (fun p => String.eqb (snd p) f) (call_sites cs)).

Fixpoint increasing (ns : list nat) : bool :=
  match ns with
  | n :: ((m :: _) as r) => Nat.ltb n m && increasing r
  | _ => true
  end.

(** What the optimizer returns, by the names of line 484. *)
Definition results : list string := ["muoptfom"; "times_1"; "mus_1"; "Js_1"; "FOC_1"].

Definition event_name (e : event) : string :=
  match e with
  | ECall (VLib n) _ _ => n
  | EMethod _ m _ _ => m
  | _ => ""
  end.

Fixpoint first_index (f : string) (t : list event) : option nat :=
  match t with
  | [] => None
  | e :: r => if String.eqb (event_name e) f then Some 0%nat
              else option_map S (first_index f r)
  end.

(** ** In-place stores (C8) *)

(** The script up to and including the statement of a line. *)
Definition upto (ln : nat) (cs : list stmt) : list stmt :=
  match split_at ln cs with
  | Some (p, c, _) => (p ++ [c])%list
  | None => cs
  end.

Definition value_after (L : Library) (ln : nat) (x : string) : option value :=
  lookup x (vars (final (exec_block L (upto ln notebook) start))).

Definition rebinders (x : string) (cs : list stmt) : list nat :=
  lines_where (fun c => mem x (stmt_binds c)) cs.

(** The variables into whose value the script stores. *)
Definition stored_variables (cs : list stmt) : list string :=
  flat_map (fun c => match c with
                     | Assign _ t _ => store_root t
                     | _ => []
                     end) (flatten cs).

Definition vis_mu_final : value :=
  VDict [("heaters", VList (map VNum [30; 40; 50; 60; 70; 80; 90]));
         ("walls", VList (map VNum [0.35; 0.2; 0.0001]))].

(** ** Error handling (C6) *)

(** A library in which the optimizer raises instead of returning. *)
Module Failing.

Definition call (f : value) (args : list value) (kw : kwargs) : option value :=
  match f with
  | VLib "pdeopt.TR.solve_optimization_NewtonMethod" => None
  | _ => Recorded.call f args kw
  end.

Definition library : Library :=
  {| lib_call := call;
     lib_method := lib_method Recorded.library;
     lib_getattr := lib_getattr Recorded.library;
     lib_getitem := lib_getitem Recorded.library;
     lib_setitem := lib_setitem Recorded.library;
     lib_binop := lib_binop Recorded.library |}.

End Failing.

(** The target of line 484. *)
Definition solver_target : expr :=
  TupleE [Name "muoptfom"; Name "_"; Name "_"; Name "_"; Name "times_1";
          Name "mus_1"; Name "Js_1"; Name "FOC_1"].

Definition bind_results (v1 v2 v3 v4 v5 v6 v7 v8 : value) (rho : env) : env :=
  update "FOC_1" v8 (update "Js_1" v7 (update "mus_1" v6 (update "times_1" v5
    (update "_" v4 (update "_" v3 (update "_" v2 (update "muoptfom" v1 rho))))))).

(** What the control statements read. *)
Definition conditions (cs : list stmt) : list (nat * list string) :=
  map (fun c => (line c, stmt_reads c)) (filter control (flatten cs)).

(** ** File names (C7) *)

(** The string literals of an expression (keyword names are not literals). *)
Fixpoint strings (e : expr) : list string :=
  let many := fix many (es : list expr) : list string :=
    match es with
    | [] => []
    | e' :: r => (strings e' ++ many r)%list
    end in
  let manykw := fix manykw (kes : list (string * expr)) : list string :=
    match kes with
    | [] => []
    | (_, e') :: r => (strings e' ++ manykw r)%list
    end in
  match e with
  | Str s => [s]
  | Name _ | Num _ | NoneLit | BoolLit _ => []
  | ListE es | TupleE es => many es
  | DictE kes => (map fst kes ++ manykw kes)%list
  | Attr e' _ | Neg e' => strings e'
  | Subscript a b | BinOp _ a b | Is a b => (strings a ++ strings b)%list
  | Call f args kes => (strings f ++ many args ++ manykw kes)%list
  end.

Definition contains (sub s : string) : bool :=
  match index 0 sub s with Some _ => true | None => false end.

Definition ends_with (suffix s : string) : bool :=
  let n := String.length s in
  let k := String.length suffix in
  Nat.leb k n && String.eqb (substring (n - k) k s) suffix.

(** A string that names a file or a directory. *)
Definition file_like (s : string) : bool :=
  contains "/" s || ends_with ".png" s || ends_with ".pdf" s.

Definition file_literals (cs : list stmt) : list (nat * string) :=
  flat_map (fun c => map (fun s => (line c, s))
                         (filter file_like (flat_map strings (stmt_exprs c))))
           (flatten cs).

(** The variables bound to a file name. *)
Definition file_vars (cs : list stmt) : list string :=
  flat_map (fun c => match c with
                     | Assign _ (Name x) (Str s) => if file_like s then [x] else []
                     | _ => []
                     end) (flatten cs).

(** An expression built from a file name. *)
Definition carries_file (fv : list string) (e : expr) : bool :=
  existsb file_like (strings e) || existsb (fun x => mem x fv) (reads e).

Definition receiver (f : expr) : list expr :=
  match f with Attr o _ => [o] | _ => [] end.

(** Line and name of the calls that are given a file name. *)
Definition file_calls (cs : list stmt) : list (nat * string) :=
  flat_map (fun c =>
    flat_map (fun k =>
      match k with
      | (f, args, kes) =>
          if existsb (carries_file (file_vars cs))
                     (receiver f ++ args ++ map snd kes)%list
          then [(line c, callee_name f)] else []
      end) (stmt_calls c)) (flatten cs).

Definition callees (cs : list stmt) : list string :=
  nodup string_dec (map snd (call_sites cs)).

Definition strings_of (vs : list value) : list string :=
  flat_map (fun v => match v with VStr s => [s] | _ => [] end) vs.

(** The file names an event of the library is given. *)
Definition event_files (e : event) : list string :=
  match e with
  | ECall _ args kw => filter file_like (strings_of (args ++ map snd kw)%list)
  | EMethod o _ args kw => filter file_like (strings_of (o :: args ++ map snd kw)%list)
  | EStore o k v => filter file_like (strings_of [o; k; v])
  | ELine _ => []
  end.

Definition file_events (t : list event) : list (string * list string) :=
  flat_map (fun e => match event_files e with
                     | [] => []
                     | fs => [(event_name e, fs)]
                     end) t.

(** ** The box of the parameters *)

(** The keyword arguments of the first call of [f] in the script. *)
Definition kwargs_of (f : string) (cs : list stmt) : list (string * expr) :=
  hd [] (flat_map (fun c =>
    flat_map (fun k => if String.eqb (callee_name (fst (fst k))) f
                       then [snd k] else [])
             (stmt_calls c)) (flatten cs)).

(** A keyword argument [k=[lo, hi]] of [set_input_dict]. *)
Definition bounds (k : string) : Q * Q :=
  match lookup k (kwargs_of "set_input_dict" notebook) with
  | Some (ListE [Num lo; Num hi]) => (lo, hi)
  | _ => (0, 0)
  end.

(** Outer and inner walls have the same bounds ([owc], [iwc]); [ht] bounds
    the heaters. *)
Definition walls_box : Q * Q := bounds "owc".

Definition heaters_box : Q * Q := bounds "ht".

Definition in_range (b : Q * Q) (q : Q) : bool :=
  Qle_bool (fst b) q && Qle_bool q (snd b).

Definition coefficient_in (b : Q * Q) (v : value) : bool :=
  match v with VNum q => in_range b q | _ => false end.

Definition group_in (b : Q * Q) (v : value) : bool :=
  match v with VList vs => forallb (coefficient_in b) vs | _ => false end.

Definition entry_in_box (kv : string * value) : bool :=
  if String.eqb (fst kv) "walls" then group_in walls_box (snd kv)
  else if String.eqb (fst kv) "heaters" then group_in heaters_box (snd kv)
  else true.

(** A parameter vector, as the notebook prints it: a dictionary from a
    group to the list of its coefficients, every coefficient of [walls] and
    of [heaters] within its bounds. *)
Definition in_box (v : value) : bool :=
  match v with VDict kvs => forallb entry_in_box kvs | _ => false end.

(** What [sample_randomly] is assumed to return: a list of vectors of the
    box. *)
Definition samples_in_box (L : Library) : Prop :=
  forall o a k r,
    lib_method L o "sample_randomly" a k = Some r ->
    exists vs, r = VList vs /\ forallb in_box vs = true.

Definition groups (v : value) : list string :=
  match v with VDict kvs => map fst kvs | _ => [] end.

Definition sample_expr (seed : Q) : expr :=
  Subscript (method parameter_space "sample_randomly" [Num 1] [("seed", Num seed)])
            (Num 0).

(** Lines 331-340. *)
Definition stores : list stmt := firstn 10 (skipn 2 cell6).

(** ** Parameter vectors and the box (C1) *)

(** What precedes line 331 and what follows line 340. *)
Definition before_stores : list stmt := upto 330 notebook.

Definition after_stores : list stmt := skipn (List.length before_stores + 10) notebook.

(** ** Groups and signs of the coefficients (C3) *)

Definition parametric_quantities_expr : expr :=
  DictE [("walls", nums [1; 4; 9]); ("windows", ListE []); ("doors", ListE []);
         ("heaters", nums [1; 3; 5; 6; 7; 8; 9])].

Definition parametric_quantities_value : value :=
  VDict [("walls", VList (map VNum [1; 4; 9])); ("windows", VList []);
         ("doors", VList []);
         ("heaters", VList (map VNum [1; 3; 5; 6; 7; 8; 9]))].

(** The right-hand side of the assignment of a line. *)
Definition rhs_at (ln : nat) (cs : list stmt) : option expr :=
  match split_at ln cs with
  | Some (_, Assign _ _ e, _) => Some e
  | _ => None
  end.

(** Where the stores of the script go. *)
Definition store_paths (cs : list stmt) : list (string * list value) :=
  flat_map (fun c => match c with
                     | Assign _ (Subscript a b) _ =>
                         match root_path (Subscript a b) with
                         | Some p => [p]
                         | None => []
                         end
                     | _ => []
                     end) (flatten cs).

Definition coefficients (v : value) : list value :=
  match v with
  | VDict kvs => flat_map (fun kv => match snd kv with VList vs => vs | _ => [] end) kvs
  | _ => []
  end.

Definition positive (v : value) : bool :=
  forallb (fun c => match c with VNum q => negb (Qle_bool q 0) | _ => false end)
          (coefficients v).

Definition four_groups (v : value) : bool :=
  forallb (fun g => mem g (groups v)) ["walls"; "windows"; "doors"; "heaters"].

(** A vector of the box with a heater that is switched off. *)
Definition heater_off : value :=
  VDict [("heaters", VList (map VNum [0; 0; 0; 0; 0; 0; 0]));
         ("walls", VList (map VNum [0.025; 0.025; 0.025]))].

(** ** Seeded sampling (C9) *)

Definition solver_name : string := "pdeopt.TR.solve_optimization_NewtonMethod".

Definition seeded {A} (k : list (string * A)) : bool :=
  match lookup "seed" k with Some _ => true | None => false end.

(** Two executions of the notebook differ by what the library answers.
    The answers are taken to be the same in both, except those of
    [sample_randomly] called without a seed and of the optimizer (whose
    result holds the time it took). *)
Record same_but_unseeded (L1 L2 : Library) : Prop := {
  same_call : forall f a k,
    f <> VLib solver_name -> lib_call L1 f a k = lib_call L2 f a k;
  same_method : forall o m a k,
    (m = "sample_randomly" -> seeded k = true) ->
    lib_method L1 o m a k = lib_method L2 o m a k;
  same_getattr : forall o a, lib_getattr L1 o a = lib_getattr L2 o a;
  same_getitem : forall o k, lib_getitem L1 o k = lib_getitem L2 o k;
  same_setitem : forall o k v, lib_setitem L1 o k v = lib_setitem L2 o k v;
  same_binop : forall op a b, lib_binop L1 op a b = lib_binop L2 op a b
}.

(** A call whose answer is the same in both executions, as long as the
    functions named in [fs] are not the optimizer: a method call, seeded
    if it samples, or a call of a function of [fs] by its name. *)
Definition call_ok (fs : list string)
  (k : expr * list expr * list (string * expr)) : bool :=
  match k with
  | (Attr _ m, _, kes) => negb (String.eqb m "sample_randomly") || seeded kes
  | (Name f, _, _) => mem f fs
  | _ => false
  end.

Definition expr_ok (fs : list string) (e : expr) : bool := forallb (call_ok fs) (calls e).

(** A statement outside control flow that binds no function of [fs],
    except by an import of something that is not the optimizer. *)
Definition stmt_ok (fs : list string) (c : stmt) : bool :=
  match c with
  | Import _ m _ => negb (String.eqb m solver_name)
  | FromImport _ m names =>
      forallb (fun na => negb (String.eqb (m ++ "." ++ fst na) solver_name)) names
  | Assign _ t e =>
      expr_ok fs e && expr_ok fs t
      && forallb (fun x => negb (mem x fs)) (stmt_writes c)
  | ExprS _ e => expr_ok fs e
  | _ => false
  end.

(** The functions that the script calls by name. *)
Definition plain_callees (cs : list stmt) : list string :=
  flat_map (fun c =>
    flat_map (fun k => match fst (fst k) with Name f => [f] | _ => [] end)
             (stmt_calls c)) (flatten cs).

(** The script up to the computation of [J_start] (cells 1-8). *)
Definition before_optimizer : list stmt := upto 426 notebook.

Definition from_optimizer : list stmt := skipn (List.length before_optimizer) notebook.

(** The seed of every call of [sample_randomly]. *)
Definition seeds (cs : list stmt) : list (nat * option expr) :=
  flat_map (fun c =>
    flat_map (fun k => if String.eqb (callee_name (fst (fst k))) "sample_randomly"
                       then [(line c, lookup "seed" (snd k))] else [])
             (stmt_calls c)) (flatten cs).

(** No function of [fs] is bound to the optimizer. *)
Definition none_is_optimizer (fs : list string) (rho : env) : Prop :=
  forall x, In x fs -> read rho x <> VLib solver_name.

(** A second execution: sampling without a seed answers with another
    vector, and the optimizer stops after its first iteration. *)
Module Other.

Definition solver_result : value :=
  VList [Recorded.vec (hd [] Recorded.steps); VNone; VNone; VNone; VLib "other times";
         VList [Recorded.vec (hd [] Recorded.steps)];
         Recorded.vec [hd 0 Recorded.Js]; Recorded.vec [hd 0 Recorded.FOCs]].

Definition call (f : value) (args : list value) (kw : kwargs) : option value :=
  match f with
  | VLib n => if String.eqb n solver_name then Some solver_result
              else Recorded.call f args kw
  | _ => Recorded.call f args kw
  end.

Definition method (o : value) (m : string) (args : list value) (kw : kwargs)
  : option value :=
  if String.eqb m "sample_randomly" && negb (seeded kw)
  then Some (VList [heater_off])
  else Recorded.method o m args kw.

Definition library : Library :=
  {| lib_call := call;
     lib_method := method;
     lib_getattr := lib_getattr Recorded.library;
     lib_getitem := lib_getitem Recorded.library;
     lib_setitem := lib_setitem Recorded.library;
     lib_binop := lib_binop Recorded.library |}.

End Other.

(** ** The iterates of the stored run *)

(** An iterate as the optimizer prints it: seven heaters, then three
    walls. *)
Definition iterate_in_box (qs : list Q) : bool :=
  forallb (in_range heaters_box) (firstn 7 qs)
  && forallb (in_range walls_box) (skipn 7 qs).

Fixpoint non_increasing (qs : list Q) : bool :=
  match qs with
  | a :: ((b :: _) as r) => Qle_bool b a && non_increasing r
  | _ => true
  end.

(** ** Predicates used by the proofs *)

(** The lines a statement logs: its own, after which only lines of the
    statements nested in it. *)
Definition logs_own_line (L : Library) (c : stmt) : Prop :=
  forall s, exists t,
    lines (log (final (exec L c s))) = (t ++ line c :: lines (log s))%list
    /\ incl t (inner_lines c).

Definition logs_within (L : Library) (cs : list stmt) : Prop :=
  forall s, exists t,
    lines (log (final (exec_block L cs s))) = (t ++ lines (log s))%list
    /\ incl t (map line (flatten cs)).

Definition keeps (x : string) (s : state) (o : outcome) : Prop :=
  lookup x (vars (final o)) = lookup x (vars s).

Definition frames (L : Library) (c : stmt) : Prop :=
  forall x s, ~ In x (flat_map stmt_writes (flatten1 c)) -> keeps x s (exec L c s).

Definition block_frames (L : Library) (cs : list stmt) : Prop :=
  forall x s, ~ In x (writes cs) -> keeps x s (exec_block L cs s).

Definition agrees (L1 L2 : Library) (fs : list string) (rho : env) (e : expr) : Prop :=
  expr_ok fs e = true -> forall l, eval L1 rho e l = eval L2 rho e l.

(** ** Pieces of the script *)

(** What precedes the top-level statement of a line, the statement, and
    what follows it. *)
Definition prefix_of (ln : nat) : list stmt :=
  match split_at ln notebook with Some (p, _, _) => p | None => notebook end.

Definition stmt_at (ln : nat) : stmt :=
  match split_at ln notebook with Some (_, c, _) => c | None => ExprS 0 NoneLit end.

Definition suffix_of (ln : nat) : list stmt :=
  match split_at ln notebook with Some (_, _, q) => q | None => [] end.

(** The statements nested in the [if] of line 559. *)
Definition then_559 : list stmt :=
  match stmt_at 559 with If _ _ th _ => th | _ => [] end.

(** [o[k]] as [eval] computes it. *)
Definition item (L : Library) (o k : value) : option value :=
  if is_lib o then lib_getitem L o k else getitem o k.

(** The script up to and including line 484, and the lines after it. *)
Definition upto_optimizer : list stmt := upto 484 notebook.
Definition lines_after_optimizer : list nat := map line (flatten (suffix_of 484)).

(** ** The values of cell 3 *)

(** The dictionaries of lines 167 and 168. *)
Definition inactive_quantities_value : value :=
  VDict [("removed_walls", VList []); ("open_windows", VList []);
         ("open_doors", VList (map VNum [1; 2; 3; 4; 5; 6; 7; 10]));
         ("active_heaters", VList [])].

Definition summed_quantities_value : value :=
  VDict [("walls", VList [VList (map VNum [1; 2; 3; 8]); VList (map VNum [4; 5; 6; 7])]);
         ("windows", VList []); ("doors", VList []);
         ("heaters", VList [VList (map VNum [1; 2]); VList (map VNum [3; 4]);
                            VList (map VNum [9; 10; 11; 12])])].

(** The keyword arguments of line 174-175. *)
Definition input_bounds : kwargs :=
  [("ac", VNum 0.5); ("owc", VList (map VNum [0.025; 0.1]));
   ("iwc", VList (map VNum [0.025; 0.1])); ("idc", VList [VNum 0.005]);
   ("wc", VList [VNum 0.0005]); ("ht", VList (map VNum [0; 100]));
   ("owc_c", VNum 0.001); ("iwc_c", VNum 0.025); ("idc_c", VNum 0.01);
   ("wc_c", VNum 0.025); ("ht_c", VNum 80)].

(** The weights of line 191, with [sigma_d] = 100 for the state. *)
Definition weights_value : value :=
  VDict [("walls", VList (map VNum [0.5; 0.25; 0.05])); ("doors", VNum 1);
         ("heaters", VList (map VNum [0.002; 0.002; 0.001; 0.001; 0.001; 0.001; 0.004]));
         ("windows", VNum 1); ("state", VNum 100)].

(** ** Method calls *)

Definition is_method_event (m : string) (e : event) : bool :=
  match e with
  | EMethod _ m' _ _ => String.eqb m' m
  | _ => false
  end.

(** How many calls of a method named [m] a log holds. *)
Definition method_events (m : string) (l : list event) : nat :=
  List.length (filter (is_method_event m) l).

Definition is_method_call (m : string)
  (k : expr * list expr * list (string * expr)) : bool :=
  match fst (fst k) with
  | Attr _ m' => String.eqb m' m
  | _ => false
  end.

(** How many calls of a method named [m] an expression has, and a statement
    itself (not its nested statements). *)
Definition expr_sites (m : string) (e : expr) : nat :=
  List.length (filter (is_method_call m) (calls e)).

Definition method_sites (m : string) (c : stmt) : nat :=
  List.length (filter (is_method_call m) (stmt_calls c)).

(** The statements nested in those of a block. *)
Definition nested (cs : list stmt) : list stmt :=
  flat_map (fun c => tl (flatten1 c)) cs.

(** No statement nested in a loop, a branch or a [try] calls [m]. *)
Definition called_only_at_top_level (m : string) (cs : list stmt) : bool :=
  forallb (fun c => Nat.eqb (method_sites m c) 0) (nested cs).

(** A computation that logs at most [n] calls of [m], and [n] when it
    returns. *)
Definition emits {A} (m : string) (n : nat) (c : M A) : Prop :=
  forall l,
    (method_events m l <= method_events m (fst (c l))
     /\ method_events m (fst (c l)) <= n + method_events m l)%nat
    /\ (snd (c l) <> None -> method_events m (fst (c l)) = (n + method_events m l)%nat).

(** The same of an outcome reached from the state [s]. *)
Definition grows (m : string) (n : nat) (s : state) (o : outcome) : Prop :=
  (method_events m (log s) <= method_events m (log (final o))
   /\ method_events m (log (final o)) <= n + method_events m (log s))%nat
  /\ (forall s', o = Done s' ->
      method_events m (log s') = (n + method_events m (log s))%nat).

(** The calls of [m] that the top-level statements of a block make
    themselves. *)
Definition top_level_sites (m : string) (cs : list stmt) : nat :=
  list_sum (map (method_sites m) cs).

(** * Proofs *)

(** ** Induction principles for the nested syntax *)

Lemma expr_induction (P : expr -> Prop)
  (HName : forall x, P (Name x))
  (HNum : forall q, P (Num q))
  (HStr : forall s, P (Str s))
  (HNone : P NoneLit)
  (HBool : forall b, P (BoolLit b))
  (HList : forall es, Forall P es -> P (ListE es))
  (HTuple : forall es, Forall P es -> P (TupleE es))
  (HDict : forall kes, Forall (fun ke => P (snd ke)) kes -> P (DictE kes))
  (HAttr : forall e a, P e -> P (Attr e a))
  (HSub : forall e i, P e -> P i -> P (Subscript e i))
  (HCall : forall f args kes,
      P f -> match f with Attr o _ => P o | _ => True end ->
      Forall P args -> Forall (fun ke => P (snd ke)) kes -> P (Call f args kes))
  (HBin : forall op a b, P a -> P b -> P (BinOp op a b))
  (HNeg : forall e, P e -> P (Neg e))
  (HIs : forall a b, P a -> P b -> P (Is a b)) :
  forall e, P e.
Proof.
  fix IH 1. intros [x|q|s| |b|es|es|kes|e a|e i|f args kes|op a b|e|a b].
  - apply HName.
  - apply HNum.
  - apply HStr.
  - apply HNone.
  - apply HBool.
  - apply HList. induction es as [|e es IHes]; constructor; [apply IH | exact IHes].
  - apply HTuple. induction es as [|e es IHes]; constructor; [apply IH | exact IHes].
  - apply HDict. induction kes as [|[k e] kes IHkes]; constructor; [apply IH | exact IHkes].
  - apply HAttr, IH.
  - apply HSub; apply IH.
  - apply HCall.
    + apply IH.
    + destruct f; try exact I. apply IH.
    + induction args as [|e es IHes]; constructor; [apply IH | exact IHes].
    + induction kes as [|[k e] kes IHkes]; constructor; [apply IH | exact IHkes].
  - apply HBin; apply IH.
  - apply HNeg, IH.
  - apply HIs; apply IH.
Qed.

Lemma stmt_induction (P : stmt -> Prop)
  (HImport : forall ln m a, P (Import ln m a))
  (HFrom : forall ln m names, P (FromImport ln m names))
  (HAssign : forall ln t e, P (Assign ln t e))
  (HExpr : forall ln e, P (ExprS ln e))
  (HFor : forall ln x it body, Forall P body -> P (For ln x it body))
  (HIf : forall ln c th el, Forall P th -> Forall P el -> P (If ln c th el))
  (HTry : forall ln body handler,
      Forall P body -> Forall P handler -> P (Try ln body handler)) :
  forall c, P c.
Proof.
  fix IH 1. intros [ln m a|ln m names|ln t e|ln e|ln x it body|ln c th el|ln body handler].
  - apply HImport.
  - apply HFrom.
  - apply HAssign.
  - apply HExpr.
  - apply HFor. induction body as [|c cs IHcs]; constructor; [apply IH | exact IHcs].
  - apply HIf.
    + induction th as [|c' cs IHcs]; constructor; [apply IH | exact IHcs].
    + induction el as [|c' cs IHcs]; constructor; [apply IH | exact IHcs].
  - apply HTry.
    + induction body as [|c cs IHcs]; constructor; [apply IH | exact IHcs].
    + induction handler as [|c cs IHcs]; constructor; [apply IH | exact IHcs].
Qed.

(** ** Unfolding the interpreter *)

Section Unfold.

Variable L : Library.

Lemma exec_For ln x it body s :
  exec L (For ln x it body) s =
  step (eval L (vars s) it) (mark ln s)
    (fun v s' => match v with
                 | VList vs => loop L x body vs s'
                 | _ => Raised s'
                 end).
Proof. reflexivity. Qed.

Lemma exec_If ln c th el s :
  exec L (If ln c th el) s =
  step (eval L (vars s) c) (mark ln s)
    (fun v s' => if truthy v then exec_block L th s' else exec_block L el s').
Proof. reflexivity. Qed.

Lemma exec_Try ln body handler s :
  exec L (Try ln body handler) s =
  match exec_block L body (mark ln s) with
  | Done s' => Done s'
  | Raised s' => exec_block L handler s'
  end.
Proof. reflexivity. Qed.

Lemma exec_block_app cs1 cs2 s :
  exec_block L (cs1 ++ cs2) s =
  match exec_block L cs1 s with
  | Done s' => exec_block L cs2 s'
  | Raised s' => Raised s'
  end.
Proof.
  revert s. induction cs1 as [|c cs IH]; intros s; simpl.
  - reflexivity.
  - destruct (exec L c s); [apply IH | reflexivity].
Qed.

End Unfold.

(** ** Evaluating an expression starts no statement *)

Lemma quiet_ret {A} (a : A) : quiet (ret a).
Proof. intro l. reflexivity. Qed.

Lemma quiet_raise {A} : quiet (@raise A).
Proof. intro l. reflexivity. Qed.

Lemma quiet_lift {A} (o : option A) : quiet (lift o).
Proof. intro l. reflexivity. Qed.

Lemma quiet_bind {A B} (m : M A) (f : A -> M B) :
  quiet m -> (forall a, quiet (f a)) -> quiet (bind m f).
Proof.
  intros Hm Hf l. unfold bind. specialize (Hm l).
  destruct (m l) as [l' [a|]]; simpl in *.
  - rewrite Hf. exact Hm.
  - exact Hm.
Qed.

Lemma quiet_emit_call f vs ks : quiet (emit (ECall f vs ks)).
Proof. intro l. reflexivity. Qed.

Lemma quiet_emit_method o m vs ks : quiet (emit (EMethod o m vs ks)).
Proof. intro l. reflexivity. Qed.

Lemma quiet_emit_store o k v : quiet (emit (EStore o k v)).
Proof. intro l. reflexivity. Qed.

Create HintDb quiet.

#[local] Hint Resolve quiet_ret quiet_raise quiet_lift quiet_emit_call
  quiet_emit_method quiet_emit_store : quiet.

Section Lines.

Variable L : Library.

Lemma quiet_apply f vs ks : quiet (apply L f vs ks).
Proof.
  unfold apply.
  repeat match goal with
         | |- quiet (match ?x with _ => _ end) => destruct x
         end; auto with quiet; apply quiet_bind; auto with quiet.
Qed.

Lemma quiet_evals rho es :
  Forall (fun e => quiet (eval L rho e)) es ->
  quiet ((fix evals (es : list expr) : M (list value) :=
            match es with
            | [] => ret []
            | e' :: r => v <- eval L rho e' ;; vs <- evals r ;; ret (v :: vs)
            end) es).
Proof.
  induction 1 as [|e es He Hes IH]; auto with quiet.
  apply quiet_bind; [exact He|]. intro v.
  apply quiet_bind; [exact IH|]. auto with quiet.
Qed.

Lemma quiet_evalkw rho kes :
  Forall (fun ke => quiet (eval L rho (snd ke))) kes ->
  quiet ((fix evalkw (kes : list (string * expr)) : M kwargs :=
            match kes with
            | [] => ret []
            | (k, e') :: r => v <- eval L rho e' ;; vs <- evalkw r ;; ret ((k, v) :: vs)
            end) kes).
Proof.
  induction 1 as [|[k e] kes He Hes IH]; auto with quiet.
  apply quiet_bind; [exact He|]. intro v.
  apply quiet_bind; [exact IH|]. auto with quiet.
Qed.

Lemma quiet_eval rho e : quiet (eval L rho e).
Proof.
  induction e as [x|q|s| |b|es Hes|es Hes|kes Hkes|e IHe a|e IHe i IHi
                  |f args kes IHf Ho Hes Hkes|op a IHa b IHb|e IHe|a IHa b IHb]
    using expr_induction; simpl; auto with quiet.
  - apply quiet_bind; [apply quiet_evals; assumption | auto with quiet].
  - apply quiet_bind; [apply quiet_evals; assumption | auto with quiet].
  - apply quiet_bind; [apply quiet_evalkw; assumption | auto with quiet].
  - apply quiet_bind; auto with quiet.
  - apply quiet_bind; [assumption|]. intro o.
    apply quiet_bind; [assumption | auto with quiet].
  - assert (Hargs := quiet_evals rho _ Hes).
    assert (Hkw := quiet_evalkw rho _ Hkes).
    destruct f;
      (apply quiet_bind; [assumption|]; intro;
       apply quiet_bind; [exact Hargs|]; intro;
       apply quiet_bind; [exact Hkw|]; intro);
      try apply quiet_apply.
    apply quiet_bind; auto with quiet.
  - apply quiet_bind; [assumption|]. intro x.
    apply quiet_bind; [assumption | auto with quiet].
  - apply quiet_bind; [assumption|]. intros []; auto with quiet.
  - apply quiet_bind; [assumption|]. intro x.
    apply quiet_bind; [assumption | auto with quiet].
Qed.

End Lines.

(** ** The lines a statement logs *)

Lemma flatten1_For ln x it body :
  flatten1 (For ln x it body) = For ln x it body :: flatten body.
Proof. reflexivity. Qed.

Lemma flatten1_If ln c th el :
  flatten1 (If ln c th el) = If ln c th el :: (flatten th ++ flatten el)%list.
Proof. reflexivity. Qed.

Lemma flatten1_Try ln body handler :
  flatten1 (Try ln body handler) =
  Try ln body handler :: (flatten body ++ flatten handler)%list.
Proof. reflexivity. Qed.

Lemma all_lines_head c : all_lines c = line c :: inner_lines c.
Proof. destruct c; reflexivity. Qed.

Section StmtLines.

Variable L : Library.

(** What [step] does to the lines, for a quiet computation. *)
Lemma step_quiet {A} (m : M A) s (k : A -> state -> outcome) (P : outcome -> Prop) :
  quiet m ->
  (forall a s1, lines (log s1) = lines (log s) -> vars s1 = vars s -> P (k a s1)) ->
  (forall s1, lines (log s1) = lines (log s) -> P (Raised s1)) ->
  P (step m s k).
Proof.
  intros Hm Hk Hr. unfold step. specialize (Hm (log s)).
  destruct (m (log s)) as [l [a|]]; simpl in Hm.
  - apply Hk; [exact Hm | reflexivity].
  - apply Hr. exact Hm.
Qed.

Lemma set_vars_lines rho s : lines (log (final (set_vars rho s))) = lines (log s).
Proof. destruct rho; reflexivity. Qed.

Lemma assign_lines t v s : lines (log (final (assign L t v s))) = lines (log s).
Proof.
  destruct t; try reflexivity.
  - destruct v; try reflexivity. apply set_vars_lines.
  - unfold assign.
    apply step_quiet.
    + apply quiet_bind; [apply quiet_eval|]. intro o.
      apply quiet_bind; [apply quiet_eval|]. auto with quiet.
    + intros [o k] s1 H1 _. simpl fst; simpl snd.
      destruct (is_lib o).
      * unfold step, emit. simpl.
        destruct (lib_setitem L o k v); exact H1.
      * destruct (root_path (Subscript t1 t2)) as [[x ks]|]; [|exact H1].
        destruct (store_path (read (vars s1) x) ks v); exact H1.
    + intros s1 H1. exact H1.
Qed.

Lemma block_lines cs : Forall (logs_own_line L) cs -> logs_within L cs.
Proof.
  induction 1 as [|c cs Hc _ IH]; intros s.
  - exists []. split; [reflexivity | apply incl_nil_l].
  - simpl exec_block. destruct (Hc s) as [t [Ht Hin]].
    assert (Hc' : incl (t ++ [line c]) (map line (flatten (c :: cs)))).
    { unfold flatten. simpl flat_map. rewrite map_app.
      apply incl_appl. fold (all_lines c). rewrite all_lines_head.
      apply incl_app.
      - apply incl_tl. exact Hin.
      - intros x [<-|[]]. left. reflexivity. }
    destruct (exec L c s) as [s'|s'] eqn:E; simpl in Ht.
    + destruct (IH s') as [t' [Ht' Hin']].
      exists (t' ++ t ++ [line c])%list. split.
      * rewrite Ht', Ht. rewrite <- !app_assoc. reflexivity.
      * apply incl_app; [|exact Hc'].
        unfold flatten. simpl flat_map. rewrite map_app. apply incl_appr. exact Hin'.
    + exists (t ++ [line c])%list. split.
      * simpl. rewrite Ht. rewrite <- app_assoc. reflexivity.
      * exact Hc'.
Qed.

Lemma loop_lines x body vs :
  logs_within L body ->
  forall s, exists t,
    lines (log (final (loop L x body vs s))) = (t ++ lines (log s))%list
    /\ incl t (map line (flatten body)).
Proof.
  intros Hb. induction vs as [|w r IH]; intros s; simpl.
  - exists []. split; [reflexivity | apply incl_nil_l].
  - destruct (Hb {| vars := update x w (vars s); log := log s |}) as [t [Ht Hin]].
    simpl in Ht.
    destruct (exec_block L body _) as [s'|s']; simpl in Ht.
    + destruct (IH s') as [t' [Ht' Hin']].
      exists (t' ++ t)%list. split.
      * rewrite Ht', Ht. apply app_assoc.
      * apply incl_app; assumption.
    + exists t. split; assumption.
Qed.

Lemma inner_lines_For ln x it body :
  inner_lines (For ln x it body) = map line (flatten body).
Proof. reflexivity. Qed.

Lemma inner_lines_If ln c th el :
  inner_lines (If ln c th el) = (map line (flatten th) ++ map line (flatten el))%list.
Proof. unfold inner_lines, all_lines. rewrite flatten1_If. simpl. apply map_app. Qed.

Lemma inner_lines_Try ln body handler :
  inner_lines (Try ln body handler) =
  (map line (flatten body) ++ map line (flatten handler))%list.
Proof. unfold inner_lines, all_lines. rewrite flatten1_Try. simpl. apply map_app. Qed.

Lemma exec_lines c : logs_own_line L c.
Proof.
  induction c as [ln m a|ln m names|ln t e|ln e|ln x it body IH
                 |ln c th el IHth IHel|ln body handler IHb IHh]
    using stmt_induction; intros s.
  - exists []. split; [reflexivity | apply incl_nil_l].
  - exists []. split; [reflexivity | apply incl_nil_l].
  - simpl exec. apply step_quiet; [apply quiet_eval| |].
    + intros v s1 H1 _. exists []. split; [|apply incl_nil_l].
      rewrite assign_lines. exact H1.
    + intros s1 H1. exists []. split; [exact H1 | apply incl_nil_l].
  - simpl exec. apply step_quiet; [apply quiet_eval| |].
    + intros v s1 H1 _. exists []. split; [exact H1 | apply incl_nil_l].
    + intros s1 H1. exists []. split; [exact H1 | apply incl_nil_l].
  - rewrite exec_For, inner_lines_For. simpl line.
    apply step_quiet; [apply quiet_eval| |].
    + intros v s1 H1 _.
      destruct v; try (exists []; split; [exact H1 | apply incl_nil_l]).
      destruct (loop_lines x body vs (block_lines body IH) s1) as [t [Ht Hin]].
      exists t. split; [|exact Hin]. rewrite Ht, H1. reflexivity.
    + intros s1 H1. exists []. split; [exact H1 | apply incl_nil_l].
  - rewrite exec_If, inner_lines_If. simpl line.
    apply step_quiet; [apply quiet_eval| |].
    + intros v s1 H1 _. destruct (truthy v).
      * destruct (block_lines th IHth s1) as [t [Ht Hin]].
        exists t. split; [rewrite Ht, H1; reflexivity | apply incl_appl; exact Hin].
      * destruct (block_lines el IHel s1) as [t [Ht Hin]].
        exists t. split; [rewrite Ht, H1; reflexivity | apply incl_appr; exact Hin].
    + intros s1 H1. exists []. split; [exact H1 | apply incl_nil_l].
  - rewrite exec_Try, inner_lines_Try. simpl line.
    destruct (block_lines body IHb (mark ln s)) as [t [Ht Hin]].
    destruct (exec_block L body (mark ln s)) as [s'|s']; simpl in Ht.
    + exists t. split; [exact Ht | apply incl_appl; exact Hin].
    + destruct (block_lines handler IHh s') as [t' [Ht' Hin']].
      exists (t' ++ t)%list. split.
      * rewrite Ht', Ht. apply app_assoc.
      * apply incl_app; [apply incl_appr | apply incl_appl]; assumption.
Qed.

Lemma count_occ_outside (t : list nat) (ns : list nat) n :
  incl t ns -> ~ In n ns -> count_occ Nat.eq_dec t n = 0%nat.
Proof.
  intros Hin Hn. apply count_occ_not_In. intro H. apply Hn, Hin, H.
Qed.

(** A block that ends normally has started each of its own statements once,
    as far as lines outside nested statements go. *)
Lemma block_occurrences cs : forall s s' n,
  exec_block L cs s = Done s' ->
  ~ In n (flat_map inner_lines cs) ->
  occurrences n (log s') =
  (count_occ Nat.eq_dec (map line cs) n + occurrences n (log s))%nat.
Proof.
  induction cs as [|c cs IH]; intros s s' n E Hn.
  - injection E as <-. reflexivity.
  - simpl in E. destruct (exec_lines c s) as [t [Ht Hin]].
    destruct (exec L c s) as [s1|s1]; [|discriminate]. simpl in Ht.
    simpl flat_map in Hn.
    rewrite (IH s1 s' n E) by (intro H; apply Hn, in_or_app; right; exact H).
    assert (H1 : occurrences n (log s1) =
                 ((if Nat.eq_dec (line c) n then 1 else 0) + occurrences n (log s))%nat).
    { unfold occurrences. rewrite Ht, count_occ_app.
      rewrite (count_occ_outside t (inner_lines c) n Hin)
        by (intro H; apply Hn, in_or_app; left; exact H).
      simpl. destruct (Nat.eq_dec (line c) n); reflexivity. }
    rewrite H1. simpl map. simpl count_occ.
    destruct (Nat.eq_dec (line c) n); lia.
Qed.

End StmtLines.

(** ** Control flow (C4) *)

Lemma top_level_once_and_outside :
  forallb (once_and_outside notebook) (top_lines notebook) = true.
Proof. vm_compute. reflexivity. Qed.

(** In a run that ends normally every top-level statement starts exactly
    once, whatever the library answers. *)
Lemma top_level_runs_once (L : Library) s n :
  run L = Done s -> In n (top_lines notebook) -> executions n (run L) = 1%nat.
Proof.
  intros E Hn.
  pose proof (proj1 (forallb_forall _ _) top_level_once_and_outside n Hn) as H.
  unfold once_and_outside in H. apply andb_prop in H. destruct H as [H1 H2].
  apply Nat.eqb_eq in H1. apply negb_true_iff in H2.
  unfold executions. rewrite E. simpl final.
  rewrite (block_occurrences L notebook start s n E).
  - unfold top_lines in H1. rewrite H1. reflexivity.
  - intro Hin. fold (nested_lines notebook) in Hin.
    assert (existsb (Nat.eqb n) (nested_lines notebook) = true) as Hex.
    { apply existsb_exists. exists n. split; [exact Hin | apply Nat.eqb_refl]. }
    rewrite Hex in H2. discriminate.
Qed.

(** C4, counterexample.  The notebook is not a straight-line sequence: it
    holds control statements, and in the run stored in the file the
    statement of line 532 (the body of the [for]) runs ten times while the
    statement of line 558 (the [else] branch) never runs. *)
Lemma notebook_not_straight_line :
  straight_line notebook = false
  /\ executions 532 (run Recorded.library) = 10%nat
  /\ executions 558 (run Recorded.library) = 0%nat.
Proof. vm_compute. repeat split; reflexivity. Qed.

(** C4, amended.  The control flow written in the notebook is one [for]
    loop (line 531) and two [if] statements (lines 555 and 559), with no
    [try]; the statements nested in them are those of lines 532, 556, 558
    and 560-566.  Every other statement is at top level, and in a run that
    ends normally every top-level statement starts exactly once. *)
Theorem control_flow_of_notebook :
  lines_where control notebook = [531; 555; 559]%nat
  /\ lines_where is_try notebook = []
  /\ nested_lines notebook = [532; 556; 558; 560; 561; 562; 563; 564; 565; 566]%nat
  /\ forall (L : Library) s n,
       run L = Done s -> In n (top_lines notebook) -> executions n (run L) = 1%nat.
Proof.
  split; [reflexivity|]. split; [reflexivity|]. split; [reflexivity|].
  intros L s n. apply top_level_runs_once.
Qed.

Lemma control_flow_of_notebook_witness :
  run Recorded.library = Done (final (run Recorded.library))
  /\ In 484%nat (top_lines notebook)
  /\ executions 484 (run Recorded.library) = 1%nat.
Proof.
  assert (E : run Recorded.library = Done (final (run Recorded.library)))
    by (vm_compute; reflexivity).
  assert (I : In 484%nat (top_lines notebook))
    by (vm_compute; tauto).
  split; [exact E|]. split; [exact I|].
  exact (proj2 (proj2 (proj2 control_flow_of_notebook)) Recorded.library _ 484%nat E I).
Defined.

(** ** The variables a statement leaves as they were *)

Lemma lookup_update_other {A} (x y : string) (v : A) kvs :
  x <> y -> lookup x (update y v kvs) = lookup x kvs.
Proof.
  intros Hxy. induction kvs as [|[k w] r IH]; simpl.
  - destruct (String.eqb_spec y x); [congruence | reflexivity].
  - destruct (String.eqb_spec k y) as [->|Hk]; simpl.
    + destruct (String.eqb_spec y x); [congruence | reflexivity].
    + destruct (String.eqb_spec k x); [reflexivity | exact IH].
Qed.

Lemma lookup_update_same {A} (x : string) (v : A) kvs :
  lookup x (update x v kvs) = Some v.
Proof.
  induction kvs as [|[k w] r IH]; simpl.
  - rewrite String.eqb_refl. reflexivity.
  - destruct (String.eqb_spec k x) as [->|Hk]; simpl.
    + rewrite String.eqb_refl. reflexivity.
    + destruct (String.eqb_spec k x); [congruence | exact IH].
Qed.

Lemma bind_names_frame x ts : forall vs rho rho',
  bind_names ts vs rho = Some rho' ->
  ~ In x (flat_map bound ts) -> lookup x rho' = lookup x rho.
Proof.
  induction ts as [|t ts IH]; intros vs rho rho' E Hx.
  - destruct vs; [injection E as <-; reflexivity | discriminate].
  - destruct t; try discriminate. destruct vs as [|v vs]; [discriminate|].
    simpl in E, Hx.
    rewrite (IH _ _ _ E) by tauto.
    apply lookup_update_other. intro Hxx. apply Hx. left. symmetry. exact Hxx.
Qed.

Lemma import_names_frame x m names : forall rho,
  ~ In x (map snd names) -> lookup x (import_names m names rho) = lookup x rho.
Proof.
  unfold import_names.
  induction names as [|[n a] names IH]; intros rho Hx; simpl in *.
  - reflexivity.
  - rewrite IH by tauto.
    destruct (String.eqb n "*"); [reflexivity|].
    apply lookup_update_other. intro Hxx. apply Hx. left. symmetry. exact Hxx.
Qed.

Section Frame.

Variable L : Library.

Lemma step_keeps {A} x (m : M A) s s0 (k : A -> state -> outcome) :
  vars s = vars s0 ->
  (forall a s1, vars s1 = vars s0 -> keeps x s0 (k a s1)) ->
  keeps x s0 (step m s k).
Proof.
  intros Hs Hk. unfold step. destruct (m (log s)) as [l [a|]].
  - apply Hk. exact Hs.
  - unfold keeps. simpl. rewrite Hs. reflexivity.
Qed.

Lemma set_vars_keeps x rho s s0 :
  vars s = vars s0 ->
  (forall r, rho = Some r -> lookup x r = lookup x (vars s0)) ->
  keeps x s0 (set_vars rho s).
Proof.
  intros Hs Hr. unfold keeps. destruct rho as [r|]; simpl.
  - apply Hr. reflexivity.
  - rewrite Hs. reflexivity.
Qed.

Lemma assign_keeps x t v s s0 :
  vars s = vars s0 ->
  ~ In x (bound t ++ store_root t) -> keeps x s0 (assign L t v s).
Proof.
  intros Hs Hx. destruct t; try (unfold keeps; simpl; rewrite Hs; reflexivity).
  - apply set_vars_keeps; [exact Hs|]. intros r [= <-]. rewrite Hs.
    apply lookup_update_other. simpl in Hx. intro Hxx. apply Hx. left.
    symmetry. exact Hxx.
  - destruct v; try (unfold keeps; simpl; rewrite Hs; reflexivity).
    apply set_vars_keeps; [exact Hs|]. intros r E. rewrite Hs in E.
    apply (bind_names_frame x _ _ _ _ E).
    simpl in Hx. rewrite app_nil_r in Hx. exact Hx.
  - unfold assign. apply step_keeps; [exact Hs|].
    intros [o k] s1 H1. simpl fst; simpl snd.
    destruct (is_lib o).
    + apply step_keeps; [exact H1|]. intros _ s2 H2.
      unfold keeps. destruct (lib_setitem L o k v); simpl; rewrite H2; reflexivity.
    + change (~ In x (store_root (Subscript t1 t2))) in Hx.
      unfold store_root in Hx.
      destruct (root_path (Subscript t1 t2)) as [[y ks]|];
        [|unfold keeps; simpl; rewrite H1; reflexivity].
      destruct (store_path (read (vars s1) y) ks v);
        [|unfold keeps; simpl; rewrite H1; reflexivity].
      apply set_vars_keeps; [exact H1|]. intros r [= <-]. rewrite H1.
      apply lookup_update_other. intro Hxx. apply Hx. simpl. left.
      symmetry. exact Hxx.
Qed.

End Frame.

Section ExecFrame.

Variable L : Library.

Lemma writes_cons c cs :
  writes (c :: cs) = (flat_map stmt_writes (flatten1 c) ++ writes cs)%list.
Proof. unfold writes, flatten. simpl. apply flat_map_app. Qed.

Lemma block_frame cs : Forall (frames L) cs -> block_frames L cs.
Proof.
  induction 1 as [|c cs Hc _ IH]; intros x s Hx.
  - reflexivity.
  - rewrite writes_cons in Hx. simpl exec_block.
    assert (H1 := Hc x s (fun H => Hx (in_or_app _ _ _ (or_introl H)))).
    unfold keeps in *.
    destruct (exec L c s) as [s'|s']; simpl in H1.
    + rewrite (IH x s' (fun H => Hx (in_or_app _ _ _ (or_intror H)))). exact H1.
    + exact H1.
Qed.

Lemma loop_frame y body vs :
  block_frames L body ->
  forall x s, x <> y -> ~ In x (writes body) -> keeps x s (loop L y body vs s).
Proof.
  intros Hb x. induction vs as [|w r IH]; intros s Hxy Hx; simpl.
  - reflexivity.
  - assert (H1 := Hb x {| vars := update y w (vars s); log := log s |} Hx).
    unfold keeps in *. simpl in H1. rewrite lookup_update_other in H1 by exact Hxy.
    destruct (exec_block L body _) as [s'|s']; simpl in H1.
    + rewrite (IH s' Hxy Hx). exact H1.
    + exact H1.
Qed.

Lemma keeps_mark x ln s o : keeps x (mark ln s) o -> keeps x s o.
Proof. exact (fun H => H). Qed.

(** A statement leaves every variable it does not write as it was. *)
Lemma exec_frame c : frames L c.
Proof.
  induction c as [ln m a|ln m names|ln t e|ln e|ln y it body IH
                 |ln c th el IHth IHel|ln body handler IHb IHh]
    using stmt_induction; intros x s Hx.
  - simpl in Hx. unfold keeps. simpl.
    apply lookup_update_other. intro Hxx. apply Hx. left. symmetry. exact Hxx.
  - simpl in Hx. rewrite app_nil_r in Hx. unfold keeps. simpl.
    apply import_names_frame. exact Hx.
  - simpl in Hx. rewrite app_nil_r in Hx. simpl exec.
    apply (keeps_mark x ln). apply step_keeps; [reflexivity|].
    intros v s1 H1. apply assign_keeps; assumption.
  - simpl exec. apply (keeps_mark x ln). apply step_keeps; [reflexivity|].
    intros v s1 H1. unfold keeps. simpl. rewrite H1. reflexivity.
  - rewrite flatten1_For in Hx. simpl in Hx. rewrite exec_For.
    apply (keeps_mark x ln). apply step_keeps; [reflexivity|].
    intros v s1 H1.
    destruct v; try (unfold keeps; simpl; rewrite H1; reflexivity).
    assert (H2 : keeps x s1 (loop L y body vs s1)).
    { apply loop_frame.
      - apply block_frame. exact IH.
      - intro Hxx. apply Hx. left. symmetry. exact Hxx.
      - intro H. apply Hx. right. exact H. }
    unfold keeps in *. rewrite H2, H1. reflexivity.
  - rewrite flatten1_If in Hx. simpl in Hx. rewrite flat_map_app in Hx.
    rewrite exec_If. apply (keeps_mark x ln). apply step_keeps; [reflexivity|].
    intros v s1 H1. unfold keeps. destruct (truthy v).
    + rewrite (block_frame th IHth x s1), H1; [reflexivity|].
      intro H. apply Hx, in_or_app. left. exact H.
    + rewrite (block_frame el IHel x s1), H1; [reflexivity|].
      intro H. apply Hx, in_or_app. right. exact H.
  - rewrite flatten1_Try in Hx. simpl in Hx. rewrite flat_map_app in Hx.
    rewrite exec_Try.
    assert (H1 := block_frame body IHb x (mark ln s)
                    (fun H => Hx (in_or_app _ _ _ (or_introl H)))).
    unfold keeps in *.
    destruct (exec_block L body (mark ln s)) as [s'|s']; simpl in H1.
    + exact H1.
    + rewrite (block_frame handler IHh x s'), H1; [reflexivity|].
      intro H. apply Hx, in_or_app. right. exact H.
Qed.

Lemma exec_block_frame cs x s :
  ~ In x (writes cs) -> lookup x (vars (final (exec_block L cs s))) = lookup x (vars s).
Proof.
  apply (block_frame cs). apply Forall_forall. intros c _. apply exec_frame.
Qed.

(** What a top-level statement binds, and later statements do not write,
    is still bound at the end of a run that ends normally. *)
Lemma at_the_end pre c post s x :
  exec_block L (pre ++ c :: post) start = Done s ->
  ~ In x (writes post) ->
  exists s1 s2,
    exec_block L pre start = Done s1 /\ exec L c s1 = Done s2
    /\ lookup x (vars s) = lookup x (vars s2).
Proof.
  intros E Hx. rewrite exec_block_app in E.
  destruct (exec_block L pre start) as [s1|]; [|discriminate].
  simpl in E. destruct (exec L c s1) as [s2|] eqn:E2; [|discriminate].
  exists s1, s2. split; [reflexivity|]. split; [exact E2|].
  pose proof (exec_block_frame post x s2 Hx) as H. rewrite E in H. exact H.
Qed.

End ExecFrame.

(** ** Cutting a run at a line *)

Lemma split_at_spec ln cs : forall p c q,
  split_at ln cs = Some (p, c, q) -> cs = (p ++ c :: q)%list.
Proof.
  induction cs as [|c0 r IH]; intros p c q E; simpl in E.
  - discriminate.
  - destruct (Nat.eqb (line c0) ln).
    + injection E as <- <- <-. reflexivity.
    + destruct (split_at ln r) as [[[p' c'] q']|]; [|discriminate].
      injection E as <- <- <-. simpl. f_equal. apply IH. reflexivity.
Qed.

(** The statement of a line, what precedes it and what follows it, for a
    run that ends normally. *)
Lemma run_through (L : Library) ln p c q s x :
  split_at ln notebook = Some (p, c, q) ->
  run L = Done s ->
  mem x (writes q) = false ->
  exists s1 s2,
    exec_block L p start = Done s1 /\ exec L c s1 = Done s2
    /\ lookup x (vars s) = lookup x (vars s2).
Proof.
  intros Hsplit E Hx. apply split_at_spec in Hsplit.
  unfold run in E. rewrite Hsplit in E.
  apply (at_the_end L p c q s x E).
  intro Hin.
  assert (mem x (writes q) = true) as Hm.
  { apply existsb_exists. exists x. split; [exact Hin | apply String.eqb_refl]. }
  rewrite Hm in Hx. discriminate.
Qed.

(** ** The trust-region radius (C10) *)

Lemma radius_after_221 (L : Library) s1 s2 :
  exec L (Assign 221 (Name "radius") (Num 0.1)) s1 = Done s2 ->
  lookup "radius" (vars s2) = Some (VNum 0.1).
Proof.
  intros [= <-]. simpl. apply lookup_update_same.
Qed.

Lemma TR_parameters_after_476 (L : Library) s1 s2 :
  exec L (Assign 476 (Name "TR_parameters") TR_parameters_expr) s1 = Done s2 ->
  exists d, lookup "TR_parameters" (vars s2) = Some (VDict d)
            /\ lookup "radius" d = Some (VNum 1e18)
            /\ lookup "full_order_model" d = Some (VBool true).
Proof.
  intros [= <-]. eexists. split.
  - simpl. apply lookup_update_same.
  - split; reflexivity.
Qed.

(** C10.  The variable [radius] (line 221, value 0.1) is dead: no statement
    reads it.  The dictionary bound to [TR_parameters] (line 476), which is
    what the only call of [solve_optimization_NewtonMethod] receives as its
    fourth argument, holds ['radius': 1.e18] and ['full_order_model': True]:
    at the end of every run that ends normally [radius] is still 0.1 and
    [TR_parameters] holds those two entries, and in the stored run the
    optimizer is called once, with radius 1e18. *)
Theorem radius_is_dead :
  binders "radius" notebook = [221%nat]
  /\ readers "radius" notebook = []
  /\ binders "TR_parameters" notebook = [476%nat]
  /\ arguments_of "solve_optimization_NewtonMethod" notebook =
       [[Name "opt_fom"; Attr (Name "opt_fom") "parameter_space"; Name "mu";
         Name "TR_parameters"]]
  /\ map (fourth_entry "radius")
         (received "pdeopt.TR.solve_optimization_NewtonMethod"
            (trace (run Recorded.library))) = [Some (VNum 1e18)]
  /\ forall (L : Library) s,
       run L = Done s ->
       lookup "radius" (vars s) = Some (VNum 0.1)
       /\ exists d, lookup "TR_parameters" (vars s) = Some (VDict d)
                    /\ lookup "radius" d = Some (VNum 1e18)
                    /\ lookup "full_order_model" d = Some (VBool true).
Proof.
  split; [reflexivity|]. split; [reflexivity|]. split; [reflexivity|].
  split; [reflexivity|]. split; [vm_compute; reflexivity|].
  intros L s E. split.
  - destruct (run_through L 221 _ _ _ s "radius" eq_refl E eq_refl)
      as [s1 [s2 [_ [E2 ->]]]].
    apply (radius_after_221 L s1 s2 E2).
  - destruct (run_through L 476 _ _ _ s "TR_parameters" eq_refl E eq_refl)
      as [s1 [s2 [_ [E2 ->]]]].
    apply (TR_parameters_after_476 L s1 s2 E2).
Qed.

Lemma radius_is_dead_witness :
  run Recorded.library = Done (final (run Recorded.library))
  /\ lookup "radius" (vars (final (run Recorded.library))) = Some (VNum 0.1).
Proof.
  assert (E : run Recorded.library = Done (final (run Recorded.library)))
    by (vm_compute; reflexivity).
  split; [exact E|].
  exact (proj1 (proj2 (proj2 (proj2 (proj2 (proj2 radius_is_dead)))) Recorded.library _ E)).
Defined.

(** ** The order in which top-level statements start *)

Lemma lines_app l1 l2 : lines (l1 ++ l2) = (lines l1 ++ lines l2)%list.
Proof.
  induction l1 as [|e l1 IH]; simpl; [reflexivity|].
  destruct e; simpl; rewrite IH; reflexivity.
Qed.

Lemma lines_rev l : lines (rev l) = rev (lines l).
Proof.
  induction l as [|e l IH]; simpl; [reflexivity|].
  rewrite lines_app, IH. destruct e; simpl; try apply app_nil_r. reflexivity.
Qed.

Lemma filter_outside_nil ns t : incl t ns -> filter (outside ns) t = [].
Proof.
  intros Hin. induction t as [|n t IH]; simpl; [reflexivity|].
  assert (existsb (Nat.eqb n) ns = true) as Hex.
  { apply existsb_exists. exists n. split; [apply Hin; left; reflexivity|].
    apply Nat.eqb_refl. }
  unfold outside at 1. rewrite Hex. simpl.
  apply IH. intros x Hx. apply Hin. right. exact Hx.
Qed.

Lemma block_order (L : Library) ns cs : forall s s',
  exec_block L cs s = Done s' ->
  forallb (outside ns) (map line cs) = true ->
  incl (flat_map inner_lines cs) ns ->
  filter (outside ns) (lines (log s')) =
  (rev (map line cs) ++ filter (outside ns) (lines (log s)))%list.
Proof.
  induction cs as [|c cs IH]; intros s s' E Hout Hin.
  - injection E as <-. reflexivity.
  - simpl in E. destruct (exec_lines L c s) as [t [Ht Ht']].
    destruct (exec L c s) as [s1|]; [|discriminate]. simpl in Ht.
    simpl in Hout. apply andb_prop in Hout. destruct Hout as [Hc Hout].
    simpl in Hin. apply incl_app_inv in Hin. destruct Hin as [Hin1 Hin2].
    rewrite (IH s1 s' E Hout Hin2). rewrite Ht, filter_app.
    rewrite (filter_outside_nil ns t) by (intros x Hx; apply Hin1, Ht', Hx).
    simpl. rewrite Hc. rewrite <- app_assoc. reflexivity.
Qed.

(** A run that ends normally starts the top-level statements in the order
    of the file. *)
Lemma top_level_in_order (L : Library) s :
  run L = Done s -> top_level_trace (run L) = top_lines notebook.
Proof.
  intros E. unfold top_level_trace, trace. rewrite E. simpl final.
  rewrite lines_rev, filter_rev.
  rewrite (block_order L (nested_lines notebook) notebook start s E).
  - change (filter (outside (nested_lines notebook)) (lines (log start))) with (@nil nat).
    rewrite app_nil_r. apply rev_involutive.
  - vm_compute. reflexivity.
  - apply incl_refl.
Qed.

(** ** The order of the pipeline (C5) *)




(** ** In-place stores (C8) *)




(** ** Error handling (C6) *)

(** An exception raised by a top-level statement ends the run. *)
Lemma raise_ends_run (L : Library) p c q s1 s2 :
  notebook = (p ++ c :: q)%list ->
  exec_block L p start = Done s1 -> exec L c s1 = Raised s2 ->
  run L = Raised s2.
Proof.
  intros Hn Hp Hc. unfold run. rewrite Hn, exec_block_app, Hp. simpl.
  rewrite Hc. reflexivity.
Qed.



(** ** File names (C7) *)

Lemma string_bound (L : Library) ln x v s1 s2 :
  exec L (Assign ln (Name x) (Str v)) s1 = Done s2 ->
  lookup x (vars s2) = Some (VStr v).
Proof.
  intros [= <-]. simpl. apply lookup_update_same.
Qed.



(** ** The box of the parameters *)

Lemma bounds_of_notebook :
  bounds "owc" = (0.025, 0.1) /\ bounds "iwc" = (0.025, 0.1) /\ bounds "ht" = (0, 100).
Proof. repeat split; reflexivity. Qed.

Lemma recorded_samples_in_box : samples_in_box Recorded.library.
Proof.
  intros o a k r. simpl. unfold Recorded.method.
  destruct (Recorded.seed_of k) as [[]|]; intros [= <-];
    try (eexists; split; reflexivity).
  match goal with |- context [Qeq_bool ?q 1] => destruct (Qeq_bool q 1) end;
    eexists; split; reflexivity.
Qed.

(** Line 252 or 330: the variable is bound to a vector of the box. *)
Lemma sample_bound (L : Library) ln x seed s1 s2 :
  samples_in_box L ->
  exec L (Assign ln (Name x) (sample_expr seed)) s1 = Done s2 ->
  exists v, lookup x (vars s2) = Some v /\ in_box v = true.
Proof.
  intros H E. cbn in E. unfold step, bind, lift, ret, emit in E. cbn in E.
  destruct (lib_getattr L (read (vars s1) "problem") "parameter_space") as [ps|];
    [|discriminate].
  destruct (lib_method L ps "sample_randomly" [VNum 1] [("seed", VNum seed)])
    as [r|] eqn:Er; [|discriminate].
  destruct (H _ _ _ _ Er) as [vs [-> Hvs]]. cbn in E.
  destruct vs as [|v vs]; [discriminate|]. cbn in E.
  injection E as <-. exists v. split.
  - simpl. apply lookup_update_same.
  - simpl in Hvs. apply andb_prop in Hvs. apply Hvs.
Qed.

(** ** Stores into [vis_mu] *)

Lemma position_nat {A} (vs : list A) i :
  position vs (Z.of_nat i) = if Nat.ltb i (List.length vs) then Some i else None.
Proof.
  unfold position.
  destruct (Nat.ltb_spec i (List.length vs)).
  - replace (0 <=? Z.of_nat i)%Z with true by (symmetry; apply Z.leb_le; lia).
    replace (Z.of_nat i <? Z.of_nat (List.length vs))%Z with true
      by (symmetry; apply Z.ltb_lt; lia).
    simpl. rewrite Nat2Z.id. reflexivity.
  - replace (Z.of_nat i <? Z.of_nat (List.length vs))%Z with false
      by (symmetry; apply Z.ltb_ge; lia).
    replace (Z.of_nat i <? 0)%Z with false by (symmetry; apply Z.ltb_ge; lia).
    rewrite andb_false_r. reflexivity.
Qed.

Lemma store_into_group (L : Library) ln g i qi q s s' kvs vs :
  index_of qi = Some (Z.of_nat i) ->
  lookup "vis_mu" (vars s) = Some (VDict kvs) ->
  lookup g kvs = Some (VList vs) ->
  exec L (Assign ln (vis_mu_at g qi) (Num q)) s = Done s' ->
  (i < List.length vs)%nat
  /\ lookup "vis_mu" (vars s') =
     Some (VDict (update g (VList (set_nth i (VNum q) vs)) kvs)).
Proof.
  intros Hi Hv Hg E. cbn in E. unfold step, bind, lift, ret, emit in E. cbn in E.
  assert (Hr : read (vars s) "vis_mu" = VDict kvs)
    by (unfold read; rewrite Hv; reflexivity).
  rewrite Hr in E. cbn in E. rewrite Hg in E. cbn in E.
  rewrite Hi, position_nat in E.
  destruct (Nat.ltb_spec i (List.length vs)) as [Hlt|]; [|discriminate].
  injection E as <-. split; [exact Hlt|].
  simpl. apply lookup_update_same.
Qed.

Lemma lookup_walls_not_in_box kvs v :
  lookup "walls" kvs = Some v -> group_in walls_box v = false ->
  in_box (VDict kvs) = false.
Proof.
  intros Hl Hv. simpl. induction kvs as [|[k w] r IH]; [discriminate|].
  simpl in Hl. simpl. unfold entry_in_box at 1. simpl fst; simpl snd.
  destruct (String.eqb_spec k "walls") as [->|Hk].
  - injection Hl as ->. rewrite Hv. reflexivity.
  - rewrite (IH Hl). apply andb_false_r.
Qed.

Lemma store_finds_group (L : Library) ln g qi q s s' kvs :
  lookup "vis_mu" (vars s) = Some (VDict kvs) ->
  (forall v, lookup g kvs = Some v -> exists vs, v = VList vs) ->
  exec L (Assign ln (vis_mu_at g qi) (Num q)) s = Done s' ->
  exists vs, lookup g kvs = Some (VList vs).
Proof.
  intros Hv Hl E. cbn in E. unfold step, bind, lift, ret, emit in E. cbn in E.
  assert (Hr : read (vars s) "vis_mu" = VDict kvs)
    by (unfold read; rewrite Hv; reflexivity).
  rewrite Hr in E. cbn in E.
  destruct (lookup g kvs) as [v|]; [|discriminate].
  destruct (Hl v eq_refl) as [vs ->]. exists vs. reflexivity.
Qed.

Lemma in_box_group kvs g v :
  in_box (VDict kvs) = true -> lookup g kvs = Some v ->
  g = "walls" \/ g = "heaters" -> exists vs, v = VList vs.
Proof.
  intros Hb Hl Hg. simpl in Hb. induction kvs as [|[k w] r IH]; [discriminate|].
  simpl in Hb. apply andb_prop in Hb. destruct Hb as [Hkw Hb].
  simpl in Hl. destruct (String.eqb_spec k g) as [->|Hk]; [|apply IH; assumption].
  injection Hl as ->. unfold entry_in_box in Hkw. simpl in Hkw.
  destruct Hg as [-> | ->]; simpl in Hkw; destruct v; try discriminate;
    eexists; reflexivity.
Qed.

Lemma exec_block_cons (L : Library) c r s s' :
  exec_block L (c :: r) s = Done s' ->
  exists s1, exec L c s = Done s1 /\ exec_block L r s1 = Done s'.
Proof.
  simpl. destruct (exec L c s) as [s1|]; [|discriminate].
  intros E. exists s1. split; [reflexivity | exact E].
Qed.

Lemma length_set_nth {A} n (v : A) vs : List.length (set_nth n v vs) = List.length vs.
Proof.
  revert n. induction vs as [|w r IH]; intros [|n]; simpl; try reflexivity.
  rewrite IH. reflexivity.
Qed.

Ltac next_store L E Hv s' Hlt Hv' :=
  let E1 := fresh "E1" in
  apply exec_block_cons in E; destruct E as [s' [E1 E]];
  match type of Hv with
  | lookup "vis_mu" _ = Some (VDict ?kvs) =>
      match type of E1 with
      | exec _ (Assign _ (vis_mu_at ?g ?qi) _) _ = _ =>
          let Hg := fresh "Hg" in
          eassert (Hg : lookup g kvs = Some (VList _))
            by (repeat (rewrite lookup_update_other by discriminate);
                first [apply lookup_update_same | eassumption]);
          destruct (store_into_group L _ g (Z.to_nat (Qnum qi)) qi _ _ _ _ _
                      eq_refl Hv Hg E1) as [Hlt Hv'];
          clear E1
      end
  end.

Lemma stores_set_vis_mu (L : Library) sa sb kvs :
  lookup "vis_mu" (vars sa) = Some (VDict kvs) ->
  in_box (VDict kvs) = true ->
  exec_block L stores sa = Done sb ->
  exists kvs' ws hs,
    lookup "vis_mu" (vars sb) = Some (VDict kvs')
    /\ lookup "walls" kvs' =
       Some (VList (VNum 0.35 :: VNum 0.2 :: VNum 0.0001 :: ws))
    /\ lookup "heaters" kvs' =
       Some (VList (VNum 30 :: VNum 40 :: VNum 50 :: VNum 60 :: VNum 70
                    :: VNum 80 :: VNum 90 :: hs)).
Proof.
  intros Hv Hb E. unfold stores in E. cbn [firstn skipn cell6] in E.
  assert (Hw : exists ws, lookup "walls" kvs = Some (VList ws)).
  { pose proof E as E'. apply exec_block_cons in E'. destruct E' as [s1 [E1 _]].
    apply (store_finds_group L _ _ _ _ _ _ _ Hv
             (fun v H => in_box_group _ _ _ Hb H (or_introl eq_refl)) E1). }
  destruct Hw as [ws Hw].
  next_store L E Hv s1 Hl1 Hv1.
  next_store L E Hv1 s2 Hl2 Hv2.
  next_store L E Hv2 s3 Hl3 Hv3.
  assert (Hh : exists hs, lookup "heaters" kvs = Some (VList hs)).
  { pose proof E as E'. apply exec_block_cons in E'. destruct E' as [s4 [E4 _]].
    match type of Hv3 with
    | _ = Some (VDict ?k) =>
        assert (Hl : forall v, lookup "heaters" k = Some v -> exists vs, v = VList vs)
    end.
    { intros v. repeat (rewrite lookup_update_other by discriminate).
      intros H. apply (in_box_group _ _ _ Hb H). right. reflexivity. }
    destruct (store_finds_group L _ _ _ _ _ _ _ Hv3 Hl E4) as [hs Hh].
    exists hs. repeat (rewrite lookup_update_other in Hh by discriminate).
    exact Hh. }
  destruct Hh as [hs Hh].
  next_store L E Hv3 s4 Hl4 Hv4.
  next_store L E Hv4 s5 Hl5 Hv5.
  next_store L E Hv5 s6 Hl6 Hv6.
  next_store L E Hv6 s7 Hl7 Hv7.
  next_store L E Hv7 s8 Hl8 Hv8.
  next_store L E Hv8 s9 Hl9 Hv9.
  next_store L E Hv9 s10 Hl10 Hv10.
  injection E as <-.
  rewrite !length_set_nth in *. cbn [Z.to_nat Qnum Pos.to_nat Pos.iter_op Nat.add] in *.
  do 3 (destruct ws as [|? ws]; [simpl in Hl3; lia|]).
  do 7 (destruct hs as [|? hs]; [simpl in Hl10; lia|]).
  eexists. exists ws, hs. split; [exact Hv10|]. split.
  - repeat (rewrite lookup_update_other by discriminate).
    rewrite lookup_update_same. reflexivity.
  - rewrite lookup_update_same. reflexivity.
Qed.

(** ** Parameter vectors and the box (C1) *)

Lemma notebook_around_stores :
  notebook = (before_stores ++ stores ++ after_stores)%list.
Proof. reflexivity. Qed.

Lemma in_box_is_dict v : in_box v = true -> exists kvs, v = VDict kvs.
Proof. destruct v; try discriminate. intros _. eexists. reflexivity. Qed.

(** At the end of a run that ends normally, [vis_mu] holds what lines
    331-340 stored. *)
Lemma vis_mu_at_the_end (L : Library) s :
  samples_in_box L -> run L = Done s ->
  exists kvs ws hs,
    lookup "vis_mu" (vars s) = Some (VDict kvs)
    /\ lookup "walls" kvs = Some (VList (VNum 0.35 :: VNum 0.2 :: VNum 0.0001 :: ws))
    /\ lookup "heaters" kvs =
       Some (VList (VNum 30 :: VNum 40 :: VNum 50 :: VNum 60 :: VNum 70
                    :: VNum 80 :: VNum 90 :: hs)).
Proof.
  intros HL E. unfold run in E. rewrite notebook_around_stores in E.
  rewrite exec_block_app in E.
  destruct (exec_block L before_stores start) as [sa|] eqn:Ea; [|discriminate].
  rewrite exec_block_app in E.
  destruct (exec_block L stores sa) as [sb|] eqn:Eb; [|discriminate].
  assert (Hsa : exists v, lookup "vis_mu" (vars sa) = Some v /\ in_box v = true).
  { change before_stores with (firstn 46 notebook ++ [Assign 330 (Name "vis_mu") (sample_expr 13)])%list in Ea.
    rewrite exec_block_app in Ea.
    destruct (exec_block L (firstn 46 notebook) start) as [s0|]; [|discriminate].
    apply exec_block_cons in Ea. destruct Ea as [s1 [E1 [= <-]]].
    apply (sample_bound L _ _ _ _ _ HL E1). }
  destruct Hsa as [v [Hv Hb]].
  destruct (in_box_is_dict v Hb) as [kvs ->].
  destruct (stores_set_vis_mu L sa sb kvs Hv Hb Eb) as [kvs' [ws [hs [H1 [H2 H3]]]]].
  exists kvs', ws, hs. split; [|split; assumption].
  rewrite <- H1.
  pose proof (exec_block_frame L after_stores "vis_mu" sb) as Hf.
  rewrite E in Hf. apply Hf.
  intro Hin.
  assert (mem "vis_mu" (writes after_stores) = true) as Hm.
  { apply existsb_exists. exists "vis_mu". split; [exact Hin | reflexivity]. }
  vm_compute in Hm. discriminate.
Qed.

(** At the end of a run that ends normally, [mu] holds the sample of line
    252. *)
Lemma mu_at_the_end (L : Library) s :
  samples_in_box L -> run L = Done s ->
  exists v, lookup "mu" (vars s) = Some v /\ in_box v = true.
Proof.
  intros HL E.
  destruct (run_through L 252 _ _ _ s "mu" eq_refl E eq_refl)
    as [s1 [s2 [_ [E2 ->]]]].
  apply (sample_bound L _ _ _ _ _ HL E2).
Qed.

(** C1, counterexample.  In the run stored in the file [vis_mu] is sampled
    within the box (line 330), then overwritten in place (lines 331-340),
    and what it holds from then on is outside the box: its first wall
    coefficient is 0.35, above the upper bound 0.1. *)
Lemma vis_mu_leaves_the_box :
  samples_in_box Recorded.library
  /\ value_after Recorded.library 330 "vis_mu" = Some Recorded.mu13
  /\ in_box Recorded.mu13 = true
  /\ lookup "vis_mu" (vars (final (run Recorded.library))) = Some vis_mu_final
  /\ in_box vis_mu_final = false
  /\ getitem vis_mu_final (VStr "walls") = Some (VList (map VNum [0.35; 0.2; 0.0001]))
  /\ in_range walls_box 0.35 = false.
Proof.
  split; [apply recorded_samples_in_box|]. vm_compute. repeat split; reflexivity.
Qed.

(** C1, amended.  When [sample_randomly] returns vectors of the box, at the
    end of every run that ends normally [mu] holds a vector of the box: it
    is bound once, by the sampling of line 252, and never stored into; what
    the optimizer returns is bound once, at line 484, and never stored into
    either.  [vis_mu] is bound by the sampling of line 330 and then
    overwritten in place by lines 331-340: it ends with the walls 0.35, 0.2
    and 0.0001, outside [0.025, 0.1], and the heaters 30, ..., 90, inside
    [0, 100].  The box is the one passed to [set_input_dict] at line 174:
    [owc] and [iwc] for the walls, [ht] for the heaters. *)
Theorem parameter_vectors_of_notebook :
  walls_box = (0.025, 0.1)
  /\ heaters_box = (0, 100)
  /\ binders "mu" notebook = [252%nat]
  /\ flat_map (fun x => binders x notebook) results = repeat 484%nat 5
  /\ binders "vis_mu" notebook =
       [330; 331; 332; 333; 334; 335; 336; 337; 338; 339; 340]%nat
  /\ forallb (in_range walls_box) [0.35; 0.2; 0.0001] = false
  /\ forallb (in_range heaters_box) [30; 40; 50; 60; 70; 80; 90] = true
  /\ forall (L : Library) s,
       samples_in_box L -> run L = Done s ->
       (exists v, lookup "mu" (vars s) = Some v /\ in_box v = true)
       /\ (exists kvs ws hs,
             lookup "vis_mu" (vars s) = Some (VDict kvs)
             /\ lookup "walls" kvs =
                Some (VList (VNum 0.35 :: VNum 0.2 :: VNum 0.0001 :: ws))
             /\ lookup "heaters" kvs =
                Some (VList (VNum 30 :: VNum 40 :: VNum 50 :: VNum 60 :: VNum 70
                             :: VNum 80 :: VNum 90 :: hs))
             /\ in_box (VDict kvs) = false).
Proof.
  repeat (split; [reflexivity|]).
  intros L s HL E. split; [apply (mu_at_the_end L s HL E)|].
  destruct (vis_mu_at_the_end L s HL E) as [kvs [ws [hs [H1 [H2 H3]]]]].
  exists kvs, ws, hs. repeat (split; [assumption|]).
  apply (lookup_walls_not_in_box kvs _ H2). reflexivity.
Qed.

Lemma parameter_vectors_of_notebook_witness :
  samples_in_box Recorded.library
  /\ run Recorded.library = Done (final (run Recorded.library))
  /\ exists v, lookup "mu" (vars (final (run Recorded.library))) = Some v
               /\ in_box v = true.
Proof.
  assert (E : run Recorded.library = Done (final (run Recorded.library)))
    by (vm_compute; reflexivity).
  split; [exact recorded_samples_in_box|]. split; [exact E|].
  exact (proj1 (proj2 (proj2 (proj2 (proj2 (proj2 (proj2 (proj2
                  parameter_vectors_of_notebook))))))
                  Recorded.library _ recorded_samples_in_box E)).
Defined.

(** ** Groups and signs of the coefficients (C3) *)

Lemma in_box_entry kvs g v :
  in_box (VDict kvs) = true -> lookup g kvs = Some v -> entry_in_box (g, v) = true.
Proof.
  intros Hb Hl. simpl in Hb. induction kvs as [|[k w] r IH]; [discriminate|].
  simpl in Hb. apply andb_prop in Hb. destruct Hb as [Hkw Hb].
  simpl in Hl. destruct (String.eqb_spec k g) as [->|Hk]; [|apply IH; assumption].
  injection Hl as ->. exact Hkw.
Qed.

Lemma in_range_bounds b q : in_range b q = true -> fst b <= q /\ q <= snd b.
Proof.
  unfold in_range. intros H. apply andb_prop in H. destruct H as [H1 H2].
  split; apply Qle_bool_iff; assumption.
Qed.

(** The coefficients of a vector of the box: walls are positive, heaters
    are not negative. *)
Lemma signs_in_box v g vs q :
  in_box v = true -> getitem v (VStr g) = Some (VList vs) -> In (VNum q) vs ->
  (g = "walls" -> 0.025 <= q <= 0.1 /\ 0 < q)
  /\ (g = "heaters" -> 0 <= q <= 100).
Proof.
  intros Hb Hg Hq.
  destruct (in_box_is_dict v Hb) as [kvs ->]. simpl in Hg.
  pose proof (in_box_entry kvs g _ Hb Hg) as He.
  unfold entry_in_box in He. simpl in He.
  split; intros ->; simpl in He.
  - assert (H : in_range walls_box q = true).
    { apply (proj1 (forallb_forall _ _) He (VNum q) Hq). }
    apply in_range_bounds in H. split; [exact H|].
    apply Qlt_le_trans with (y := 0.025); [reflexivity | apply H].
  - assert (H : in_range heaters_box q = true).
    { apply (proj1 (forallb_forall _ _) He (VNum q) Hq). }
    apply in_range_bounds in H. exact H.
Qed.




(** ** Seeded sampling (C9) *)

Lemma mem_In x xs : mem x xs = true -> In x xs.
Proof.
  unfold mem. intros H. apply existsb_exists in H. destruct H as [y [Hy E]].
  apply String.eqb_eq in E. subst. exact Hy.
Qed.

Lemma calls_kw kes :
  (fix manykw (kes : list (string * expr)) :=
     match kes with
     | [] => []
     | (_, e') :: r => (calls e' ++ manykw r)%list
     end) kes = flat_map (fun ke => calls (snd ke)) kes.
Proof.
  induction kes as [|[k e] r IH]; simpl; [reflexivity|]. rewrite IH. reflexivity.
Qed.

Lemma calls_Call f args kes :
  calls (Call f args kes) =
  ((f, args, kes) :: calls f ++ flat_map calls args
     ++ flat_map (fun ke => calls (snd ke)) kes)%list.
Proof. simpl. rewrite calls_kw. reflexivity. Qed.

Lemma calls_DictE kes :
  calls (DictE kes) = flat_map (fun ke => calls (snd ke)) kes.
Proof. simpl. apply calls_kw. Qed.

Lemma seeded_keys {A B} (k1 : list (string * A)) (k2 : list (string * B)) :
  map fst k1 = map fst k2 -> seeded k1 = seeded k2.
Proof.
  unfold seeded. revert k2.
  induction k1 as [|[a v] r IH]; intros [|[b w] r2] E; try discriminate.
  - reflexivity.
  - simpl in E. injection E as -> E. simpl.
    destruct (String.eqb b "seed"); [reflexivity | apply IH; exact E].
Qed.

Lemma bind_same {A B} (m1 m2 : M A) (f1 f2 : A -> M B) l :
  m1 l = m2 l -> (forall a l', f1 a l' = f2 a l') -> bind m1 f1 l = bind m2 f2 l.
Proof.
  intros Hm Hf. unfold bind. rewrite Hm.
  destruct (m2 l) as [l' [a|]]; [apply Hf | reflexivity].
Qed.

Lemma bind_same_on {A B} (m1 m2 : M A) (f1 f2 : A -> M B) l :
  m1 l = m2 l ->
  (forall a l', m2 l = (l', Some a) -> f1 a l' = f2 a l') ->
  bind m1 f1 l = bind m2 f2 l.
Proof.
  intros Hm Hf. unfold bind. rewrite Hm.
  destruct (m2 l) as [l' [a|]]; [apply Hf; reflexivity | reflexivity].
Qed.

Lemma bind_ret {A B} (a : A) (f : A -> M B) l : bind (ret a) f l = f a l.
Proof. reflexivity. Qed.

Section Same.

Variables (L1 L2 : Library) (fs : list string).
Hypothesis same : same_but_unseeded L1 L2.

Lemma apply_same f vs ks l :
  f <> VLib solver_name -> apply L1 f vs ks l = apply L2 f vs ks l.
Proof.
  intros Hf. unfold apply.
  assert (H : (_ <- emit (ECall f vs ks) ;; lift (lib_call L1 f vs ks)) l =
              (_ <- emit (ECall f vs ks) ;; lift (lib_call L2 f vs ks)) l).
  { apply bind_same; [reflexivity|]. intros _ l'. unfold lift.
    rewrite (same_call L1 L2 same f vs ks Hf). reflexivity. }
  repeat match goal with
         | |- match ?x with _ => _ end _ = _ => destruct x; try exact H
         end; reflexivity.
Qed.

Lemma evals_same rho es :
  Forall (agrees L1 L2 fs rho) es ->
  forallb (call_ok fs) (flat_map calls es) = true ->
  forall l,
    (fix evals (es : list expr) : M (list value) :=
       match es with
       | [] => ret []
       | e' :: r => v <- eval L1 rho e' ;; vs <- evals r ;; ret (v :: vs)
       end) es l =
    (fix evals (es : list expr) : M (list value) :=
       match es with
       | [] => ret []
       | e' :: r => v <- eval L2 rho e' ;; vs <- evals r ;; ret (v :: vs)
       end) es l.
Proof.
  induction 1 as [|e es He _ IH]; intros Hok l; [reflexivity|].
  simpl in Hok. rewrite forallb_app in Hok. apply andb_prop in Hok.
  destruct Hok as [Hok1 Hok2].
  apply bind_same; [apply (He Hok1)|]. intros v l'.
  apply bind_same; [apply (IH Hok2) | reflexivity].
Qed.

Lemma evalkw_same rho kes :
  Forall (fun ke => agrees L1 L2 fs rho (snd ke)) kes ->
  forallb (call_ok fs) (flat_map (fun ke => calls (snd ke)) kes) = true ->
  forall l,
    (fix evalkw (kes : list (string * expr)) : M kwargs :=
       match kes with
       | [] => ret []
       | (k, e') :: r => v <- eval L1 rho e' ;; vs <- evalkw r ;; ret ((k, v) :: vs)
       end) kes l =
    (fix evalkw (kes : list (string * expr)) : M kwargs :=
       match kes with
       | [] => ret []
       | (k, e') :: r => v <- eval L2 rho e' ;; vs <- evalkw r ;; ret ((k, v) :: vs)
       end) kes l.
Proof.
  induction 1 as [|[k e] kes He _ IH]; intros Hok l; [reflexivity|].
  simpl in Hok. rewrite forallb_app in Hok. apply andb_prop in Hok.
  destruct Hok as [Hok1 Hok2].
  apply bind_same; [apply (He Hok1)|]. intros v l'.
  apply bind_same; [apply (IH Hok2) | reflexivity].
Qed.

(** The keyword arguments keep the names of the call. *)
Lemma evalkw_keys L rho kes : forall l l' ks,
  (fix evalkw (kes : list (string * expr)) : M kwargs :=
     match kes with
     | [] => ret []
     | (k, e') :: r => v <- eval L rho e' ;; vs <- evalkw r ;; ret ((k, v) :: vs)
     end) kes l = (l', Some ks) ->
  map fst ks = map fst kes.
Proof.
  induction kes as [|[k e] kes IH]; intros l l' ks E.
  - injection E as _ <-. reflexivity.
  - unfold bind at 1 in E. destruct (eval L rho e l) as [l1 [v|]]; [|discriminate].
    unfold bind at 1 in E.
    match type of E with
    | context [?F kes l1] => destruct (F kes l1) as [l2 [vs|]] eqn:E2
    end; [|discriminate].
    injection E as _ <-. simpl. f_equal. apply (IH _ _ _ E2).
Qed.

Lemma arith_same op x y : arith L1 op x y = arith L2 op x y.
Proof.
  unfold arith. destruct x; try apply (same_binop L1 L2 same).
  destruct y; try apply (same_binop L1 L2 same). reflexivity.
Qed.

Lemma expr_ok_app e1 e2 :
  forallb (call_ok fs) (calls e1 ++ calls e2) = true ->
  expr_ok fs e1 = true /\ expr_ok fs e2 = true.
Proof. intros H. rewrite forallb_app in H. apply andb_prop in H. exact H. Qed.

Lemma eval_same rho e : none_is_optimizer fs rho -> agrees L1 L2 fs rho e.
Proof.
  intros Hinv.
  induction e as [x|q|s| |b|es Hes|es Hes|kes Hkes|e a IHe|e i IHe IHi
                  |f args kes IHf Ho Hes Hkes|op a b IHa IHb|e IHe|a b IHa IHb]
    using expr_induction; intros Hok l; try reflexivity.
  - simpl. apply bind_same; [|reflexivity]. apply evals_same; assumption.
  - simpl. apply bind_same; [|reflexivity]. apply evals_same; assumption.
  - simpl. apply bind_same; [|reflexivity]. apply evalkw_same; [assumption|].
    unfold expr_ok in Hok. rewrite calls_DictE in Hok. exact Hok.
  - simpl. apply bind_same; [apply IHe; exact Hok|]. intros o l'.
    unfold lift. rewrite (same_getattr L1 L2 same). reflexivity.
  - apply (expr_ok_app e i) in Hok. destruct Hok as [Hok1 Hok2].
    simpl. apply bind_same; [apply IHe; exact Hok1|]. intros o l'.
    apply bind_same; [apply IHi; exact Hok2|]. intros k l''.
    unfold lift. rewrite (same_getitem L1 L2 same). reflexivity.
  - unfold expr_ok in Hok. rewrite calls_Call in Hok. simpl in Hok.
    apply andb_prop in Hok. destruct Hok as [Hcall Hok].
    rewrite !forallb_app in Hok.
    apply andb_prop in Hok. destruct Hok as [Hokf Hok].
    apply andb_prop in Hok. destruct Hok as [Hokargs Hokkw].
    pose proof (evals_same rho args Hes Hokargs) as Hargs.
    pose proof (evalkw_same rho kes Hkes Hokkw) as Hkw.
    destruct f; try discriminate Hcall.
    + simpl. rewrite !bind_ret.
      apply bind_same; [apply Hargs|]. intros vs l2.
      apply bind_same; [apply Hkw|]. intros ks l3.
      apply apply_same. apply Hinv. apply mem_In. exact Hcall.
    + simpl. apply bind_same; [apply Ho; exact Hokf|]. intros vo l1.
      apply bind_same; [apply Hargs|]. intros vs l2.
      apply bind_same_on; [apply Hkw|]. intros ks l3 Eks.
      apply bind_same; [reflexivity|]. intros _ l4. unfold lift.
      rewrite (same_method L1 L2 same vo a vs ks); [reflexivity|].
      intros ->. simpl in Hcall.
      rewrite (seeded_keys ks kes (evalkw_keys L2 rho kes _ _ _ Eks)).
      exact Hcall.
  - apply (expr_ok_app a b) in Hok. destruct Hok as [Hok1 Hok2].
    simpl. apply bind_same; [apply IHa; exact Hok1|]. intros x l'.
    apply bind_same; [apply IHb; exact Hok2|]. intros y l''.
    unfold lift. rewrite arith_same. reflexivity.
  - simpl. apply bind_same; [apply IHe; exact Hok|]. reflexivity.
  - apply (expr_ok_app a b) in Hok. destruct Hok as [Hok1 Hok2].
    simpl. apply bind_same; [apply IHa; exact Hok1|]. intros x l'.
    apply bind_same; [apply IHb; exact Hok2|]. reflexivity.
Qed.

Lemma step_same_on {A} (m1 m2 : M A) s (k1 k2 : A -> state -> outcome) :
  (forall l, m1 l = m2 l) ->
  (forall a s', vars s' = vars s -> k1 a s' = k2 a s') ->
  step m1 s k1 = step m2 s k2.
Proof.
  intros Hm Hk. unfold step. rewrite Hm.
  destruct (m2 (log s)) as [l [a|]]; [apply Hk; reflexivity | reflexivity].
Qed.

Lemma assign_same t v s :
  none_is_optimizer fs (vars s) -> expr_ok fs t = true ->
  assign L1 t v s = assign L2 t v s.
Proof.
  intros Hinv Hok. destruct t; try reflexivity.
  apply (expr_ok_app t1 t2) in Hok. destruct Hok as [Hok1 Hok2].
  unfold assign. apply step_same_on.
  - intros l. apply bind_same; [apply (eval_same _ _ Hinv Hok1)|]. intros o l'.
    apply bind_same; [apply (eval_same _ _ Hinv Hok2) | reflexivity].
  - intros [o k] s' _. simpl fst; simpl snd.
    destruct (is_lib o); [|reflexivity].
    apply step_same_on; [reflexivity|]. intros _ s'' _.
    rewrite (same_setitem L1 L2 same). reflexivity.
Qed.

Lemma exec_same c s :
  none_is_optimizer fs (vars s) -> stmt_ok fs c = true ->
  exec L1 c s = exec L2 c s.
Proof.
  intros Hinv Hok. destruct c; try discriminate Hok; try reflexivity.
  - simpl in Hok. apply andb_prop in Hok. destruct Hok as [Hok _].
    apply andb_prop in Hok. destruct Hok as [Hoke Hokt].
    simpl. apply step_same_on; [apply (eval_same _ _ Hinv Hoke)|].
    intros v s' Hs'. apply assign_same; [|exact Hokt].
    rewrite Hs'. exact Hinv.
  - simpl in Hok. simpl. apply step_same_on; [apply (eval_same _ _ Hinv Hok)|].
    reflexivity.
Qed.

End Same.

Lemma read_update x y v rho :
  read (update y v rho) x = if String.eqb y x then v else read rho x.
Proof.
  unfold read. destruct (String.eqb_spec y x) as [->|Hxy].
  - rewrite lookup_update_same. reflexivity.
  - rewrite lookup_update_other by (intro; subst; contradiction). reflexivity.
Qed.

Lemma import_keeps fs m names : forall rho,
  none_is_optimizer fs rho ->
  forallb (fun na => negb (String.eqb (m ++ "." ++ fst na) solver_name)) names = true ->
  none_is_optimizer fs (import_names m names rho).
Proof.
  unfold import_names.
  induction names as [|[n a] names IH]; intros rho Hinv Hok; simpl; [exact Hinv|].
  simpl in Hok. apply andb_prop in Hok. destruct Hok as [Hn Hok].
  apply IH; [|exact Hok].
  destruct (String.eqb n "*"); [exact Hinv|].
  intros x Hx. rewrite read_update.
  destruct (String.eqb a x); [|apply Hinv; exact Hx].
  intros [= E]. rewrite E, String.eqb_refl in Hn. discriminate.
Qed.

Lemma exec_keeps (L : Library) fs c s :
  none_is_optimizer fs (vars s) -> stmt_ok fs c = true ->
  none_is_optimizer fs (vars (final (exec L c s))).
Proof.
  intros Hinv Hok.
  assert (Hframe : forallb (fun x => negb (mem x fs)) (stmt_writes c) = true ->
                   control c = false ->
                   none_is_optimizer fs (vars (final (exec L c s)))).
  { intros Hw Hc x Hx. unfold read.
    rewrite (exec_frame L c x s); [apply Hinv; exact Hx|].
    assert (flatten1 c = [c]) as -> by (destruct c; try discriminate; reflexivity).
    simpl. rewrite app_nil_r. intro Hin.
    pose proof (proj1 (forallb_forall _ _) Hw x Hin) as H.
    apply negb_true_iff in H.
    assert (mem x fs = true) as Hm.
    { apply existsb_exists. exists x. split; [exact Hx | apply String.eqb_refl]. }
    rewrite Hm in H. discriminate. }
  destruct c; try discriminate Hok.
  - simpl. intros x Hx. rewrite read_update.
    destruct (String.eqb asname x); [|apply Hinv; exact Hx].
    intros [= E]. simpl in Hok. rewrite E, String.eqb_refl in Hok. discriminate.
  - simpl. apply import_keeps; assumption.
  - apply Hframe; [|reflexivity].
    simpl in Hok. apply andb_prop in Hok. apply Hok.
  - apply Hframe; reflexivity.
Qed.

Lemma block_same (L1 L2 : Library) fs cs :
  same_but_unseeded L1 L2 -> forall s,
  none_is_optimizer fs (vars s) -> forallb (stmt_ok fs) cs = true ->
  exec_block L1 cs s = exec_block L2 cs s.
Proof.
  intros same. induction cs as [|c cs IH]; intros s Hinv Hok; [reflexivity|].
  simpl in Hok. apply andb_prop in Hok. destruct Hok as [Hc Hok].
  simpl. rewrite (exec_same L1 L2 fs same c s Hinv Hc).
  pose proof (exec_keeps L2 fs c s Hinv Hc) as Hinv'.
  destruct (exec L2 c s) as [s'|s']; [|reflexivity].
  apply IH; assumption.
Qed.

Lemma recorded_same_but_unseeded : same_but_unseeded Recorded.library Other.library.
Proof.
  constructor; try reflexivity.
  - intros f a k Hf. simpl. unfold Other.call.
    destruct f; try reflexivity.
    destruct (String.eqb_spec n solver_name) as [->|]; [contradiction | reflexivity].
  - intros o m a k Hm. simpl. unfold Other.method.
    destruct (String.eqb_spec m "sample_randomly") as [E|]; [|reflexivity].
    rewrite (Hm E). reflexivity.
Qed.

Lemma notebook_around_optimizer :
  notebook = (before_optimizer ++ from_optimizer)%list.
Proof. reflexivity. Qed.

(** What the script binds before the optimizer and does not write from
    then on is what the run ends with, however it ends. *)
Lemma bound_before_optimizer (L : Library) x :
  mem x (writes from_optimizer) = false ->
  lookup x (vars (final (run L))) =
  lookup x (vars (final (exec_block L before_optimizer start))).
Proof.
  intros Hx. unfold run. rewrite notebook_around_optimizer, exec_block_app.
  destruct (exec_block L before_optimizer start) as [s|s]; [|reflexivity].
  apply exec_block_frame. intro Hin.
  assert (mem x (writes from_optimizer) = true) as Hm.
  { apply existsb_exists. exists x. split; [exact Hin | apply String.eqb_refl]. }
  rewrite Hm in Hx. discriminate.
Qed.

Lemma before_optimizer_same (L1 L2 : Library) :
  same_but_unseeded L1 L2 ->
  exec_block L1 before_optimizer start = exec_block L2 before_optimizer start.
Proof.
  intros same.
  apply (block_same L1 L2 (plain_callees before_optimizer) before_optimizer same).
  - intros x Hx. unfold read. simpl. intros [= E]. subst x.
    assert (mem solver_name (plain_callees before_optimizer) = true) as Hm.
    { apply existsb_exists. exists solver_name. split; [exact Hx | reflexivity]. }
    vm_compute in Hm. discriminate.
  - vm_compute. reflexivity.
Qed.



(** ** The stored iterates (C2) *)

(** The optimizer is not part of the file; of its behaviour the file holds
    the output of one run.  In that output every iterate lies in the box
    and the functional decreases from its starting value. *)
Lemma stored_iterates :
  forallb iterate_in_box Recorded.steps = true
  /\ non_increasing (Recorded.J_start :: Recorded.Js) = true.
Proof. vm_compute. split; reflexivity. Qed.

(** ** Runs that raise *)

(** Whatever the outcome of a block, the top-level statements it started
    are the first [k] of the block, in order: all of them when it ends
    normally, at least one when it raises. *)
Lemma block_prefix (L : Library) ns cs : forall s,
  forallb (outside ns) (map line cs) = true ->
  incl (flat_map inner_lines cs) ns ->
  exists k,
    (k <= List.length cs)%nat
    /\ filter (outside ns) (lines (log (final (exec_block L cs s)))) =
       (rev (firstn k (map line cs)) ++ filter (outside ns) (lines (log s)))%list
    /\ (forall s', exec_block L cs s = Done s' -> k = List.length cs)
    /\ (forall s', exec_block L cs s = Raised s' -> (1 <= k)%nat).
Proof.
  induction cs as [|c cs IH]; intros s Hout Hin.
  - exists 0%nat. split; [apply Nat.le_refl|]. split; [reflexivity|].
    split; [reflexivity | discriminate].
  - simpl in Hout. apply andb_prop in Hout. destruct Hout as [Hc Hout].
    simpl in Hin. apply incl_app_inv in Hin. destruct Hin as [Hin1 Hin2].
    destruct (exec_lines L c s) as [t [Ht Ht']].
    assert (Hc1 : filter (outside ns) (lines (log (final (exec L c s)))) =
                  (line c :: filter (outside ns) (lines (log s)))%list).
    { rewrite Ht, filter_app.
      rewrite (filter_outside_nil ns t) by (intros x Hx; apply Hin1, Ht', Hx).
      simpl. rewrite Hc. reflexivity. }
    simpl exec_block. destruct (exec L c s) as [s1|s1]; simpl in Hc1.
    + destruct (IH s1 Hout Hin2) as [k [Hk [Hf [Hd Hr]]]].
      exists (S k). split; [simpl; lia|]. split.
      * rewrite Hf, Hc1. simpl. rewrite <- app_assoc. reflexivity.
      * split; intros s' E; [simpl; f_equal; apply (Hd s' E) | lia].
    + exists 1%nat. split; [simpl; lia|]. split; [simpl; exact Hc1|].
      split; [discriminate | intros; lia].
Qed.

(** X1.  However a run of the notebook ends, the top-level statements it
    started are an initial segment of the file, in the order of the file:
    all of them when the run ends normally, and at least the first one but
    nothing after the failing one when it raises. *)
Theorem run_is_a_prefix (L : Library) :
  exists k,
    (k <= List.length notebook)%nat
    /\ top_level_trace (run L) = firstn k (top_lines notebook)
    /\ (forall s, run L = Done s -> k = List.length notebook)
    /\ (forall s, run L = Raised s -> (1 <= k)%nat).
Proof.
  destruct (block_prefix L (nested_lines notebook) notebook start)
    as [k [Hk [Hf [Hd Hr]]]].
  - vm_compute. reflexivity.
  - apply incl_refl.
  - exists k. split; [exact Hk|]. split; [|split; assumption].
    unfold top_level_trace, trace. rewrite lines_rev, filter_rev.
    unfold run. rewrite Hf.
    change (filter (outside (nested_lines notebook)) (lines (log start))) with (@nil nat).
    rewrite app_nil_r. apply rev_involutive.
Qed.

(** ** Cutting a run in two places *)

Lemma run_cut (L : Library) ln p c q s :
  split_at ln notebook = Some (p, c, q) ->
  run L = Done s ->
  exists s1 s2,
    exec_block L p start = Done s1 /\ exec L c s1 = Done s2
    /\ exec_block L q s2 = Done s.
Proof.
  intros Hsplit E. apply split_at_spec in Hsplit.
  unfold run in E. rewrite Hsplit, exec_block_app in E.
  destruct (exec_block L p start) as [s1|]; [|discriminate].
  apply exec_block_cons in E. destruct E as [s2 [E2 E]].
  exists s1, s2. repeat split; assumption.
Qed.

(** What a statement of a prefix binds, and the rest of the prefix does not
    write, is bound when the prefix ends. *)
Lemma known_after (L : Library) ln p p' c' q' s1 x :
  split_at ln p = Some (p', c', q') ->
  exec_block L p start = Done s1 ->
  mem x (writes q') = false ->
  exists sa sb, exec L c' sa = Done sb /\ lookup x (vars s1) = lookup x (vars sb).
Proof.
  intros Hsplit E Hx. apply split_at_spec in Hsplit. rewrite Hsplit in E.
  destruct (at_the_end L p' c' q' s1 x E) as [sa [sb [_ [Ec Hl]]]].
  - intro Hin.
    assert (mem x (writes q') = true) as Hm.
    { apply existsb_exists. exists x. split; [exact Hin | apply String.eqb_refl]. }
    rewrite Hm in Hx. discriminate.
  - exists sa, sb. split; assumption.
Qed.

(** A name that a block does not write is as bound after it as before. *)
Lemma unwritten (L : Library) cs s s' x :
  exec_block L cs s = Done s' -> mem x (writes cs) = false ->
  lookup x (vars s') = lookup x (vars s).
Proof.
  intros E Hx. pose proof (exec_block_frame L cs x s) as H. rewrite E in H.
  apply H. intro Hin.
  assert (mem x (writes cs) = true) as Hm.
  { apply existsb_exists. exists x. split; [exact Hin | apply String.eqb_refl]. }
  rewrite Hm in Hx. discriminate.
Qed.

(** The lines of a block that a line is not among are not started by it. *)
Lemma not_started (L : Library) cs s n :
  existsb (Nat.eqb n) (map line (flatten cs)) = false ->
  occurrences n (log (final (exec_block L cs s))) = occurrences n (log s).
Proof.
  intros Hn.
  destruct (block_lines L cs) with (s := s) as [t [Ht Hin]].
  { apply Forall_forall. intros c _. apply exec_lines. }
  unfold occurrences. rewrite Ht, count_occ_app.
  rewrite (count_occ_outside t (map line (flatten cs)) n Hin); [reflexivity|].
  intro H.
  assert (existsb (Nat.eqb n) (map line (flatten cs)) = true) as Hex.
  { apply existsb_exists. exists n. split; [exact H | apply Nat.eqb_refl]. }
  rewrite Hex in Hn. discriminate.
Qed.

(** The count of a line nested in the top-level statement of line [ln] is
    what that statement adds to it. *)
Lemma counted_within (L : Library) ln p c q s n :
  split_at ln notebook = Some (p, c, q) ->
  run L = Done s ->
  existsb (Nat.eqb n) (map line (flatten p)) = false ->
  existsb (Nat.eqb n) (map line (flatten q)) = false ->
  exists s1 s2,
    exec_block L p start = Done s1 /\ exec L c s1 = Done s2
    /\ occurrences n (log s1) = 0%nat
    /\ executions n (run L) = occurrences n (log s2).
Proof.
  intros Hsplit E Hp Hq.
  destruct (run_cut L ln p c q s Hsplit E) as [s1 [s2 [E1 [E2 E3]]]].
  exists s1, s2. split; [exact E1|]. split; [exact E2|]. split.
  - pose proof (not_started L p start n Hp) as H. rewrite E1 in H. exact H.
  - unfold executions. rewrite E. simpl final.
    pose proof (not_started L q s2 n Hq) as H. rewrite E3 in H. exact H.
Qed.

Lemma assigned (L : Library) ln x e sa sb :
  exec L (Assign ln (Name x) e) sa = Done sb ->
  exists v l, eval L (vars sa) e (ELine ln :: log sa) = (l, Some v)
              /\ lookup x (vars sb) = Some v.
Proof.
  simpl. unfold step. simpl.
  destruct (eval L (vars sa) e (ELine ln :: log sa)) as [l [v|]]; [|discriminate].
  intros [= <-]. exists v, l. split; [reflexivity|]. simpl. apply lookup_update_same.
Qed.

(** ** The two [if] statements of cell 11 *)

Lemma exec_If_true (L : Library) ln c th el s v :
  (forall l, eval L (vars s) c l = (l, Some v)) -> truthy v = true ->
  exec L (If ln c th el) s = exec_block L th (mark ln s).
Proof.
  intros Hc Hv. rewrite exec_If. unfold step. rewrite Hc, Hv. reflexivity.
Qed.

Lemma exec_If_false (L : Library) ln c th el s v :
  (forall l, eval L (vars s) c l = (l, Some v)) -> truthy v = false ->
  exec L (If ln c th el) s = exec_block L el (mark ln s).
Proof.
  intros Hc Hv. rewrite exec_If. unfold step. rewrite Hc, Hv. reflexivity.
Qed.

(** When line 559 starts, [mu_d] is still the [None] of line 188. *)
Lemma mu_d_at_559 (L : Library) s1 :
  exec_block L (prefix_of 559) start = Done s1 ->
  lookup "mu_d" (vars s1) = Some VNone.
Proof.
  intros E1.
  destruct (known_after L 188 (prefix_of 559) _ _ _ s1 "mu_d" eq_refl E1 eq_refl)
    as [sa [sb [Ea ->]]].
  destruct (assigned L _ _ _ sa sb Ea) as [v [l [Ev Hv]]].
  injection Ev as _ <-. exact Hv.
Qed.

(** X2.  The branch of [if mu_d is None] (line 559) is always taken: in a
    run that ends normally each statement of lines 560-566 runs exactly
    once. *)
Theorem mu_d_branch_always_runs (L : Library) s n :
  run L = Done s ->
  In n (map line then_559) ->
  executions n (run L) = 1%nat.
Proof.
  intros E Hn.
  assert (Hside : existsb (Nat.eqb n) (map line (flatten (prefix_of 559))) = false
                  /\ count_occ Nat.eq_dec (map line then_559) n = 1%nat
                  /\ 559%nat <> n).
  { simpl in Hn.
    repeat (destruct Hn as [<-|Hn];
            [split; [vm_compute; reflexivity|split; [vm_compute; reflexivity|lia]]|]).
    contradiction. }
  destruct Hside as [Hp [Hc Hne]].
  destruct (counted_within L 559 (prefix_of 559) (stmt_at 559) [] s n
              eq_refl E Hp eq_refl) as [s1 [s2 [E1 [E2 [H0 ->]]]]].
  pose proof (mu_d_at_559 L s1 E1) as Hmu.
  change (stmt_at 559) with (If 559 (Is (Name "mu_d") NoneLit) then_559 []) in E2.
  rewrite (exec_If_true L _ _ _ _ s1 (VBool true)) in E2; [|  |reflexivity].
  - rewrite (block_occurrences L then_559 (mark 559 s1) s2 n E2).
    + rewrite Hc. unfold occurrences in *. simpl lines.
      rewrite (count_occ_cons_neq Nat.eq_dec _ Hne), H0. reflexivity.
    + vm_compute. tauto.
  - intros l. simpl. unfold bind, ret, read. rewrite Hmu. reflexivity.
Qed.

Lemma mu_d_branch_always_runs_witness :
  run Recorded.library = Done (final (run Recorded.library))
  /\ In 565%nat (map line then_559)
  /\ executions 565 (run Recorded.library) = 1%nat.
Proof.
  assert (I : In 565%nat (map line then_559)) by (vm_compute; tauto).
  assert (E : run Recorded.library = Done (final (run Recorded.library)))
    by (vm_compute; reflexivity).
  split; [exact E|]. split; [exact I|].
  exact (mu_d_branch_always_runs Recorded.library _ 565%nat E I).
Defined.

Lemma from_import_bound (L : Library) ln m names sa sb :
  exec L (FromImport ln m names) sa = Done sb ->
  vars sb = import_names m names (vars sa).
Proof. intros [= <-]. reflexivity. Qed.

(** When line 555 starts, the two names of line 552 are bound to the
    classes they import. *)
Lemma products_at_555 (L : Library) s1 :
  exec_block L (prefix_of 555) start = Done s1 ->
  lookup "L2ProductQ1" (vars s1) = Some (VLib "pymor.discretizers.builtin.cg.L2ProductQ1")
  /\ lookup "L2ProductP1" (vars s1) = Some (VLib "pymor.discretizers.builtin.cg.L2ProductP1").
Proof.
  intros E1. split.
  - destruct (known_after L 552 (prefix_of 555) _ _ _ s1 "L2ProductQ1" eq_refl E1 eq_refl)
      as [sa [sb [Ea ->]]].
    rewrite (from_import_bound L _ _ _ sa sb Ea). simpl.
    rewrite lookup_update_other by discriminate. apply lookup_update_same.
  - destruct (known_after L 552 (prefix_of 555) _ _ _ s1 "L2ProductP1" eq_refl E1 eq_refl)
      as [sa [sb [Ea ->]]].
    rewrite (from_import_bound L _ _ _ sa sb Ea). simpl.
    do 2 (rewrite lookup_update_other by discriminate). apply lookup_update_same.
Qed.

(** A branch that is one assignment of a name to a name. *)
Lemma one_alias (L : Library) ln x y s s2 v :
  lookup y (vars s) = Some v ->
  exec_block L [Assign ln (Name x) (Name y)] s = Done s2 ->
  lookup x (vars s2) = Some v /\ lines (log s2) = (ln :: lines (log s))%list.
Proof.
  intros Hy E. simpl in E. unfold step, ret, read in E. simpl in E.
  rewrite Hy in E. injection E as <-. split; [apply lookup_update_same | reflexivity].
Qed.

(** X3.  Of the two branches of line 555 exactly one runs, and [L2_OP] ends
    as the class that the branch names: [L2ProductQ1] with line 556,
    [L2ProductP1] with line 558. *)
Theorem one_product_is_chosen (L : Library) s :
  run L = Done s ->
  (executions 556 (run L) = 1%nat /\ executions 558 (run L) = 0%nat
   /\ lookup "L2_OP" (vars s) = Some (VLib "pymor.discretizers.builtin.cg.L2ProductQ1"))
  \/ (executions 556 (run L) = 0%nat /\ executions 558 (run L) = 1%nat
      /\ lookup "L2_OP" (vars s) = Some (VLib "pymor.discretizers.builtin.cg.L2ProductP1")).
Proof.
  intros E.
  destruct (run_cut L 555 (prefix_of 555) (stmt_at 555) (suffix_of 555) s eq_refl E)
    as [s1 [s2 [E1 [E2 E3]]]].
  destruct (products_at_555 L s1 E1) as [HQ HP].
  assert (H0 : forall n, existsb (Nat.eqb n) (map line (flatten (prefix_of 555))) = false ->
                         count_occ Nat.eq_dec (lines (log s1)) n = 0%nat).
  { intros n Hn. pose proof (not_started L (prefix_of 555) start n Hn) as H.
    rewrite E1 in H. exact H. }
  assert (H1 : forall n, existsb (Nat.eqb n) (map line (flatten (suffix_of 555))) = false ->
                         executions n (run L) = count_occ Nat.eq_dec (lines (log s2)) n).
  { intros n Hn. unfold executions. rewrite E. simpl final.
    pose proof (not_started L (suffix_of 555) s2 n Hn) as H.
    rewrite E3 in H. exact H. }
  rewrite (unwritten L (suffix_of 555) s2 s "L2_OP" E3 eq_refl).
  rewrite !H1 by reflexivity.
  change (stmt_at 555) with
    (If 555 (Is (Attr grid "reference_element") (Name "square"))
       [Assign 556 (Name "L2_OP") (Name "L2ProductQ1")]
       [Assign 558 (Name "L2_OP") (Name "L2ProductP1")]) in E2.
  rewrite exec_If in E2. unfold step in E2.
  pose proof (quiet_eval L (vars s1)
                (Is (Attr grid "reference_element") (Name "square"))
                (log (mark 555 s1))) as Hq.
  destruct (eval L (vars s1) (Is (Attr grid "reference_element") (Name "square"))
              (log (mark 555 s1))) as [l [v|]]; [|discriminate].
  simpl in Hq.
  destruct (truthy v); [left | right].
  - destruct (one_alias L 556 "L2_OP" "L2ProductQ1"
                {| vars := vars (mark 555 s1); log := l |} s2 _ HQ E2) as [Hv Hl].
    rewrite Hl. simpl lines. rewrite Hq.
    split; [|split; [|exact Hv]]; simpl; rewrite H0 by reflexivity; reflexivity.
  - destruct (one_alias L 558 "L2_OP" "L2ProductP1"
                {| vars := vars (mark 555 s1); log := l |} s2 _ HP E2) as [Hv Hl].
    rewrite Hl. simpl lines. rewrite Hq.
    split; [|split; [|exact Hv]]; simpl; rewrite H0 by reflexivity; reflexivity.
Qed.

Lemma one_product_is_chosen_witness :
  run Recorded.library = Done (final (run Recorded.library))
  /\ ((executions 556 (run Recorded.library) = 1%nat
       /\ executions 558 (run Recorded.library) = 0%nat
       /\ lookup "L2_OP" (vars (final (run Recorded.library))) =
          Some (VLib "pymor.discretizers.builtin.cg.L2ProductQ1"))
      \/ (executions 556 (run Recorded.library) = 0%nat
          /\ executions 558 (run Recorded.library) = 1%nat
          /\ lookup "L2_OP" (vars (final (run Recorded.library))) =
             Some (VLib "pymor.discretizers.builtin.cg.L2ProductP1"))).
Proof.
  assert (E : run Recorded.library = Done (final (run Recorded.library)))
    by (vm_compute; reflexivity).
  split; [exact E|].
  exact (one_product_is_chosen Recorded.library _ E).
Defined.

(** ** The loop of cell 10 *)

Lemma index_of_integer z : index_of (inject_Z z) = Some z.
Proof.
  unfold index_of, inject_Z, Qred.
  pose proof (Z.ggcd_gcd z 1) as Hg.
  pose proof (Z.ggcd_correct_divisors z 1) as Hd.
  destruct (Z.ggcd z 1) as [g [a b]]. simpl in *.
  rewrite Z.gcd_1_r in Hg. subst g. destruct Hd as [Ha Hb].
  assert (Hb1 : b = 1%Z) by lia. rewrite Hb1. simpl. f_equal. lia.
Qed.

(** [ms[-1]] is the last element of a list that has one. *)
Lemma getitem_last ms m :
  last ms VNone = VList m -> getitem (VList ms) (VNum (- (1))) = Some (VList m).
Proof.
  intros Hl.
  assert (Hne : ms <> []) by (intros ->; discriminate Hl).
  unfold getitem.
  replace (index_of (- (1))) with (Some (-1)%Z) by reflexivity.
  unfold position.
  destruct (exists_last Hne) as [r [a ->]].
  rewrite last_last in Hl. subst a.
  rewrite length_app. simpl List.length.
  replace (0 <=? -1)%Z with false by reflexivity.
  replace (-1 <? 0)%Z with true by reflexivity. simpl andb.
  replace (- Z.of_nat (List.length r + 1) <=? -1)%Z with true
    by (symmetry; apply Z.leb_le; lia).
  replace (Z.to_nat (Z.of_nat (List.length r + 1) + -1)) with (List.length r) by lia.
  rewrite nth_error_app2 by apply Nat.le_refl. rewrite Nat.sub_diag. reflexivity.
Qed.

Lemma exec_ExprS (L : Library) ln e s :
  exec L (ExprS ln e) s = step (eval L (vars s) e) (mark ln s) (fun _ => Done).
Proof. reflexivity. Qed.

(** A loop whose body is one expression statement starts it once for every
    value. *)
Lemma loop_lines_once (L : Library) x ln e vs : forall s s2,
  loop L x [ExprS ln e] vs s = Done s2 ->
  lines (log s2) = (repeat ln (List.length vs) ++ lines (log s))%list.
Proof.
  induction vs as [|w r IH]; intros s s2 E.
  - injection E as <-. reflexivity.
  - cbn [loop exec_block] in E. rewrite exec_ExprS in E.
    set (s0 := {| vars := update x w (vars s); log := log s |}) in *.
    pose proof (quiet_eval L (vars s0) e (log (mark ln s0))) as Hq.
    unfold step in E.
    destruct (eval L (vars s0) e (log (mark ln s0))) as [l [v|]]; [|discriminate].
    simpl in Hq. rewrite (IH _ _ E). simpl log. rewrite Hq.
    change (repeat ln (List.length (w :: r))) with (ln :: repeat ln (List.length r)).
    rewrite (repeat_cons (List.length r) ln) at 1.
    rewrite <- app_assoc. reflexivity.
Qed.

(** The values over which line 531 iterates. *)
Lemma iter_531 (L : Library) rho l ms m :
  lookup "mus_1" rho = Some (VList ms) -> last ms VNone = VList m ->
  lookup "range" rho = None -> lookup "len" rho = None ->
  eval L rho (call "range" [call "len" [last_mu] []] []) l =
  (l, Some (VList (range (List.length m)))).
Proof.
  intros Hm Hl Hr Hn. simpl. unfold bind, ret, read, lift.
  rewrite Hr, Hn, Hm. simpl is_lib. cbv iota. rewrite (getitem_last ms m Hl).
  simpl. unfold ret. rewrite index_of_integer, Nat2Z.id. reflexivity.
Qed.

(** X4.  The loop of line 531 prints one line for every coefficient of the
    last iterate: when the optimizer returns its iterates as a list, line
    532 runs as many times as the last of them has entries. *)
Theorem one_print_per_coefficient (L : Library) s ms m :
  run L = Done s ->
  lookup "mus_1" (vars s) = Some (VList ms) ->
  last ms VNone = VList m ->
  executions 532 (run L) = List.length m.
Proof.
  intros E Hms Hl.
  destruct (counted_within L 531 (prefix_of 531) (stmt_at 531) (suffix_of 531) s 532
              eq_refl E eq_refl eq_refl) as [s1 [s2 [E1 [E2 [H0 ->]]]]].
  destruct (run_cut L 531 (prefix_of 531) (stmt_at 531) (suffix_of 531) s eq_refl E)
    as [s1' [s2' [E1' [E2' E3]]]].
  rewrite E1 in E1'. injection E1' as <-. rewrite E2 in E2'. injection E2' as <-.
  assert (Hrest : exec_block L (stmt_at 531 :: suffix_of 531) s1 = Done s).
  { cbn [exec_block]. rewrite E2. exact E3. }
  rewrite (unwritten L _ s1 s "mus_1" Hrest eq_refl) in Hms.
  assert (Hr : lookup "range" (vars s1) = None)
    by apply (unwritten L _ start s1 "range" E1 eq_refl).
  assert (Hn : lookup "len" (vars s1) = None)
    by apply (unwritten L _ start s1 "len" E1 eq_refl).
  change (stmt_at 531) with
    (For 531 "i" (call "range" [call "len" [last_mu] []] [])
       [ExprS 532 (call "print"
          [method (Str "{0:.12e}") "format" [Subscript last_mu (Name "i")] []] [])])
    in E2.
  rewrite exec_For in E2. unfold step in E2.
  rewrite (iter_531 L (vars s1) _ ms m Hms Hl Hr Hn) in E2.
  apply loop_lines_once in E2. unfold occurrences in *. rewrite E2.
  rewrite count_occ_app, count_occ_repeat_eq by reflexivity.
  simpl lines. rewrite count_occ_cons_neq by discriminate. rewrite H0.
  unfold range. rewrite length_map, length_seq. lia.
Qed.

Lemma one_print_per_coefficient_witness :
  run Recorded.library = Done (final (run Recorded.library))
  /\ lookup "mus_1" (vars (final (run Recorded.library))) =
     Some (VList (map Recorded.vec Recorded.steps))
  /\ last (map Recorded.vec Recorded.steps) VNone =
     VList (map VNum (last Recorded.steps []))
  /\ executions 532 (run Recorded.library) =
     List.length (map VNum (last Recorded.steps [])).
Proof.
  assert (H1 : lookup "mus_1" (vars (final (run Recorded.library))) =
               Some (VList (map Recorded.vec Recorded.steps)))
    by (vm_compute; reflexivity).
  assert (H2 : last (map Recorded.vec Recorded.steps) VNone =
               VList (map VNum (last Recorded.steps [])))
    by reflexivity.
  assert (E : run Recorded.library = Done (final (run Recorded.library)))
    by (vm_compute; reflexivity).
  split; [exact E|]. split; [exact H1|]. split; [exact H2|].
  exact (one_print_per_coefficient Recorded.library _ _ _ E H1 H2).
Defined.

(** ** What the optimizer is given *)

(** A variable bound to a number by a top-level statement of a prefix and
    not written by the rest of the prefix. *)
Lemma number_known (L : Library) ln p p' q' s1 x q :
  split_at ln p = Some (p', Assign ln (Name x) (Num q), q') ->
  exec_block L p start = Done s1 ->
  mem x (writes q') = false ->
  lookup x (vars s1) = Some (VNum q).
Proof.
  intros Hs E Hx.
  destruct (known_after L ln p p' _ q' s1 x Hs E Hx) as [sa [sb [Ea ->]]].
  destruct (assigned L _ _ _ sa sb Ea) as [v [l [Ev Hv]]].
  injection Ev as _ <-. exact Hv.
Qed.

(** X5.  The dictionary that the optimizer is given holds, besides the
    radius 1e18 and [full_order_model], the six numbers of cell 4 (lines
    222-227) under the keys of line 476, and under ['starting_parameter']
    the very value of [mu]. *)
Theorem optimizer_parameters (L : Library) s :
  run L = Done s ->
  exists m,
    lookup "mu" (vars s) = Some m
    /\ lookup "TR_parameters" (vars s) =
       Some (VDict [("radius", VNum 1e18); ("sub_tolerance", VNum 1e-12);
                    ("max_iterations", VNum 400); ("starting_parameter", m);
                    ("epsilon_i", VNum 1e-8); ("max_iterations_armijo", VNum 50);
                    ("initial_step_armijo", VNum 0.5); ("armijo_alpha", VNum 1e-4);
                    ("full_order_model", VBool true)]).
Proof.
  intros E.
  destruct (run_cut L 476 (prefix_of 476) (stmt_at 476) (suffix_of 476) s eq_refl E)
    as [s1 [s2 [E1 [E2 E3]]]].
  assert (Hrest : exec_block L (stmt_at 476 :: suffix_of 476) s1 = Done s).
  { cbn [exec_block]. rewrite E2. exact E3. }
  destruct (known_after L 252 (prefix_of 476) _ _ _ s1 "mu" eq_refl E1 eq_refl)
    as [sa [sb [Ea Hmu]]].
  destruct (assigned L _ _ _ sa sb Ea) as [m [l [_ Hm]]].
  rewrite Hm in Hmu. exists m. split.
  - rewrite (unwritten L _ s1 s "mu" Hrest eq_refl). exact Hmu.
  - rewrite (unwritten L _ s2 s "TR_parameters" E3 eq_refl).
    pose proof (number_known L 222 (prefix_of 476) _ _ s1 _ _ eq_refl E1 eq_refl) as H1.
    pose proof (number_known L 223 (prefix_of 476) _ _ s1 _ _ eq_refl E1 eq_refl) as H2.
    pose proof (number_known L 224 (prefix_of 476) _ _ s1 _ _ eq_refl E1 eq_refl) as H3.
    pose proof (number_known L 225 (prefix_of 476) _ _ s1 _ _ eq_refl E1 eq_refl) as H4.
    pose proof (number_known L 226 (prefix_of 476) _ _ s1 _ _ eq_refl E1 eq_refl) as H5.
    pose proof (number_known L 227 (prefix_of 476) _ _ s1 _ _ eq_refl E1 eq_refl) as H6.
    destruct (assigned L _ _ _ s1 s2 E2) as [v [l' [Ev Hv]]].
    rewrite Hv. f_equal.
    simpl in Ev. unfold bind, ret, read in Ev.
    rewrite H1, H2, H3, H4, H5, H6, Hmu in Ev. simpl in Ev.
    injection Ev as _ <-. reflexivity.
Qed.

Lemma optimizer_parameters_witness :
  run Recorded.library = Done (final (run Recorded.library))
  /\ exists m,
       lookup "mu" (vars (final (run Recorded.library))) = Some m
       /\ lookup "TR_parameters" (vars (final (run Recorded.library))) =
          Some (VDict [("radius", VNum 1e18); ("sub_tolerance", VNum 1e-12);
                       ("max_iterations", VNum 400); ("starting_parameter", m);
                       ("epsilon_i", VNum 1e-8); ("max_iterations_armijo", VNum 50);
                       ("initial_step_armijo", VNum 0.5); ("armijo_alpha", VNum 1e-4);
                       ("full_order_model", VBool true)]).
Proof.
  assert (E : run Recorded.library = Done (final (run Recorded.library)))
    by (vm_compute; reflexivity).
  split; [exact E|].
  exact (optimizer_parameters Recorded.library _ E).
Defined.

Lemma read_unwritten (L : Library) cs s s' x :
  exec_block L cs s = Done s' -> mem x (writes cs) = false ->
  read (vars s') x = read (vars s) x.
Proof.
  intros E Hx. unfold read. rewrite (unwritten L cs s s' x E Hx). reflexivity.
Qed.

(** X6.  What line 484 binds is what one call of the optimizer returns: a
    tuple of eight values, for the arguments [opt_fom], its
    [parameter_space], [mu] and [TR_parameters], with [timing=True]. *)
Theorem optimizer_call (L : Library) s :
  run L = Done s ->
  exists ps v1 v2 v3 v4 v5 v6 v7 v8,
    lib_getattr L (read (vars s) "opt_fom") "parameter_space" = Some ps
    /\ lib_call L (VLib solver_name)
         [read (vars s) "opt_fom"; ps; read (vars s) "mu";
          read (vars s) "TR_parameters"]
         [("timing", VBool true)] = Some (VList [v1; v2; v3; v4; v5; v6; v7; v8])
    /\ lookup "muoptfom" (vars s) = Some v1
    /\ lookup "times_1" (vars s) = Some v5
    /\ lookup "mus_1" (vars s) = Some v6
    /\ lookup "Js_1" (vars s) = Some v7
    /\ lookup "FOC_1" (vars s) = Some v8.
Proof.
  intros E.
  destruct (run_cut L 484 (prefix_of 484) (stmt_at 484) (suffix_of 484) s eq_refl E)
    as [s1 [s2 [E1 [E2 E3]]]].
  assert (Hrest : exec_block L (stmt_at 484 :: suffix_of 484) s1 = Done s).
  { cbn [exec_block]. rewrite E2. exact E3. }
  rewrite (read_unwritten L _ s1 s "opt_fom" Hrest eq_refl).
  rewrite (read_unwritten L _ s1 s "mu" Hrest eq_refl).
  rewrite (read_unwritten L _ s1 s "TR_parameters" Hrest eq_refl).
  rewrite (unwritten L _ s2 s "muoptfom" E3 eq_refl).
  rewrite (unwritten L _ s2 s "times_1" E3 eq_refl).
  rewrite (unwritten L _ s2 s "mus_1" E3 eq_refl).
  rewrite (unwritten L _ s2 s "Js_1" E3 eq_refl).
  rewrite (unwritten L _ s2 s "FOC_1" E3 eq_refl).
  assert (Hf : read (vars s1) "solve_optimization_NewtonMethod" = VLib solver_name).
  { unfold read.
    destruct (known_after L 473 (prefix_of 484) _ _ _ s1
                "solve_optimization_NewtonMethod" eq_refl E1 eq_refl)
      as [sa [sb [Ea ->]]].
    rewrite (from_import_bound L _ _ _ sa sb Ea). simpl.
    rewrite lookup_update_same. reflexivity. }
  clear E E1 E3 Hrest.
  change (stmt_at 484) with
    (Assign 484 solver_target
       (call "solve_optimization_NewtonMethod"
          [Name "opt_fom"; Attr (Name "opt_fom") "parameter_space"; Name "mu";
           Name "TR_parameters"]
          [("timing", BoolLit true)])) in E2.
  cbn in E2. unfold step, bind, lift, ret, emit in E2. cbn in E2.
  rewrite Hf in E2.
  destruct (lib_getattr L (read (vars s1) "opt_fom") "parameter_space") as [ps|];
    [|discriminate].
  cbn in E2.
  destruct (lib_call L (VLib solver_name) _ _) as [r|] eqn:Er; [|discriminate].
  destruct r as [| | | |vs| |]; try discriminate.
  do 8 (destruct vs as [|? vs]; [discriminate|]).
  destruct vs; [|discriminate].
  cbn in E2. injection E2 as <-.
  exists ps. do 8 eexists. split; [reflexivity|]. split; [exact Er|].
  cbn [vars].
  repeat split;
    repeat (rewrite lookup_update_other by discriminate);
    apply lookup_update_same.
Qed.

Lemma optimizer_call_witness :
  run Recorded.library = Done (final (run Recorded.library))
  /\ exists ps v1 v2 v3 v4 v5 v6 v7 v8,
       lib_getattr Recorded.library
         (read (vars (final (run Recorded.library))) "opt_fom") "parameter_space" = Some ps
       /\ lib_call Recorded.library (VLib solver_name)
            [read (vars (final (run Recorded.library))) "opt_fom"; ps;
             read (vars (final (run Recorded.library))) "mu";
             read (vars (final (run Recorded.library))) "TR_parameters"]
            [("timing", VBool true)] = Some (VList [v1; v2; v3; v4; v5; v6; v7; v8])
       /\ lookup "muoptfom" (vars (final (run Recorded.library))) = Some v1
       /\ lookup "times_1" (vars (final (run Recorded.library))) = Some v5
       /\ lookup "mus_1" (vars (final (run Recorded.library))) = Some v6
       /\ lookup "Js_1" (vars (final (run Recorded.library))) = Some v7
       /\ lookup "FOC_1" (vars (final (run Recorded.library))) = Some v8.
Proof.
  assert (E : run Recorded.library = Done (final (run Recorded.library)))
    by (vm_compute; reflexivity).
  split; [exact E|].
  exact (optimizer_call Recorded.library _ E).
Defined.

(** ** Where the values of the notebook come from *)

(** X7.  The starting parameter is the first of the vectors that one seeded
    call of [sample_randomly] on the parameter space of [problem] returns,
    and [J_start] is what [output_functional_hat] of [opt_fom] returns for
    it. *)
Theorem starting_point (L : Library) s :
  run L = Done s ->
  exists ps r m j,
    lib_getattr L (read (vars s) "problem") "parameter_space" = Some ps
    /\ lib_method L ps "sample_randomly" [VNum 1] [("seed", VNum 1)] = Some r
    /\ item L r (VNum 0) = Some m
    /\ lookup "mu" (vars s) = Some m
    /\ lib_method L (read (vars s) "opt_fom") "output_functional_hat" [m] [] = Some j
    /\ lookup "J_start" (vars s) = Some j.
Proof.
  intros E.
  destruct (run_cut L 252 (prefix_of 252) (stmt_at 252) (suffix_of 252) s eq_refl E)
    as [s1 [s2 [E1 [E2 E3]]]].
  assert (Hrest : exec_block L (stmt_at 252 :: suffix_of 252) s1 = Done s).
  { cbn [exec_block]. rewrite E2. exact E3. }
  rewrite (read_unwritten L _ s1 s "problem" Hrest eq_refl).
  rewrite (unwritten L _ s2 s "mu" E3 eq_refl).
  destruct (run_cut L 425 (prefix_of 425) (stmt_at 425) (suffix_of 425) s eq_refl E)
    as [t1 [t2 [F1 [F2 F3]]]].
  assert (Frest : exec_block L (stmt_at 425 :: suffix_of 425) t1 = Done s).
  { cbn [exec_block]. rewrite F2. exact F3. }
  rewrite (read_unwritten L _ t1 s "opt_fom" Frest eq_refl).
  rewrite (unwritten L _ t2 s "J_start" F3 eq_refl).
  assert (Hmu : lookup "mu" (vars t1) = lookup "mu" (vars s2)).
  { rewrite <- (unwritten L _ s2 s "mu" E3 eq_refl).
    symmetry. apply (unwritten L _ t1 s "mu" Frest eq_refl). }
  clear E E1 E3 Hrest F1 F3 Frest.
  change (stmt_at 252) with (Assign 252 (Name "mu") (sample_expr 1)) in E2.
  cbn in E2. unfold step, bind, lift, ret, emit in E2. cbn in E2.
  destruct (lib_getattr L (read (vars s1) "problem") "parameter_space") as [ps|]
    eqn:Hps; [|discriminate].
  destruct (lib_method L ps "sample_randomly" [VNum 1] [("seed", VNum 1)])
    as [r|] eqn:Hr; [|discriminate].
  fold (item L r (VNum 0)) in E2.
  destruct (item L r (VNum 0)) as [m|] eqn:Hm; [|discriminate].
  injection E2 as <-. cbn [vars] in *. rewrite lookup_update_same in *.
  change (stmt_at 425) with
    (Assign 425 (Name "J_start")
       (method (Name "opt_fom") "output_functional_hat" [Name "mu"] [])) in F2.
  cbn in F2. unfold step, bind, lift, ret, emit, read in F2. cbn in F2.
  rewrite Hmu in F2. fold (read (vars t1) "opt_fom") in F2.
  destruct (lib_method L (read (vars t1) "opt_fom") "output_functional_hat" [m] [])
    as [j|] eqn:Hj; [|discriminate].
  injection F2 as <-. cbn [vars]. rewrite lookup_update_same.
  exists ps, r, m, j. repeat split; try assumption; reflexivity.
Qed.

Lemma starting_point_witness :
  run Recorded.library = Done (final (run Recorded.library))
  /\ exists ps r m j,
       lib_getattr Recorded.library
         (read (vars (final (run Recorded.library))) "problem") "parameter_space" = Some ps
       /\ lib_method Recorded.library ps "sample_randomly" [VNum 1] [("seed", VNum 1)]
          = Some r
       /\ item Recorded.library r (VNum 0) = Some m
       /\ lookup "mu" (vars (final (run Recorded.library))) = Some m
       /\ lib_method Recorded.library
            (read (vars (final (run Recorded.library))) "opt_fom")
            "output_functional_hat" [m] [] = Some j
       /\ lookup "J_start" (vars (final (run Recorded.library))) = Some j.
Proof.
  assert (E : run Recorded.library = Done (final (run Recorded.library)))
    by (vm_compute; reflexivity).
  split; [exact E|].
  exact (starting_point Recorded.library _ E).
Defined.

(** X8.  The state that the notebook ends with is the solution at the last
    iterate of [mus_1], not at the starting parameter and not at
    [muoptfom]: [u] is what [solve] returns for [pre_parse_parameter] of
    [mus_1[-1]]. *)
Theorem final_state_is_at_last_iterate (L : Library) s :
  run L = Done s ->
  exists last p u,
    item L (read (vars s) "mus_1") (VNum (- (1))) = Some last
    /\ lib_method L (read (vars s) "opt_fom") "pre_parse_parameter" [last] [] = Some p
    /\ lib_method L (read (vars s) "opt_fom") "solve" [p] [] = Some u
    /\ lookup "u" (vars s) = Some u.
Proof.
  intros E.
  destruct (run_cut L 533 (prefix_of 533) (stmt_at 533) (suffix_of 533) s eq_refl E)
    as [s1 [s2 [E1 [E2 E3]]]].
  assert (Hrest : exec_block L (stmt_at 533 :: suffix_of 533) s1 = Done s).
  { cbn [exec_block]. rewrite E2. exact E3. }
  rewrite (read_unwritten L _ s1 s "mus_1" Hrest eq_refl).
  rewrite (read_unwritten L _ s1 s "opt_fom" Hrest eq_refl).
  rewrite (unwritten L _ s2 s "u" E3 eq_refl).
  clear E E1 E3 Hrest.
  change (stmt_at 533) with
    (Assign 533 (Name "u")
       (method (Name "opt_fom") "solve"
          [method (Name "opt_fom") "pre_parse_parameter" [last_mu] []] [])) in E2.
  cbn in E2. unfold step, bind, lift, ret, emit in E2. cbn in E2.
  fold (item L (read (vars s1) "mus_1") (VNum (- (1)))) in E2.
  destruct (item L (read (vars s1) "mus_1") (VNum (- (1)))) as [last|] eqn:Hl;
    [|discriminate].
  destruct (lib_method L (read (vars s1) "opt_fom") "pre_parse_parameter" [last] [])
    as [p|] eqn:Hp; [|discriminate].
  destruct (lib_method L (read (vars s1) "opt_fom") "solve" [p] [])
    as [u|] eqn:Hu; [|discriminate].
  injection E2 as <-. cbn [vars].
  exists last, p, u. repeat split; try assumption. apply lookup_update_same.
Qed.

Lemma final_state_is_at_last_iterate_witness :
  run Recorded.library = Done (final (run Recorded.library))
  /\ exists last p u,
       item Recorded.library (read (vars (final (run Recorded.library))) "mus_1")
         (VNum (- (1))) = Some last
       /\ lib_method Recorded.library
            (read (vars (final (run Recorded.library))) "opt_fom")
            "pre_parse_parameter" [last] [] = Some p
       /\ lib_method Recorded.library
            (read (vars (final (run Recorded.library))) "opt_fom") "solve" [p] [] = Some u
       /\ lookup "u" (vars (final (run Recorded.library))) = Some u.
Proof.
  assert (E : run Recorded.library = Done (final (run Recorded.library)))
    by (vm_compute; reflexivity).
  split; [exact E|].
  exact (final_state_is_at_last_iterate Recorded.library _ E).
Defined.

(** ** An optimizer that raises *)

Lemma after_optimizer_not_before :
  forallb (fun n => negb (existsb (Nat.eqb n) (map line (flatten upto_optimizer))))
          lines_after_optimizer = true.
Proof. vm_compute. reflexivity. Qed.

Lemma optimizer_raises (L : Library) s1 :
  (forall a k, lib_call L (VLib solver_name) a k = None) ->
  exec_block L (prefix_of 484) start = Done s1 ->
  exists s2, exec L (stmt_at 484) s1 = Raised s2.
Proof.
  intros Hfail E1.
  assert (Hf : read (vars s1) "solve_optimization_NewtonMethod" = VLib solver_name).
  { unfold read.
    destruct (known_after L 473 (prefix_of 484) _ _ _ s1
                "solve_optimization_NewtonMethod" eq_refl E1 eq_refl)
      as [sa [sb [Ea ->]]].
    rewrite (from_import_bound L _ _ _ sa sb Ea). simpl.
    rewrite lookup_update_same. reflexivity. }
  clear E1.
  change (stmt_at 484) with
    (Assign 484 solver_target
       (call "solve_optimization_NewtonMethod"
          [Name "opt_fom"; Attr (Name "opt_fom") "parameter_space"; Name "mu";
           Name "TR_parameters"]
          [("timing", BoolLit true)])).
  cbn. unfold step, bind, lift, ret, emit. cbn. rewrite Hf.
  destruct (lib_getattr L (read (vars s1) "opt_fom") "parameter_space") as [ps|];
    [|eexists; reflexivity].
  cbn. rewrite Hfail. eexists. reflexivity.
Qed.

(** X9.  When the optimizer raises, the run raises with it, and no
    statement of the cells after it (lines 531-566) has started. *)
Theorem failed_optimizer_stops_the_notebook (L : Library) :
  (forall a k, lib_call L (VLib solver_name) a k = None) ->
  (exists s, run L = Raised s)
  /\ forall n, In n lines_after_optimizer -> executions n (run L) = 0%nat.
Proof.
  intros Hfail.
  assert (Hn : notebook = (upto_optimizer ++ suffix_of 484)%list) by reflexivity.
  assert (Hup : upto_optimizer = (prefix_of 484 ++ [stmt_at 484])%list) by reflexivity.
  assert (Hr : exists s, exec_block L upto_optimizer start = Raised s).
  { rewrite Hup, exec_block_app.
    destruct (exec_block L (prefix_of 484) start) as [s1|s1] eqn:E1.
    - destruct (optimizer_raises L s1 Hfail E1) as [s2 E2].
      exists s2. cbn [exec_block]. rewrite E2. reflexivity.
    - exists s1. reflexivity. }
  destruct Hr as [s Hr].
  assert (Hrun : run L = Raised s).
  { unfold run. rewrite Hn, exec_block_app, Hr. reflexivity. }
  split; [exists s; exact Hrun|].
  intros n Hin. unfold executions. rewrite Hrun. simpl final.
  pose proof (proj1 (forallb_forall _ _) after_optimizer_not_before n Hin) as Hb.
  apply negb_true_iff in Hb.
  pose proof (not_started L upto_optimizer start n Hb) as H.
  rewrite Hr in H. exact H.
Qed.

Lemma failed_optimizer_stops_the_notebook_witness :
  (forall a k, lib_call Failing.library (VLib solver_name) a k = None)
  /\ (exists s, run Failing.library = Raised s)
  /\ forall n, In n lines_after_optimizer -> executions n (run Failing.library) = 0%nat.
Proof.
  assert (H : forall a k, lib_call Failing.library (VLib solver_name) a k = None)
    by (intros a k; reflexivity).
  split; [exact H|].
  exact (failed_optimizer_stops_the_notebook Failing.library H).
Defined.

(** ** The desired state of cell 11 *)

Lemma one_statement (L : Library) c s s' x :
  exec L c s = Done s' -> mem x (writes [c]) = false ->
  lookup x (vars s') = lookup x (vars s).
Proof.
  intros E Hx. apply (unwritten L [c] s s' x); [|exact Hx].
  cbn [exec_block]. rewrite E. reflexivity.
Qed.

(** X10.  Line 561 builds the desired state from the number 18 that line
    186 bound to [u_d], and rebinds [u_d] to the vector it gets: the notebook
    ends with [u_d] holding [InterpolationOperator(grid,
    ConstantFunction(18, 2)).as_vector()]. *)
Theorem desired_state_is_constant_18 (L : Library) s :
  run L = Done s ->
  exists g cf io v,
    item L (read (vars s) "data") (VStr "grid") = Some g
    /\ lib_call L (VLib "ConstantFunction") [VNum 18; VNum 2] [] = Some cf
    /\ lib_call L (VLib "pymor.discretizers.builtin.cg.InterpolationOperator")
         [g; cf] [] = Some io
    /\ lib_method L io "as_vector" [] [] = Some v
    /\ lookup "u_d" (vars s) = Some v.
Proof.
  intros E.
  destruct (run_cut L 559 (prefix_of 559) (stmt_at 559) [] s eq_refl E)
    as [s1 [s2 [E1 [E2 E3]]]].
  injection E3 as ->.
  pose proof (mu_d_at_559 L s1 E1) as Hmu.
  change (stmt_at 559) with (If 559 (Is (Name "mu_d") NoneLit) then_559 []) in E2.
  rewrite (exec_If_true L _ _ _ _ s1 (VBool true)) in E2; [| |reflexivity];
    [|intros l; simpl; unfold bind, ret, read; rewrite Hmu; reflexivity].
  assert (Hd : read (vars s1) "data" = read (vars s) "data").
  { symmetry. unfold read.
    rewrite (unwritten L then_559 (mark 559 s1) s "data" E2 eq_refl). reflexivity. }
  assert (Hu : lookup "u_d" (vars s1) = Some (VNum 18))
    by apply (number_known L 186 (prefix_of 559) _ _ s1 _ _ eq_refl E1 eq_refl).
  assert (Hc : lookup "ConstantFunction" (vars s1) = None)
    by apply (unwritten L _ start s1 "ConstantFunction" E1 eq_refl).
  assert (Hi : lookup "InterpolationOperator" (vars s1) =
               Some (VLib "pymor.discretizers.builtin.cg.InterpolationOperator")).
  { destruct (known_after L 552 (prefix_of 559) _ _ _ s1 "InterpolationOperator"
                eq_refl E1 eq_refl) as [sa [sb [Ea ->]]].
    rewrite (from_import_bound L _ _ _ sa sb Ea). simpl. apply lookup_update_same. }
  rewrite <- Hd. clear E E1 Hd Hmu.
  change then_559 with
    (nth 0 then_559 (ExprS 0 NoneLit) :: nth 1 then_559 (ExprS 0 NoneLit)
       :: skipn 2 then_559) in E2.
  apply exec_block_cons in E2. destruct E2 as [sA [EA E2]].
  apply exec_block_cons in E2. destruct E2 as [sB [EB E2]].
  rewrite (unwritten L _ sB s "u_d" E2 eq_refl). clear E2.
  pose proof (one_statement L _ _ sA "u_d" EA eq_refl) as HuA.
  pose proof (one_statement L _ _ sA "ConstantFunction" EA eq_refl) as HcA.
  pose proof (one_statement L _ _ sA "InterpolationOperator" EA eq_refl) as HiA.
  pose proof (one_statement L _ _ sA "data" EA eq_refl) as HdA.
  change (vars (mark 559 s1)) with (vars s1) in *.
  rewrite Hu in HuA. rewrite Hc in HcA. rewrite Hi in HiA.
  assert (Hd : read (vars sA) "data" = read (vars s1) "data")
    by (unfold read; rewrite HdA; reflexivity).
  rewrite <- Hd. clear EA Hd HdA Hu Hc Hi.
  change (nth 1 then_559 (ExprS 0 NoneLit)) with
    (Assign 561 (Name "u_d")
       (method (call "InterpolationOperator"
                  [grid; call "ConstantFunction" [Name "u_d"; Num 2] []] [])
               "as_vector" [] [])) in EB.
  cbn in EB. unfold step, bind, lift, ret, emit, read in EB. cbn in EB.
  rewrite HuA, HcA, HiA in EB. fold (read (vars sA) "data") in EB.
  fold (item L (read (vars sA) "data") (VStr "grid")) in EB.
  destruct (item L (read (vars sA) "data") (VStr "grid")) as [g|] eqn:Hg;
    [|discriminate].
  cbn in EB.
  destruct (lib_call L (VLib "ConstantFunction") [VNum 18; VNum 2] []) as [cf|] eqn:Hcf;
    [|discriminate].
  cbn in EB.
  destruct (lib_call L (VLib "pymor.discretizers.builtin.cg.InterpolationOperator")
              [g; cf] []) as [io|] eqn:Hio; [|discriminate].
  destruct (lib_method L io "as_vector" [] []) as [v|] eqn:Hv; [|discriminate].
  injection EB as <-. cbn [vars].
  exists g, cf, io, v. repeat split; try assumption. apply lookup_update_same.
Qed.

Lemma desired_state_is_constant_18_witness :
  run Recorded.library = Done (final (run Recorded.library))
  /\ exists g cf io v,
       item Recorded.library (read (vars (final (run Recorded.library))) "data")
         (VStr "grid") = Some g
       /\ lib_call Recorded.library (VLib "ConstantFunction") [VNum 18; VNum 2] [] = Some cf
       /\ lib_call Recorded.library
            (VLib "pymor.discretizers.builtin.cg.InterpolationOperator") [g; cf] []
          = Some io
       /\ lib_method Recorded.library io "as_vector" [] [] = Some v
       /\ lookup "u_d" (vars (final (run Recorded.library))) = Some v.
Proof.
  assert (E : run Recorded.library = Done (final (run Recorded.library)))
    by (vm_compute; reflexivity).
  split; [exact E|].
  exact (desired_state_is_constant_18 Recorded.library _ E).
Defined.

(** ** What the discretizer is given *)

Lemma read_bound rho x v : lookup x rho = Some v -> read rho x = v.
Proof. intros H. unfold read. rewrite H. reflexivity. Qed.

Lemma known_after_with (L : Library) ln p p' c' q' s1 x :
  split_at ln p = Some (p', c', q') ->
  exec_block L p start = Done s1 ->
  mem x (writes q') = false ->
  exists sa sb,
    exec_block L p' start = Done sa /\ exec L c' sa = Done sb
    /\ lookup x (vars s1) = lookup x (vars sb).
Proof.
  intros Hsplit E Hx. apply split_at_spec in Hsplit. rewrite Hsplit in E.
  apply (at_the_end L p' c' q' s1 x E).
  intro Hin.
  assert (mem x (writes q') = true) as Hm.
  { apply existsb_exists. exists x. split; [exact Hin | apply String.eqb_refl]. }
  rewrite Hm in Hx. discriminate.
Qed.

(** A variable bound to a literal by a top-level statement of a prefix and
    not written by the rest of the prefix. *)
Lemma literal_known (L : Library) ln p p' q' s1 x e v :
  split_at ln p = Some (p', Assign ln (Name x) e, q') ->
  (forall rho l, eval L rho e l = (l, Some v)) ->
  exec_block L p start = Done s1 ->
  mem x (writes q') = false ->
  lookup x (vars s1) = Some v.
Proof.
  intros Hs He E Hx.
  destruct (known_after L ln p p' _ q' s1 x Hs E Hx) as [sa [sb [Ea ->]]].
  destruct (assigned L _ _ _ sa sb Ea) as [w [l [Ev Hv]]].
  rewrite He in Ev. injection Ev as _ <-. exact Hv.
Qed.

Lemma weights_at_194 (L : Library) s1 :
  exec_block L (prefix_of 194) start = Done s1 ->
  lookup "weights" (vars s1) = Some weights_value.
Proof.
  intros E1.
  destruct (known_after_with L 191 (prefix_of 194) _ _ _ s1 "weights" eq_refl E1 eq_refl)
    as [sa [sb [Ep [Ea ->]]]].
  pose proof (number_known L 190 (prefix_of 191) _ _ sa _ _ eq_refl Ep eq_refl) as Hs.
  destruct (assigned L _ _ _ sa sb Ea) as [w [l [Ev Hv]]].
  rewrite Hv. f_equal.
  simpl in Ev. unfold bind, ret, read in Ev. rewrite Hs in Ev. simpl in Ev.
  injection Ev as _ <-. reflexivity.
Qed.

(** X11.  [opt_fom], [data] and [mu_bar] are the three values that one call
    of the discretizer returns, for [problem], [diameter], the weights of
    line 191 (with 100 for the state), [parameter_scales] and
    [domain_of_interest], with the desired temperature 18, no parameter for
    the desired state or the Tikhonov term, and the corrected gradient. *)
Theorem discretizer_call (L : Library) s :
  run L = Done s ->
  exists v1 v2 v3,
    lib_call L (VLib "pdeopt.discretizer.discretize_quadratic_pdeopt_stationary_cg")
      [read (vars s) "problem"; read (vars s) "diameter"; weights_value;
       read (vars s) "parameter_scales"; read (vars s) "domain_of_interest"]
      [("desired_temperature", VNum 18); ("mu_for_u_d", VNone);
       ("mu_for_tikhonov", VNone); ("parameters_in_q", VBool true);
       ("product", VStr "fixed_energy"); ("use_corrected_gradient", VBool true)]
    = Some (VList [v1; v2; v3])
    /\ lookup "opt_fom" (vars s) = Some v1
    /\ lookup "data" (vars s) = Some v2
    /\ lookup "mu_bar" (vars s) = Some v3.
Proof.
  intros E.
  destruct (run_cut L 194 (prefix_of 194) (stmt_at 194) (suffix_of 194) s eq_refl E)
    as [s1 [s2 [E1 [E2 E3]]]].
  assert (Hrest : exec_block L (stmt_at 194 :: suffix_of 194) s1 = Done s).
  { cbn [exec_block]. rewrite E2. exact E3. }
  rewrite (read_unwritten L _ s1 s "problem" Hrest eq_refl).
  rewrite (read_unwritten L _ s1 s "diameter" Hrest eq_refl).
  rewrite (read_unwritten L _ s1 s "parameter_scales" Hrest eq_refl).
  rewrite (read_unwritten L _ s1 s "domain_of_interest" Hrest eq_refl).
  rewrite (unwritten L _ s2 s "opt_fom" E3 eq_refl).
  rewrite (unwritten L _ s2 s "data" E3 eq_refl).
  rewrite (unwritten L _ s2 s "mu_bar" E3 eq_refl).
  pose proof (weights_at_194 L s1 E1) as Hw.
  pose proof (number_known L 186 (prefix_of 194) _ _ s1 _ _ eq_refl E1 eq_refl) as Hu.
  pose proof (literal_known L 188 (prefix_of 194) _ _ s1 _ _ VNone eq_refl
                (fun _ _ => eq_refl) E1 eq_refl) as Hm.
  pose proof (literal_known L 172 (prefix_of 194) _ _ s1 _ _ (VBool true) eq_refl
                (fun _ _ => eq_refl) E1 eq_refl) as Hq.
  assert (Hf : lookup "discretize_quadratic_pdeopt_stationary_cg" (vars s1) =
               Some (VLib "pdeopt.discretizer.discretize_quadratic_pdeopt_stationary_cg")).
  { destruct (known_after L 164 (prefix_of 194) _ _ _ s1
                "discretize_quadratic_pdeopt_stationary_cg" eq_refl E1 eq_refl)
      as [sa [sb [Ea ->]]].
    rewrite (from_import_bound L _ _ _ sa sb Ea). simpl. apply lookup_update_same. }
  clear E E1 E3 Hrest.
  change (stmt_at 194) with
    (Assign 194 (TupleE [Name "opt_fom"; Name "data"; Name "mu_bar"])
      (call "discretize_quadratic_pdeopt_stationary_cg"
         [Name "problem"; Name "diameter"; Name "weights"; Name "parameter_scales";
          Name "domain_of_interest"]
         [("desired_temperature", Name "u_d"); ("mu_for_u_d", Name "mu_d");
          ("mu_for_tikhonov", Name "mu_d"); ("parameters_in_q", Name "parameters_in_q");
          ("product", Str "fixed_energy"); ("use_corrected_gradient", BoolLit true)]))
    in E2.
  cbn in E2. unfold step, bind, lift, ret, emit in E2. cbn in E2.
  rewrite (read_bound _ _ _ Hf), (read_bound _ _ _ Hw), (read_bound _ _ _ Hu),
    (read_bound _ _ _ Hm), (read_bound _ _ _ Hq) in E2.
  cbn in E2.
  destruct (lib_call L _ _ _) as [r|] eqn:Er; [|discriminate].
  destruct r as [| | | |vs| |]; try discriminate.
  do 3 (destruct vs as [|? vs]; [discriminate|]).
  destruct vs; [|discriminate].
  cbn in E2. injection E2 as <-.
  do 3 eexists. split; [reflexivity|]. cbn [vars].
  repeat split;
    repeat (rewrite lookup_update_other by discriminate);
    apply lookup_update_same.
Qed.

Lemma discretizer_call_witness :
  run Recorded.library = Done (final (run Recorded.library))
  /\ exists v1 v2 v3,
       lib_call Recorded.library
         (VLib "pdeopt.discretizer.discretize_quadratic_pdeopt_stationary_cg")
         [read (vars (final (run Recorded.library))) "problem";
          read (vars (final (run Recorded.library))) "diameter"; weights_value;
          read (vars (final (run Recorded.library))) "parameter_scales";
          read (vars (final (run Recorded.library))) "domain_of_interest"]
         [("desired_temperature", VNum 18); ("mu_for_u_d", VNone);
          ("mu_for_tikhonov", VNone); ("parameters_in_q", VBool true);
          ("product", VStr "fixed_energy"); ("use_corrected_gradient", VBool true)]
       = Some (VList [v1; v2; v3])
       /\ lookup "opt_fom" (vars (final (run Recorded.library))) = Some v1
       /\ lookup "data" (vars (final (run Recorded.library))) = Some v2
       /\ lookup "mu_bar" (vars (final (run Recorded.library))) = Some v3.
Proof.
  assert (E : run Recorded.library = Done (final (run Recorded.library)))
    by (vm_compute; reflexivity).
  split; [exact E|].
  exact (discretizer_call Recorded.library _ E).
Defined.

(** ** What the problem is built from *)

(** What line 173 binds [input_dict] to. *)
Lemma input_dict_after_173 (L : Library) sa sb :
  exec_block L (prefix_of 173) start = Done sa ->
  exec L (stmt_at 173) sa = Done sb ->
  exists input,
    lib_call L (VLib "pdeopt.problems.set_input_dict")
      [parametric_quantities_value; inactive_quantities_value; VNone;
       summed_quantities_value; VBool true] input_bounds = Some input
    /\ lookup "input_dict" (vars sb) = Some input.
Proof.
  intros Ep Ea.
  pose proof (literal_known L 166 (prefix_of 173) _ _ sa _ _ parametric_quantities_value
                eq_refl (fun _ _ => eq_refl) Ep eq_refl) as H1.
  pose proof (literal_known L 167 (prefix_of 173) _ _ sa _ _ inactive_quantities_value
                eq_refl (fun _ _ => eq_refl) Ep eq_refl) as H2.
  pose proof (literal_known L 170 (prefix_of 173) _ _ sa _ _ VNone
                eq_refl (fun _ _ => eq_refl) Ep eq_refl) as H3.
  pose proof (literal_known L 168 (prefix_of 173) _ _ sa _ _ summed_quantities_value
                eq_refl (fun _ _ => eq_refl) Ep eq_refl) as H4.
  pose proof (literal_known L 172 (prefix_of 173) _ _ sa _ _ (VBool true)
                eq_refl (fun _ _ => eq_refl) Ep eq_refl) as H5.
  assert (Hf : lookup "set_input_dict" (vars sa) =
               Some (VLib "pdeopt.problems.set_input_dict")).
  { destruct (known_after L 163 (prefix_of 173) _ _ _ sa "set_input_dict"
                eq_refl Ep eq_refl) as [s0 [s0' [E0 ->]]].
    rewrite (from_import_bound L _ _ _ s0 s0' E0). simpl. apply lookup_update_same. }
  clear Ep.
  destruct (assigned L _ _ _ sa sb Ea) as [v [l [Ev Hv]]]. clear Ea.
  cbn in Ev. unfold bind, lift, ret, emit in Ev. cbn in Ev.
  rewrite (read_bound _ _ _ Hf), (read_bound _ _ _ H1), (read_bound _ _ _ H2),
    (read_bound _ _ _ H3), (read_bound _ _ _ H4), (read_bound _ _ _ H5) in Ev.
  cbn in Ev. exists v. split; [|exact Hv].
  unfold input_bounds.
  destruct (lib_call L _ _ _) as [r|]; [|discriminate].
  injection Ev as _ ->. reflexivity.
Qed.

(** X12.  [problem] and [parameter_scales] are the two values that
    [EXC_problem] returns for the dictionary of [set_input_dict] and the
    summed quantities; [set_input_dict] is given the quantities of lines
    166-168, no coefficient expressions, and the bounds of lines 174-175,
    [EXC_problem] the outside temperature 5 and the data directory. *)
Theorem problem_setup (L : Library) s :
  run L = Done s ->
  exists input v1 v2,
    lib_call L (VLib "pdeopt.problems.set_input_dict")
      [parametric_quantities_value; inactive_quantities_value; VNone;
       summed_quantities_value; VBool true] input_bounds = Some input
    /\ lib_call L (VLib "pdeopt.problems.EXC_problem")
         [input; summed_quantities_value]
         [("outside_temperature", VNum 5); ("data_path", VStr "../../../EXC_data");
          ("parameters_in_q", VBool true); ("parameter_scaling", VBool false);
          ("coefficient_expressions", VNone)] = Some (VList [v1; v2])
    /\ lookup "problem" (vars s) = Some v1
    /\ lookup "parameter_scales" (vars s) = Some v2.
Proof.
  intros E.
  destruct (run_cut L 181 (prefix_of 181) (stmt_at 181) (suffix_of 181) s eq_refl E)
    as [s1 [s2 [E1 [E2 E3]]]].
  rewrite (unwritten L _ s2 s "problem" E3 eq_refl).
  rewrite (unwritten L _ s2 s "parameter_scales" E3 eq_refl).
  destruct (known_after_with L 173 (prefix_of 181) _ _ _ s1 "input_dict"
              eq_refl E1 eq_refl) as [sa [sb [Ep [Ea Hin]]]].
  destruct (input_dict_after_173 L sa sb Ep Ea) as [input [Hcall Hinput]].
  rewrite Hinput in Hin.
  pose proof (literal_known L 168 (prefix_of 181) _ _ s1 _ _ summed_quantities_value
                eq_refl (fun _ _ => eq_refl) E1 eq_refl) as H1.
  pose proof (number_known L 179 (prefix_of 181) _ _ s1 _ _ eq_refl E1 eq_refl) as H2.
  pose proof (literal_known L 130 (prefix_of 181) _ _ s1 _ _ (VStr "../../../EXC_data")
                eq_refl (fun _ _ => eq_refl) E1 eq_refl) as H3.
  pose proof (literal_known L 172 (prefix_of 181) _ _ s1 _ _ (VBool true)
                eq_refl (fun _ _ => eq_refl) E1 eq_refl) as H4.
  pose proof (literal_known L 178 (prefix_of 181) _ _ s1 _ _ (VBool false)
                eq_refl (fun _ _ => eq_refl) E1 eq_refl) as H5.
  pose proof (literal_known L 170 (prefix_of 181) _ _ s1 _ _ VNone
                eq_refl (fun _ _ => eq_refl) E1 eq_refl) as H6.
  assert (Hf : lookup "EXC_problem" (vars s1) = Some (VLib "pdeopt.problems.EXC_problem")).
  { destruct (known_after L 163 (prefix_of 181) _ _ _ s1 "EXC_problem"
                eq_refl E1 eq_refl) as [s0 [s0' [E0 ->]]].
    rewrite (from_import_bound L _ _ _ s0 s0' E0). simpl.
    rewrite lookup_update_other by discriminate. apply lookup_update_same. }
  clear E E1 E3 Ep Ea.
  change (stmt_at 181) with
    (Assign 181 (TupleE [Name "problem"; Name "parameter_scales"])
      (call "EXC_problem" [Name "input_dict"; Name "summed_quantities"]
         [("outside_temperature", Name "u_out"); ("data_path", Name "data_path");
          ("parameters_in_q", Name "parameters_in_q");
          ("parameter_scaling", Name "parameter_scaling");
          ("coefficient_expressions", Name "coefficient_expressions")])) in E2.
  cbn in E2. unfold step, bind, lift, ret, emit in E2. cbn in E2.
  rewrite (read_bound _ _ _ Hf), (read_bound _ _ _ Hin), (read_bound _ _ _ H1),
    (read_bound _ _ _ H2), (read_bound _ _ _ H3), (read_bound _ _ _ H4),
    (read_bound _ _ _ H5), (read_bound _ _ _ H6) in E2.
  cbn in E2.
  destruct (lib_call L (VLib "pdeopt.problems.EXC_problem") _ _) as [r|] eqn:Er;
    [|discriminate].
  destruct r as [| | | |vs| |]; try discriminate.
  do 2 (destruct vs as [|? vs]; [discriminate|]).
  destruct vs; [|discriminate].
  cbn in E2. injection E2 as <-.
  exists input. do 2 eexists. split; [exact Hcall|]. split; [exact Er|]. cbn [vars].
  split; [rewrite lookup_update_other by discriminate|]; apply lookup_update_same.
Qed.

Lemma problem_setup_witness :
  run Recorded.library = Done (final (run Recorded.library))
  /\ exists input v1 v2,
       lib_call Recorded.library (VLib "pdeopt.problems.set_input_dict")
         [parametric_quantities_value; inactive_quantities_value; VNone;
          summed_quantities_value; VBool true] input_bounds = Some input
       /\ lib_call Recorded.library (VLib "pdeopt.problems.EXC_problem")
            [input; summed_quantities_value]
            [("outside_temperature", VNum 5); ("data_path", VStr "../../../EXC_data");
             ("parameters_in_q", VBool true); ("parameter_scaling", VBool false);
             ("coefficient_expressions", VNone)] = Some (VList [v1; v2])
       /\ lookup "problem" (vars (final (run Recorded.library))) = Some v1
       /\ lookup "parameter_scales" (vars (final (run Recorded.library))) = Some v2.
Proof.
  assert (E : run Recorded.library = Done (final (run Recorded.library)))
    by (vm_compute; reflexivity).
  split; [exact E|].
  exact (problem_setup Recorded.library _ E).
Defined.

(** ** An optimizer that returns no iterate *)

(** With an empty list of iterates [mus_1[-1]] raises. *)
Lemma iter_531_empty (L : Library) rho l :
  lookup "mus_1" rho = Some (VList []) ->
  snd (eval L rho (call "range" [call "len" [last_mu] []] []) l) = None.
Proof.
  intros Hm. simpl. unfold bind, ret, read, lift. rewrite Hm. reflexivity.
Qed.

(** X13.  A run cannot complete on an empty list of iterates: line 531
    indexes [mus_1[-1]], which raises on an empty list, so whenever the run
    completes and the optimizer has returned its iterates as a list, the
    list has an element. *)
Theorem iterates_are_not_empty (L : Library) s ms :
  run L = Done s ->
  lookup "mus_1" (vars s) = Some (VList ms) ->
  ms <> [].
Proof.
  intros E Hms ->.
  destruct (run_cut L 531 (prefix_of 531) (stmt_at 531) (suffix_of 531) s eq_refl E)
    as [s1 [s2 [E1 [E2 E3]]]].
  assert (Hrest : exec_block L (stmt_at 531 :: suffix_of 531) s1 = Done s).
  { cbn [exec_block]. rewrite E2. exact E3. }
  rewrite (unwritten L _ s1 s "mus_1" Hrest eq_refl) in Hms.
  change (stmt_at 531) with
    (For 531 "i" (call "range" [call "len" [last_mu] []] [])
       [ExprS 532 (call "print"
          [method (Str "{0:.12e}") "format" [Subscript last_mu (Name "i")] []] [])])
    in E2.
  rewrite exec_For in E2. unfold step in E2.
  pose proof (iter_531_empty L (vars (mark 531 s1)) (log (mark 531 s1)) Hms) as Hn.
  change (vars (mark 531 s1)) with (vars s1) in Hn.
  destruct (eval L (vars s1) _ (log (mark 531 s1))) as [l [v|]]; [discriminate Hn | discriminate E2].
Qed.

Lemma iterates_are_not_empty_witness :
  run Recorded.library = Done (final (run Recorded.library))
  /\ lookup "mus_1" (vars (final (run Recorded.library)))
     = Some (VList (map Recorded.vec Recorded.steps))
  /\ map Recorded.vec Recorded.steps <> [].
Proof.
  assert (E : run Recorded.library = Done (final (run Recorded.library)))
    by (vm_compute; reflexivity).
  assert (H : lookup "mus_1" (vars (final (run Recorded.library)))
              = Some (VList (map Recorded.vec Recorded.steps)))
    by (vm_compute; reflexivity).
  split; [exact E|]. split; [exact H|].
  exact (iterates_are_not_empty Recorded.library _ _ E H).
Defined.

(** ** The method calls of a run *)

Lemma emits_ret {A} m (a : A) : emits m 0 (ret a).
Proof. intro l. simpl. lia. Qed.

Lemma emits_raise {A} m : emits m 0 (@raise A).
Proof. intro l. simpl. lia. Qed.

Lemma emits_lift {A} m (o : option A) : emits m 0 (lift o).
Proof. intro l. simpl. lia. Qed.

Lemma emits_emit m e : emits m (if is_method_event m e then 1 else 0) (emit e).
Proof.
  intro l. unfold emit, method_events. simpl.
  destruct (is_method_event m e); simpl; lia.
Qed.

Lemma emits_method m o a vs ks :
  emits m (if String.eqb a m then 1 else 0) (emit (EMethod o a vs ks)).
Proof. exact (emits_emit m (EMethod o a vs ks)). Qed.

Lemma emits_bind {A B} m n1 n2 (c : M A) (f : A -> M B) :
  emits m n1 c -> (forall a, emits m n2 (f a)) -> emits m (n1 + n2) (bind c f).
Proof.
  intros Hc Hf l. unfold bind. destruct (Hc l) as [[H1 H2] H3].
  destruct (c l) as [l' [a|]]; simpl in *.
  - destruct (Hf a l') as [[G1 G2] G3].
    assert (E : method_events m l' = (n1 + method_events m l)%nat)
      by (apply H3; discriminate).
    split; [lia|]. intro Hs. specialize (G3 Hs). lia.
  - split; [lia|]. intro Hs. contradiction Hs. reflexivity.
Qed.

Lemma emits_eq {A} m n n' (c : M A) : n = n' -> emits m n c -> emits m n' c.
Proof. intros <-. exact (fun H => H). Qed.

Lemma sites_app m (a b : list (expr * list expr * list (string * expr))) :
  List.length (filter (is_method_call m) (a ++ b)) =
  (List.length (filter (is_method_call m) a)
   + List.length (filter (is_method_call m) b))%nat.
Proof. rewrite filter_app, length_app. reflexivity. Qed.

Section MethodCalls.

Variables (L : Library) (m : string).

Lemma emits_apply f vs ks : emits m 0 (apply L f vs ks).
Proof.
  unfold apply.
  repeat match goal with
         | |- emits _ _ (match ?x with _ => _ end) => destruct x
         end;
    try apply emits_ret; try apply emits_raise;
    apply (emits_bind m 0 0); try (intro; apply emits_lift);
    apply (emits_emit m (ECall _ _ _)).
Qed.

Lemma emits_evals rho es :
  Forall (fun e => emits m (expr_sites m e) (eval L rho e)) es ->
  emits m (List.length (filter (is_method_call m) (flat_map calls es)))
    ((fix evals (es : list expr) : M (list value) :=
        match es with
        | [] => ret []
        | e' :: r => v <- eval L rho e' ;; vs <- evals r ;; ret (v :: vs)
        end) es).
Proof.
  induction 1 as [|e es He Hes IH]; [apply emits_ret|].
  cbn [flat_map]. rewrite sites_app.
  apply emits_bind; [exact He|]. intro v.
  eapply emits_eq; [|apply emits_bind; [exact IH|intro; apply emits_ret]]. lia.
Qed.

Lemma emits_evalkw rho kes :
  Forall (fun ke => emits m (expr_sites m (snd ke)) (eval L rho (snd ke))) kes ->
  emits m (List.length (filter (is_method_call m)
                          (flat_map (fun ke => calls (snd ke)) kes)))
    ((fix evalkw (kes : list (string * expr)) : M kwargs :=
        match kes with
        | [] => ret []
        | (k, e') :: r => v <- eval L rho e' ;; vs <- evalkw r ;; ret ((k, v) :: vs)
        end) kes).
Proof.
  induction 1 as [|[k e] kes He Hes IH]; [apply emits_ret|].
  cbn [flat_map snd]. rewrite sites_app.
  apply emits_bind; [exact He|]. intro v.
  eapply emits_eq; [|apply emits_bind; [exact IH|intro; apply emits_ret]]. lia.
Qed.

(** An expression that returns has logged one call for every call site of
    the method in it. *)
Lemma emits_eval rho e : emits m (expr_sites m e) (eval L rho e).
Proof.
  induction e as [x|q|s| |b|es Hes|es Hes|kes Hkes|e a IHe|e i IHe IHi
                  |f args kes IHf Ho Hes Hkes|op a b IHa IHb|e IHe|a b IHa IHb]
    using expr_induction;
    try (apply emits_ret).
  - eapply emits_eq; [|apply emits_bind; [apply (emits_evals rho _ Hes)
                                         |intro; apply emits_ret]].
    rewrite Nat.add_0_r. reflexivity.
  - eapply emits_eq; [|apply emits_bind; [apply (emits_evals rho _ Hes)
                                         |intro; apply emits_ret]].
    rewrite Nat.add_0_r. reflexivity.
  - eapply emits_eq; [|apply emits_bind; [apply (emits_evalkw rho _ Hkes)
                                         |intro; apply emits_ret]].
    unfold expr_sites. rewrite calls_DictE. lia.
  - eapply emits_eq; [|apply emits_bind; [exact IHe|intro; apply emits_lift]].
    unfold expr_sites. change (calls (Attr e a)) with (calls e). lia.
  - eapply emits_eq;
      [|apply emits_bind; [exact IHe|intro;
          apply emits_bind; [exact IHi|intro; apply emits_lift]]].
    unfold expr_sites. change (calls (Subscript e i)) with (calls e ++ calls i)%list.
    rewrite sites_app. lia.
  - assert (Hargs := emits_evals rho _ Hes).
    assert (Hkw := emits_evalkw rho _ Hkes).
    unfold expr_sites. rewrite calls_Call.
    change ((f, args, kes) :: calls f ++ flat_map calls args
              ++ flat_map (fun ke => calls (snd ke)) kes)%list
      with ([(f, args, kes)] ++ calls f ++ flat_map calls args
              ++ flat_map (fun ke => calls (snd ke)) kes)%list.
    rewrite !sites_app.
    destruct f as [x|q|s| |b|es|es|kes'|o a|e' i|f' args' kes'|op a b|e'|a b];
      try (eapply emits_eq;
           [|apply emits_bind; [exact IHf|intro;
               apply emits_bind; [exact Hargs|intro;
                 apply emits_bind; [exact Hkw|intro; apply emits_apply]]]];
           unfold expr_sites; cbn [filter is_method_call fst List.length]; lia).
    eapply emits_eq;
      [|apply emits_bind; [exact Ho|intro vo;
          apply emits_bind; [exact Hargs|intro vs;
            apply emits_bind; [exact Hkw|intro ks;
              apply emits_bind; [apply emits_method
                                |intro; apply emits_lift]]]]].
    change (calls (Attr o a)) with (calls o). unfold expr_sites.
    cbn [filter is_method_call fst].
    destruct (String.eqb a m); cbn [List.length]; lia.
  - eapply emits_eq;
      [|apply emits_bind; [exact IHa|intro;
          apply emits_bind; [exact IHb|intro; apply emits_lift]]].
    unfold expr_sites. change (calls (BinOp op a b)) with (calls a ++ calls b)%list.
    rewrite sites_app. lia.
  - eapply emits_eq; [|apply (emits_bind m (expr_sites m e) 0); [exact IHe|]].
    + unfold expr_sites. change (calls (Neg e)) with (calls e). lia.
    + intros []; try apply emits_raise. apply emits_ret.
  - eapply emits_eq;
      [|apply emits_bind; [exact IHa|intro;
          apply emits_bind; [exact IHb|intro; apply emits_ret]]].
    unfold expr_sites. change (calls (Is a b)) with (calls a ++ calls b)%list.
    rewrite sites_app. lia.
Qed.

End MethodCalls.

Lemma grows_Done m s s' :
  method_events m (log s') = method_events m (log s) -> grows m 0 s (Done s').
Proof.
  intros E. split; simpl; [lia|]. intros s2 H. injection H as <-. exact E.
Qed.

Lemma grows_Raised m n s s' :
  method_events m (log s') = method_events m (log s) -> grows m n s (Raised s').
Proof. intros E. split; simpl; [lia|]. intros s2 H. discriminate H. Qed.

Lemma grows_eq m n n' s o : n = n' -> grows m n s o -> grows m n' s o.
Proof. intros <-. exact (fun H => H). Qed.

Lemma grows_from m n s s1 o :
  method_events m (log s1) = method_events m (log s) -> grows m n s1 o -> grows m n s o.
Proof. unfold grows. intros ->. exact (fun H => H). Qed.

Lemma grows_trans m n1 n2 s o1 o :
  grows m n1 s o1 ->
  (forall s1, o1 = Done s1 -> grows m n2 s1 o) ->
  (forall s1, o1 = Raised s1 -> o = Raised s1) ->
  grows m (n1 + n2) s o.
Proof.
  intros [[H1 H2] H3] Hd Hr. destruct o1 as [s1|s1].
  - destruct (Hd s1 eq_refl) as [[G1 G2] G3]. specialize (H3 s1 eq_refl).
    split; [lia|]. intros s' E. rewrite (G3 s' E). lia.
  - rewrite (Hr s1 eq_refl). simpl in *. split; [simpl; lia|].
    intros s' E. discriminate E.
Qed.

Lemma grows_step {A} m n1 n2 (c : M A) s (k : A -> state -> outcome) :
  emits m n1 c -> (forall a s', grows m n2 s' (k a s')) ->
  grows m (n1 + n2) s (step c s k).
Proof.
  intros Hc Hk. unfold step. destruct (Hc (log s)) as [[H1 H2] H3].
  destruct (c (log s)) as [l [a|]]; simpl in *.
  - destruct (Hk a {| vars := vars s; log := l |}) as [[G1 G2] G3]. simpl in *.
    assert (E : method_events m l = (n1 + method_events m (log s))%nat)
      by (apply H3; discriminate).
    split; [lia|]. intros s' Es. rewrite (G3 s' Es). lia.
  - split; [simpl; lia|]. intros s' Es. discriminate Es.
Qed.

Lemma bind_names_sites ts : forall vs rho rho',
  bind_names ts vs rho = Some rho' -> flat_map calls ts = [].
Proof.
  induction ts as [|t ts IH]; intros [|v vs] rho rho' E; simpl in E;
    try discriminate; try reflexivity.
  - destruct t; discriminate.
  - destruct t; try discriminate. simpl. exact (IH _ _ _ E).
Qed.

Lemma flatten1_cons c : flatten1 c = c :: tl (flatten1 c).
Proof. destruct c; reflexivity. Qed.

Lemma method_sites_Assign m ln t e :
  method_sites m (Assign ln t e) = (expr_sites m e + expr_sites m t)%nat.
Proof.
  unfold method_sites, expr_sites, stmt_calls. simpl.
  rewrite app_nil_r. apply sites_app.
Qed.

Section MethodEvents.

Variables (L : Library) (m : string).

Lemma grows_set_vars rho s : grows m 0 s (set_vars rho s).
Proof.
  destruct rho; simpl; [apply grows_Done | apply grows_Raised]; reflexivity.
Qed.

Lemma grows_assign t v s : grows m (expr_sites m t) s (assign L t v s).
Proof.
  destruct t as [x|q|str| |b|es|es|kes|o a|t1 t2|f args kes|op a b|e|a b];
    cbn [assign]; try (apply grows_Raised; reflexivity).
  - apply grows_Done. reflexivity.
  - destruct v as [|b|q|str|vs|kvs|o]; try (apply grows_Raised; reflexivity).
    destruct (bind_names es vs (vars s)) eqn:E; simpl.
    + eapply grows_eq; [|apply grows_Done; reflexivity].
      unfold expr_sites.
      change (calls (TupleE es)) with (flat_map calls es).
      rewrite (bind_names_sites _ _ _ _ E). reflexivity.
    + apply grows_Raised. reflexivity.
  - eapply grows_eq;
      [|apply (grows_step m (expr_sites m t1 + (expr_sites m t2 + 0)) 0);
        [apply emits_bind; [apply emits_eval|intro;
           apply emits_bind; [apply emits_eval|intro; apply emits_ret]]|]].
    + unfold expr_sites.
      change (calls (Subscript t1 t2)) with (calls t1 ++ calls t2)%list.
      rewrite sites_app. lia.
    + intros [o k] s'. cbn [fst snd]. destruct (is_lib o).
      * apply (grows_step m 0 0); [apply (emits_emit m (EStore o k v))|].
        intros _ s2. destruct (lib_setitem L o k v);
          [apply grows_Done | apply grows_Raised]; reflexivity.
      * destruct (root_path (Subscript t1 t2)) as [[x ks]|];
          [|apply grows_Raised; reflexivity].
        destruct (store_path (read (vars s') x) ks v);
          [apply grows_Done | apply grows_Raised]; reflexivity.
Qed.

(** A block none of whose statements calls [m] logs no call of it. *)
Lemma block_silent cs :
  Forall (fun c =>
            Forall (fun c' => method_sites m c' = 0%nat) (tl (flatten1 c)) ->
            forall s, grows m (method_sites m c) s (exec L c s)) cs ->
  Forall (fun c' => method_sites m c' = 0%nat) (flatten cs) ->
  forall s, grows m 0 s (exec_block L cs s).
Proof.
  induction 1 as [|c cs Hc Hcs IH]; intros H0 s.
  - apply grows_Done. reflexivity.
  - unfold flatten in H0. cbn [flat_map] in H0. apply Forall_app in H0.
    destruct H0 as [H1 H2]. rewrite flatten1_cons in H1.
    apply Forall_cons_iff in H1. destruct H1 as [Hown Hin].
    specialize (Hc Hin s). rewrite Hown in Hc.
    cbn [exec_block].
    apply (grows_trans m 0 0 s (exec L c s)); [exact Hc| |].
    + intros s1 ->. apply IH. exact H2.
    + intros s1 ->. reflexivity.
Qed.

Lemma loop_silent x body :
  (forall s, grows m 0 s (exec_block L body s)) ->
  forall vs s, grows m 0 s (loop L x body vs s).
Proof.
  intros Hb. induction vs as [|w r IH]; intros s.
  - apply grows_Done. reflexivity.
  - cbn [loop].
    apply (grows_from m 0 s {| vars := update x w (vars s); log := log s |});
      [reflexivity|].
    apply (grows_trans m 0 0 _
             (exec_block L body {| vars := update x w (vars s); log := log s |}));
      [apply Hb| |].
    + intros s1 ->. apply IH.
    + intros s1 ->. reflexivity.
Qed.

(** A statement that ends normally has logged one call of [m] for every
    call site in it, when the statements nested in it have none. *)
Lemma exec_methods c :
  Forall (fun c' => method_sites m c' = 0%nat) (tl (flatten1 c)) ->
  forall s, grows m (method_sites m c) s (exec L c s).
Proof.
  induction c as [ln md a|ln md names|ln t e|ln e|ln x it body IH
                  |ln c th el IHth IHel|ln body handler IHb IHh]
    using stmt_induction; intros H0 s.
  - apply grows_Done. reflexivity.
  - apply grows_Done. reflexivity.
  - rewrite method_sites_Assign.
    apply (grows_from m _ s (mark ln s)); [reflexivity|].
    apply grows_step; [apply emits_eval|]. intros v s'. apply grows_assign.
  - apply (grows_from m _ s (mark ln s)); [reflexivity|].
    eapply grows_eq; [|apply (grows_step m (expr_sites m e) 0); [apply emits_eval|]].
    + unfold method_sites, expr_sites, stmt_calls. simpl. rewrite app_nil_r. lia.
    + intros v s'. apply grows_Done. reflexivity.
  - rewrite exec_For. rewrite flatten1_For in H0. cbn [tl] in H0.
    apply (grows_from m _ s (mark ln s)); [reflexivity|].
    eapply grows_eq; [|apply (grows_step m (expr_sites m it) 0); [apply emits_eval|]].
    + unfold method_sites, expr_sites, stmt_calls. simpl. rewrite app_nil_r. lia.
    + intros v s'. destruct v; try (apply grows_Raised; reflexivity).
      apply loop_silent. apply block_silent; assumption.
  - rewrite exec_If. rewrite flatten1_If in H0. cbn [tl] in H0.
    apply Forall_app in H0. destruct H0 as [Hth Hel].
    apply (grows_from m _ s (mark ln s)); [reflexivity|].
    eapply grows_eq; [|apply (grows_step m (expr_sites m c) 0); [apply emits_eval|]].
    + unfold method_sites, expr_sites, stmt_calls. simpl. rewrite app_nil_r. lia.
    + intros v s'. destruct (truthy v); apply block_silent; assumption.
  - rewrite exec_Try. rewrite flatten1_Try in H0. cbn [tl] in H0.
    apply Forall_app in H0. destruct H0 as [Hb Hh].
    assert (G : grows m 0 s (exec_block L body (mark ln s))).
    { apply (grows_from m 0 s (mark ln s)); [reflexivity|].
      apply block_silent; assumption. }
    change (method_sites m (Try ln body handler)) with 0%nat.
    destruct (exec_block L body (mark ln s)) as [s1|s1];
      destruct G as [[G1 G2] _]; cbn [final] in G1, G2.
    + apply grows_Done. lia.
    + apply (grows_from m _ s s1); [lia|]. apply block_silent; assumption.
Qed.

Lemma block_methods cs :
  Forall (fun c' => method_sites m c' = 0%nat) (nested cs) ->
  forall s, grows m (top_level_sites m cs) s (exec_block L cs s).
Proof.
  induction cs as [|c cs IH]; intros H0 s.
  - apply grows_Done. reflexivity.
  - unfold nested in H0. cbn [flat_map] in H0. apply Forall_app in H0.
    destruct H0 as [H1 H2].
    unfold top_level_sites. cbn [map list_sum exec_block].
    apply (grows_trans m _ _ s (exec L c s)); [apply exec_methods; exact H1| |].
    + intros s1 ->. apply IH. exact H2.
    + intros s1 ->. reflexivity.
Qed.

End MethodEvents.

(** X14.  A run that completes has called a method once for every call
    site of it in the top-level statements of the script, when no
    statement nested in the loop or in a branch calls a method of that
    name: six times [visualize], once [savefig]. *)
Theorem method_calls_of_a_completed_run (L : Library) s m :
  run L = Done s ->
  called_only_at_top_level m notebook = true ->
  method_events m (log s) = top_level_sites m notebook.
Proof.
  intros E H0.
  assert (H : Forall (fun c' => method_sites m c' = 0%nat) (nested notebook)).
  { apply Forall_forall. intros c Hc.
    unfold called_only_at_top_level in H0.
    rewrite forallb_forall in H0. apply Nat.eqb_eq. apply H0. exact Hc. }
  destruct (block_methods L m notebook H start) as [_ G].
  unfold run in E. rewrite (G s E). apply Nat.add_0_r.
Qed.

Lemma method_calls_of_a_completed_run_witness :
  run Recorded.library = Done (final (run Recorded.library))
  /\ called_only_at_top_level "visualize" notebook = true
  /\ method_events "visualize" (log (final (run Recorded.library))) = 6%nat.
Proof.
  assert (E : run Recorded.library = Done (final (run Recorded.library)))
    by (vm_compute; reflexivity).
  assert (H : called_only_at_top_level "visualize" notebook = true)
    by (vm_compute; reflexivity).
  split; [exact E|]. split; [exact H|].
  exact (method_calls_of_a_completed_run Recorded.library _ "visualize" E H).
Defined.

(** ** The domain of interest *)

(** X15.  The domain of interest is read from the data directory that the
    problem is built from: line 133 formats the file name with the
    [data_path] of line 130 and passes it to [BitmapFunction] with the
    range [[1, 0]] and the bounding box of line 132, and [doI] is the
    interpolation of that function on the grid of [data], evaluated at
    [vis_mu]. *)
Theorem domain_of_interest_field (L : Library) s :
  run L = Done s ->
  exists f d g io v,
    lib_method L (VStr "{}/Domain_of_interest.png") "format"
      [VStr "../../../EXC_data"] [] = Some f
    /\ lib_call L (VLib "BitmapFunction") [f]
         [("range", VList (map VNum [1; 0]));
          ("bounding_box", VList [VList (map VNum [0; 0]); VList (map VNum [2; 1])])]
       = Some d
    /\ lookup "domain_of_interest" (vars s) = Some d
    /\ item L (read (vars s) "data") (VStr "grid") = Some g
    /\ lib_call L (VLib "pymor.discretizers.builtin.cg.InterpolationOperator")
         [g; d] [] = Some io
    /\ lib_method L io "as_vector" [read (vars s) "vis_mu"] [] = Some v
    /\ lookup "doI" (vars s) = Some v.
Proof.
  intros E.
  destruct (run_cut L 133 (prefix_of 133) (stmt_at 133) (suffix_of 133) s eq_refl E)
    as [s1 [s2 [E1 [E2 E3]]]].
  rewrite (unwritten L _ s2 s "domain_of_interest" E3 eq_refl).
  destruct (run_cut L 343 (prefix_of 343) (stmt_at 343) (suffix_of 343) s eq_refl E)
    as [t1 [t2 [F1 [F2 F3]]]].
  assert (Frest : exec_block L (stmt_at 343 :: suffix_of 343) t1 = Done s).
  { cbn [exec_block]. rewrite F2. exact F3. }
  rewrite (read_unwritten L _ t1 s "data" Frest eq_refl).
  rewrite (read_unwritten L _ t1 s "vis_mu" Frest eq_refl).
  rewrite (unwritten L _ t2 s "doI" F3 eq_refl).
  assert (Hd : lookup "domain_of_interest" (vars t1)
               = lookup "domain_of_interest" (vars s2)).
  { rewrite <- (unwritten L _ s2 s "domain_of_interest" E3 eq_refl).
    symmetry. apply (unwritten L _ t1 s "domain_of_interest" Frest eq_refl). }
  assert (Hp : lookup "data_path" (vars s1) = Some (VStr "../../../EXC_data")).
  { apply (literal_known L 130 (prefix_of 133) _ _ s1 _ _ _ eq_refl); try reflexivity.
    exact E1. }
  assert (Hb : lookup "bounding_box" (vars s1)
               = Some (VList [VList (map VNum [0; 0]); VList (map VNum [2; 1])])).
  { apply (literal_known L 132 (prefix_of 133) _ _ s1 _ _ _ eq_refl); try reflexivity.
    exact E1. }
  assert (Hf : lookup "BitmapFunction" (vars s1) = None)
    by apply (unwritten L _ start s1 "BitmapFunction" E1 eq_refl).
  assert (Hi : lookup "InterpolationOperator" (vars t1) =
               Some (VLib "pymor.discretizers.builtin.cg.InterpolationOperator")).
  { destruct (known_after L 328 (prefix_of 343) _ _ _ t1 "InterpolationOperator"
                eq_refl F1 eq_refl) as [sa [sb [Ea ->]]].
    rewrite (from_import_bound L _ _ _ sa sb Ea). simpl. apply lookup_update_same. }
  clear E E1 E3 F1 F3 Frest.
  change (stmt_at 133) with
    (Assign 133 (Name "domain_of_interest")
       (call "BitmapFunction"
          [method (Str "{}/Domain_of_interest.png") "format" [Name "data_path"] []]
          [("range", nums [1; 0]); ("bounding_box", Name "bounding_box")])) in E2.
  cbn in E2. unfold step, bind, lift, ret, emit, read in E2. cbn in E2.
  rewrite Hp, Hb, Hf in E2. cbn in E2.
  destruct (lib_method L (VStr "{}/Domain_of_interest.png") "format"
              [VStr "../../../EXC_data"] []) as [f|] eqn:Hfm; [|discriminate].
  cbn in E2.
  destruct (lib_call L (VLib "BitmapFunction") [f] _) as [d|] eqn:Hbm; [|discriminate].
  injection E2 as <-. cbn [vars] in Hd. rewrite lookup_update_same in Hd.
  cbn [vars]. rewrite lookup_update_same.
  change (stmt_at 343) with
    (Assign 343 (Name "doI") (as_vector (Name "domain_of_interest"))) in F2.
  cbn in F2. unfold step, bind, lift, ret, emit, read in F2. cbn in F2.
  rewrite Hi, Hd in F2. fold (read (vars t1) "data") in F2.
  fold (item L (read (vars t1) "data") (VStr "grid")) in F2.
  destruct (item L (read (vars t1) "data") (VStr "grid")) as [g|] eqn:Hg;
    [|discriminate].
  cbn in F2.
  destruct (lib_call L (VLib "pymor.discretizers.builtin.cg.InterpolationOperator")
              [g; d] []) as [io|] eqn:Hio; [|discriminate].
  fold (read (vars t1) "vis_mu") in F2.
  destruct (lib_method L io "as_vector" [read (vars t1) "vis_mu"] []) as [v|] eqn:Hv;
    [|discriminate].
  injection F2 as <-. cbn [vars].
  exists f, d, g, io, v. repeat split; try assumption; try reflexivity.
  apply lookup_update_same.
Qed.

Lemma domain_of_interest_field_witness :
  run Recorded.library = Done (final (run Recorded.library))
  /\ exists f d g io v,
       lib_method Recorded.library (VStr "{}/Domain_of_interest.png") "format"
         [VStr "../../../EXC_data"] [] = Some f
       /\ lib_call Recorded.library (VLib "BitmapFunction") [f]
            [("range", VList (map VNum [1; 0]));
             ("bounding_box", VList [VList (map VNum [0; 0]); VList (map VNum [2; 1])])]
          = Some d
       /\ lookup "domain_of_interest" (vars (final (run Recorded.library))) = Some d
       /\ item Recorded.library (read (vars (final (run Recorded.library))) "data")
            (VStr "grid") = Some g
       /\ lib_call Recorded.library
            (VLib "pymor.discretizers.builtin.cg.InterpolationOperator") [g; d] []
          = Some io
       /\ lib_method Recorded.library io "as_vector"
            [read (vars (final (run Recorded.library))) "vis_mu"] [] = Some v
       /\ lookup "doI" (vars (final (run Recorded.library))) = Some v.
Proof.
  assert (E : run Recorded.library = Done (final (run Recorded.library)))
    by (vm_compute; reflexivity).
  split; [exact E|].
  exact (domain_of_interest_field Recorded.library _ E).
Defined.
